(** * CreateEtchPacket: the packet builder of python-anvil

    A shallow embedding of
    [belfry_python_anvil/api_resources/mutations/create_etch_packet.py].

    Python passes objects by reference, and the builder relies on it: the
    constructor adopts the caller's own list when it is given a non-empty
    one, the mutators update the builder's collections in place,
    [add_signer] writes the id and the routing order into the signer object
    it was handed and appends that very object, [add_file] writes the
    guessed content type into the stream of the upload it was handed, and
    [create_payload] hands the two lists to the payload class.  So the
    objects that are written to live in a store indexed by references:
    signer objects, stream objects, signer lists (lists of references to
    signer objects), file lists and fill-payload dicts.  The builder object
    is the record of its attributes, three of them references.  Every
    method is a computation in a state-and-exception monad over the
    store. *)

From Stdlib Require Import ZArith.
From stdpp Require Import gmap strings list fin_maps pretty.

Set Warnings "-register-all".

Local Open Scope string_scope.
Local Open Scope list_scope.
Local Open Scope Z_scope.

(** ** Python exceptions *)

(** The three built-in classes the module can raise, and one class for
    whatever the model constructors of [api_resources.payload] raise. *)
Inductive exn_class := TypeError | ValueError | AttributeError | ModelError.

(** An exception instance: its class, [str(e)], and [e.__cause__] as set by
    [raise ... from e]. *)
Inductive exn := Exn (cls : exn_class) (msg : string) (cause : option exn).

Definition exn_cls (e : exn) : exn_class := let 'Exn c _ _ := e in c.
Definition exn_msg (e : exn) : string := let 'Exn _ m _ := e in m.
Definition exn_cause (e : exn) : option exn := let 'Exn _ _ c := e in c.

(** ** JSON-like caller data (fill payloads, page options) *)

Inductive json :=
| JNull
| JBool (b : bool)
| JNum (z : Z)
| JStr (s : string)
| JList (l : list json)
| JObj (l : list (string * json)).

(** ** Python dicts with string keys

    Insertion ordered; assigning to an existing key keeps its position. *)

Definition pydict (V : Type) := list (string * V).

Fixpoint dict_get {V} (k : string) (d : pydict V) : option V :=
  match d with
  | [] => None
  | (k', v) :: d' => if String.eqb k k' then Some v else dict_get k d'
  end.

Fixpoint dict_set {V} (k : string) (v : V) (d : pydict V) : pydict V :=
  match d with
  | [] => [(k, v)]
  | (k', v') :: d' =>
      if String.eqb k k' then (k', v) :: d' else (k', v') :: dict_set k v d'
  end.

Definition dict_keys {V} (d : pydict V) : list string := map fst d.

(** [x in l] for a list of strings. *)
Definition str_in (x : string) (l : list string) : bool :=
  existsb (String.eqb x) l.

(** ** References *)

Definition loc := positive.

(** ** The entities of [api_resources.payload] *)

Record SignerField := { sf_file_id : string; sf_field_id : string }.

(** [EtchSigner]: the attributes [add_signer] reads and writes, and the ones
    the example script sets. *)
Record EtchSigner := {
  s_name : string;
  s_email : string;
  s_fields : list SignerField;
  s_signer_type : string;
  s_id : option string;
  s_routing_order : option Z
}.

Definition set_id (i : string) (s : EtchSigner) : EtchSigner :=
  {| s_name := s_name s; s_email := s_email s; s_fields := s_fields s;
     s_signer_type := s_signer_type s; s_id := Some i;
     s_routing_order := s_routing_order s |}.

Definition set_routing_order (n : Z) (s : EtchSigner) : EtchSigner :=
  {| s_name := s_name s; s_email := s_email s; s_fields := s_fields s;
     s_signer_type := s_signer_type s; s_id := s_id s;
     s_routing_order := Some n |}.

(** A binary stream ([io.BufferedIOBase]).  [st_name] is its [name]
    attribute: a stream opened on a file has one, a stream in memory
    ([io.BytesIO]) has none.  [st_content_type = None] stands for
    [getattr(f, "content_type", None)] being [None]. *)
Record Stream := {
  st_name : option string;
  st_bytes : list Byte.byte;
  st_content_type : option string
}.

Definition set_content_type (c : option string) (st : Stream) : Stream :=
  {| st_name := st_name st; st_bytes := st_bytes st; st_content_type := c |}.

Record Base64Upload := { b64_data : string; b64_filename : string }.

(** What [DocumentUpload.file] can hold: a stream object, by reference, or
    an encoded upload. *)
Inductive UploadSource :=
| BufferedIO (r : loc)
| Encoded (b : Base64Upload).

Record SignatureField := {
  fld_id : string;
  fld_type : string;
  fld_page_num : Z
}.

(** [DocumentUpload]: the builder reads it and never writes to it; what it
    writes to is the stream the upload refers to. *)
Record DocumentUpload := {
  du_id : string;
  du_title : string;
  du_file : UploadSource;
  du_fields : list SignatureField
}.

Definition set_file (src : UploadSource) (d : DocumentUpload) : DocumentUpload :=
  {| du_id := du_id d; du_title := du_title d; du_file := src;
     du_fields := du_fields d |}.

(** [AttachableEtchFile]: an upload, or a reference to a file the service
    already has. *)
Inductive AttachableEtchFile :=
| Upload (d : DocumentUpload)
| CastRef (id : string) (cast_eid : string).

Definition file_id (f : AttachableEtchFile) : string :=
  match f with
  | Upload d => du_id d
  | CastRef i _ => i
  end.

(** The stream object an attachment refers to, if it does. *)
Definition stream_ref (f : AttachableEtchFile) : option loc :=
  match f with
  | Upload d =>
      match du_file d with
      | BufferedIO r => Some r
      | Encoded _ => None
      end
  | CastRef _ _ => None
  end.

Definition stream_refs (l : list AttachableEtchFile) : list loc :=
  omap stream_ref l.

(** Model instances are always truthy. *)
Definition file_truthy (f : AttachableEtchFile) : bool := true.

(** ** Truthiness of the optional attributes *)

Definition str_truthy (s : option string) : bool :=
  match s with
  | Some s' => negb (String.eqb s' "")
  | None => false
  end.

Definition int_truthy (z : option Z) : bool :=
  match z with
  | Some z' => negb (z' =? 0)
  | None => false
  end.

(** A string attribute that is [None] or empty: what [not x] accepts. *)
Definition unset (s : option string) : Prop := s = None ∨ s = Some "".

(** An optional model instance: [None] is falsy, an instance is truthy. *)
Definition obj_truthy {A} (o : option A) : bool :=
  match o with
  | Some _ => true
  | None => false
  end.

(** [x or 0] *)
Definition or_zero (z : option Z) : Z :=
  if int_truthy z then default 0 z else 0.

(** ** The store *)

Record World := {
  signer_objs : gmap loc EtchSigner;
  stream_objs : gmap loc Stream;
  signer_lists : gmap loc (list loc);
  file_lists : gmap loc (list AttachableEtchFile);
  dicts : gmap loc (pydict json);
  entropy : nat;
  debug_log : list (option string)
}.

Definition empty_world : World :=
  {| signer_objs := ∅; stream_objs := ∅; signer_lists := ∅; file_lists := ∅;
     dicts := ∅; entropy := 0%nat; debug_log := [] |}.

(** Reading through a reference.  A reference that names nothing in the
    store does not arise in Python; so that every read is defined, it reads
    as the empty object of its kind. *)
Definition blank_signer : EtchSigner :=
  {| s_name := ""; s_email := ""; s_fields := []; s_signer_type := "";
     s_id := None; s_routing_order := None |}.

Definition blank_stream : Stream :=
  {| st_name := None; st_bytes := []; st_content_type := None |}.

Definition signer_at (r : loc) (w : World) : EtchSigner :=
  default blank_signer (signer_objs w !! r).
Definition stream_at (r : loc) (w : World) : Stream :=
  default blank_stream (stream_objs w !! r).
Definition signer_refs_at (l : loc) (w : World) : list loc :=
  default [] (signer_lists w !! l).
Definition files_at (l : loc) (w : World) : list AttachableEtchFile :=
  default [] (file_lists w !! l).
Definition dict_at (l : loc) (w : World) : pydict json :=
  default ([] : pydict json) (dicts w !! l : option (pydict json)).

(** A signer list as a reader sees it: the objects its entries refer to. *)
Definition signers_at (l : loc) (w : World) : list EtchSigner :=
  map (fun r => signer_at r w) (signer_refs_at l w).

(** The references the store knows: those of its objects, and those its
    lists hold.  A new object gets a reference that is none of them. *)
Definition signer_refs_in_use (w : World) : gset loc :=
  dom (signer_objs w) ∪
  list_to_set (mjoin (map snd (map_to_list (signer_lists w)))).

Definition stream_refs_in_use (w : World) : gset loc :=
  dom (stream_objs w) ∪
  list_to_set
    (mjoin (map (fun e => stream_refs (snd e)) (map_to_list (file_lists w)))).

(** ** The monad: state plus exceptions.  A raised exception keeps the store
    as it was when it was raised. *)

Inductive Res (A : Type) :=
| Ok (a : A) (w : World)
| Raise (e : exn) (w : World).
Arguments Ok {A} a w.
Arguments Raise {A} e w.

Definition M (A : Type) := World → Res A.

Definition ret {A} (a : A) : M A := fun w => Ok a w.
Definition raise {A} (e : exn) : M A := fun w => Raise e w.
Definition bind {A B} (c : M A) (k : A → M B) : M B :=
  fun w => match c w with
           | Ok a w' => k a w'
           | Raise e w' => Raise e w'
           end.

(** [try: c except cls as e: h e] *)
Definition try_except {A} (c : M A) (cls : exn_class) (h : exn → M A) : M A :=
  fun w => match c w with
           | Ok a w' => Ok a w'
           | Raise e w' =>
               match cls, exn_cls e with
               | TypeError, TypeError | ValueError, ValueError
               | AttributeError, AttributeError
               | ModelError, ModelError => h e w'
               | _, _ => Raise e w'
               end
           end.

#[export] Instance M_ret : MRet M := @ret.
#[export] Instance M_bind : MBind M := fun A B k c => bind c k.

Definition world_of {A} (r : Res A) : World :=
  match r with Ok _ w => w | Raise _ w => w end.

(** ** The exceptions the module raises *)

(** [__init__] without a name and without a payload. *)
Definition init_error : exn :=
  Exn TypeError
    "Missing 2 required positional arguments: 'name' and 'signature_email_subject'"
    None.

(** [add_signer] on something that is neither a dict nor an [EtchSigner]. *)
Definition signer_type_error : exn :=
  Exn ValueError "Signer must be either a dict or EtchSigner type" None.

(** [add_signer] on a signer of an unknown kind. *)
Definition kind_error : exn :=
  Exn ValueError "Etch signer `signer_type` must be only 'embedded' or 'email" None.

(** [add_file] reading [file.file.name] on a stream that has no such
    attribute: the interpreter's own error, whose message also names the
    class of the stream, which the model does not record. *)
Definition attribute_error : exn :=
  Exn AttributeError "object has no attribute 'name'" None.

(** [add_file_payloads] on an id that is not a file's. *)
Definition missing_file_error (fid : string) : exn :=
  Exn ValueError
    ("`" +:+ fid +:+ "` was not added as a file. Please add "
     +:+ "the file first before adding a fill payload.") None.

(** [get_file_payloads] on a fill payload whose key is not a file's. *)
Definition stale_payload_error (key : string) : exn :=
  Exn ValueError
    ("`" +:+ key +:+ "` was not added as a file. Please add "
     +:+ "that file or remove its fill payload before "
     +:+ "attempting to create an Etch payload.") None.

(** [create_payload] without a name. *)
Definition name_error : exn :=
  Exn TypeError "`name` and `signature_email_subject` cannot be None" None.

(** [create_from_dict]: [raise ValueError(...) from e]. *)
Definition import_error (e : exn) : exn :=
  Exn ValueError
    ("`payload` must be a valid CreateEtchPacket instance or dict. "
     +:+ exn_msg e) (Some e).

(** The interpreter's own error for a keyword that names no parameter. *)
Definition unexpected_keyword_error (k : string) : exn :=
  Exn TypeError
    ("__init__() got an unexpected keyword argument '" +:+ k +:+ "'") None.

(** ** Allocation and in-place update *)

Definition set_signer_objs (m : gmap loc EtchSigner) (w : World) : World :=
  {| signer_objs := m; stream_objs := stream_objs w;
     signer_lists := signer_lists w; file_lists := file_lists w;
     dicts := dicts w; entropy := entropy w; debug_log := debug_log w |}.

Definition set_stream_objs (m : gmap loc Stream) (w : World) : World :=
  {| signer_objs := signer_objs w; stream_objs := m;
     signer_lists := signer_lists w; file_lists := file_lists w;
     dicts := dicts w; entropy := entropy w; debug_log := debug_log w |}.

Definition set_signer_lists (m : gmap loc (list loc)) (w : World) : World :=
  {| signer_objs := signer_objs w; stream_objs := stream_objs w;
     signer_lists := m; file_lists := file_lists w;
     dicts := dicts w; entropy := entropy w; debug_log := debug_log w |}.

Definition set_file_lists (m : gmap loc (list AttachableEtchFile)) (w : World) : World :=
  {| signer_objs := signer_objs w; stream_objs := stream_objs w;
     signer_lists := signer_lists w; file_lists := m;
     dicts := dicts w; entropy := entropy w; debug_log := debug_log w |}.

Definition set_dicts (m : gmap loc (pydict json)) (w : World) : World :=
  {| signer_objs := signer_objs w; stream_objs := stream_objs w;
     signer_lists := signer_lists w; file_lists := file_lists w;
     dicts := m; entropy := entropy w; debug_log := debug_log w |}.

Definition set_entropy (n : nat) (w : World) : World :=
  {| signer_objs := signer_objs w; stream_objs := stream_objs w;
     signer_lists := signer_lists w; file_lists := file_lists w;
     dicts := dicts w; entropy := n; debug_log := debug_log w |}.

Definition set_debug_log (lg : list (option string)) (w : World) : World :=
  {| signer_objs := signer_objs w; stream_objs := stream_objs w;
     signer_lists := signer_lists w; file_lists := file_lists w;
     dicts := dicts w; entropy := entropy w; debug_log := lg |}.

(** A new signer object, a new stream object. *)
Definition new_signer (s : EtchSigner) : M loc := fun w =>
  let r := fresh (signer_refs_in_use w) in
  Ok r (set_signer_objs (<[r := s]> (signer_objs w)) w).

Definition new_stream (st : Stream) : M loc := fun w =>
  let r := fresh (stream_refs_in_use w) in
  Ok r (set_stream_objs (<[r := st]> (stream_objs w)) w).

(** A new list object holding [l], a new dict holding [d]. *)
Definition new_signer_list (l : list loc) : M loc := fun w =>
  let r := fresh (dom (signer_lists w)) in
  Ok r (set_signer_lists (<[r := l]> (signer_lists w)) w).

Definition new_file_list (l : list AttachableEtchFile) : M loc := fun w =>
  let r := fresh (dom (file_lists w)) in
  Ok r (set_file_lists (<[r := l]> (file_lists w)) w).

Definition new_dict (d : pydict json) : M loc := fun w =>
  let r := fresh (dom (dicts w)) in
  Ok r (set_dicts (<[r := d]> (dicts w)) w).

Definition read_signer (r : loc) : M EtchSigner := fun w =>
  Ok (signer_at r w) w.
Definition read_stream (r : loc) : M Stream := fun w =>
  Ok (stream_at r w) w.
Definition read_signer_refs (l : loc) : M (list loc) := fun w =>
  Ok (signer_refs_at l w) w.
Definition read_signers (l : loc) : M (list EtchSigner) := fun w =>
  Ok (signers_at l w) w.
Definition read_files (l : loc) : M (list AttachableEtchFile) := fun w =>
  Ok (files_at l w) w.
Definition read_dict (l : loc) : M (pydict json) := fun w =>
  Ok (dict_at l w) w.

(** Assignment to the attributes of an object. *)
Definition store_signer (r : loc) (s : EtchSigner) : M unit := fun w =>
  Ok tt (set_signer_objs (<[r := s]> (signer_objs w)) w).

Definition store_stream (r : loc) (st : Stream) : M unit := fun w =>
  Ok tt (set_stream_objs (<[r := st]> (stream_objs w)) w).

(** [lst.append(x)] *)
Definition append_signer (l : loc) (x : loc) : M unit := fun w =>
  Ok tt (set_signer_lists (<[l := signer_refs_at l w ++ [x]]> (signer_lists w)) w).

Definition append_file (l : loc) (x : AttachableEtchFile) : M unit := fun w =>
  Ok tt (set_file_lists (<[l := files_at l w ++ [x]]> (file_lists w)) w).

(** [d[k] = v] *)
Definition store_item (l : loc) (k : string) (v : json) : M unit := fun w =>
  Ok tt (set_dicts (<[l := dict_set k v (dict_at l w)]> (dicts w)) w).

(** [logger.debug(...)] with the guessed type as its argument. *)
Definition log_debug (c : option string) : M unit := fun w =>
  Ok tt (set_debug_log (debug_log w ++ [c]) w).

Fixpoint for_each {A} (l : list A) (body : A → M unit) : M unit :=
  match l with
  | [] => ret tt
  | x :: l' => body x ;; for_each l' body
  end.

(** ** The payload model and the builder object *)

Definition EnableEmails : Type := bool + list string.

(** [CreateEtchPacketPayload]; [p_data] is the [payloads] dict of the
    [CreateEtchFilePayload] held in its [data] attribute. *)
Record CreateEtchPacketPayload := {
  p_name : option string;
  p_signature_email_subject : option string;
  p_signature_email_body : option string;
  p_signers : loc;
  p_files : loc;
  p_is_draft : bool;
  p_is_test : bool;
  p_data : loc;
  p_signature_page_options : pydict json;
  p_webhook_url : option string;
  p_reply_to_email : option string;
  p_reply_to_name : option string;
  p_merge_pdfs : option bool;
  p_enable_emails : option EnableEmails;
  p_create_cast_templates_from_uploads : option bool;
  p_duplicate_casts : option bool
}.

(** The instance attributes of [CreateEtchPacket]. *)
Record CreateEtchPacket := {
  name : option string;
  signature_email_subject : option string;
  signature_email_body : option string;
  signature_page_options : option (pydict json);
  signers : loc;
  files : loc;
  file_payloads : loc;
  is_draft : bool;
  is_test : bool;
  payload : option CreateEtchPacketPayload;
  webhook_url : option string;
  reply_to_name : option string;
  reply_to_email : option string;
  merge_pdfs : option bool;
  enable_emails : option EnableEmails;
  create_cast_templates_from_uploads : option bool;
  duplicate_casts : option bool
}.

(** The keyword arguments of [__init__] other than [signers] and [files];
    [None] is an argument left out, which gives the parameter its default:
    [False] for [is_draft], [True] for [is_test], [None] for the rest. *)
Record Fields := {
  k_name : option string;
  k_signature_email_subject : option string;
  k_signature_email_body : option string;
  k_file_payloads : option loc;
  k_signature_page_options : option (pydict json);
  k_is_draft : option bool;
  k_is_test : option bool;
  k_payload : option CreateEtchPacketPayload;
  k_webhook_url : option string;
  k_reply_to_name : option string;
  k_reply_to_email : option string;
  k_merge_pdfs : option bool;
  k_enable_emails : option EnableEmails;
  k_create_cast_templates_from_uploads : option bool;
  k_duplicate_casts : option bool
}.

Definition no_fields : Fields :=
  {| k_name := None; k_signature_email_subject := None;
     k_signature_email_body := None; k_file_payloads := None;
     k_signature_page_options := None; k_is_draft := None; k_is_test := None;
     k_payload := None; k_webhook_url := None; k_reply_to_name := None;
     k_reply_to_email := None; k_merge_pdfs := None; k_enable_emails := None;
     k_create_cast_templates_from_uploads := None; k_duplicate_casts := None |}.

(** [lst or []]: the caller's list when it is given and non-empty, a new
    empty list otherwise. *)
Definition signers_or_new (o : option loc) : M loc :=
  match o with
  | Some r => l ← read_signer_refs r;
              match l with [] => new_signer_list [] | _ :: _ => ret r end
  | None => new_signer_list []
  end.

Definition files_or_new (o : option loc) : M loc :=
  match o with
  | Some r => l ← read_files r;
              match l with [] => new_file_list [] | _ :: _ => ret r end
  | None => new_file_list []
  end.

Definition dict_or_new (o : option loc) : M loc :=
  match o with
  | Some r => d ← read_dict r;
              match d with [] => new_dict [] | _ :: _ => ret r end
  | None => new_dict []
  end.

(** [d or {}] on a dict held by value. *)
Definition or_empty (o : option (pydict json)) : pydict json := default [] o.

Definition __init__ (signers0 files0 : option loc) (kw : Fields) : M CreateEtchPacket :=
  if negb (obj_truthy (k_payload kw)) && negb (str_truthy (k_name kw))
  then raise init_error
  else
    sl ← signers_or_new signers0;
    fl ← files_or_new files0;
    fp ← dict_or_new (k_file_payloads kw);
    ret {| name := k_name kw;
           signature_email_subject := k_signature_email_subject kw;
           signature_email_body := k_signature_email_body kw;
           signature_page_options := k_signature_page_options kw;
           signers := sl;
           files := fl;
           file_payloads := fp;
           is_draft := default false (k_is_draft kw);
           is_test := default true (k_is_test kw);
           payload := k_payload kw;
           webhook_url := k_webhook_url kw;
           reply_to_name := k_reply_to_name kw;
           reply_to_email := k_reply_to_email kw;
           merge_pdfs := k_merge_pdfs kw;
           enable_emails := k_enable_emails kw;
           create_cast_templates_from_uploads :=
             k_create_cast_templates_from_uploads kw;
           duplicate_casts := k_duplicate_casts kw |}.

(** ** What the module imports from elsewhere

    [mimetypes.guess_type] is the standard library's; the model constructors
    [EtchSigner] and [DocumentUpload], called on an unpacked keyword mapping,
    validate it and either give the attributes of the new instance or raise;
    [random_suffix n] is the [n]-th draw from the entropy source behind
    [create_unique_id]. *)
Class Imports := {
  SignerKw : Type;
  FileKw : Type;
  EtchSigner_new : SignerKw → exn + EtchSigner;
  DocumentUpload_new : FileKw → exn + DocumentUpload;
  guess_type : string → option string * option string;
  random_suffix : nat → string
}.

(** A constructor call: its result, or its exception raised. *)
Definition construct {A} (r : exn + A) : M A :=
  match r with
  | inl e => raise e
  | inr a => ret a
  end.

Section Builder.
Context `{Imports}.

(** Modelled from the spec: [utils.create_unique_id] is not among the
    sources.  It returns a string beginning with the prefix followed by a
    randomized suffix, and has no side effect beyond consuming entropy. *)
Definition create_unique_id (prefix : string) : M string := fun w =>
  Ok (prefix +:+ random_suffix (entropy w)) (set_entropy (S (entropy w)) w).

(** Modelled from the spec: the class [CreateEtchFilePayload] is not among
    the sources.  It wraps the resolved fill-payload map as the auxiliary
    data block of the request; the block is part of the payload snapshot, so
    it holds its own copy of the map. *)
Definition CreateEtchFilePayload_new (payloads : loc) : M loc :=
  d ← read_dict payloads;
  new_dict d.

(** Modelled from the spec: the deep copy of a signer list that the payload
    takes, a new signer object for every entry. *)
Fixpoint copy_signers (l : list loc) : M (list loc) :=
  match l with
  | [] => ret []
  | r :: l' =>
      s ← read_signer r;
      r' ← new_signer s;
      rs ← copy_signers l';
      ret (r' :: rs)
  end.

(** Modelled from the spec: the deep copy of an attachment, with a new
    stream object for the bytes of a stream upload. *)
Definition copy_file (f : AttachableEtchFile) : M AttachableEtchFile :=
  match f with
  | Upload d =>
      match du_file d with
      | BufferedIO r =>
          st ← read_stream r;
          r' ← new_stream st;
          ret (Upload (set_file (BufferedIO r') d))
      | Encoded _ => ret f
      end
  | CastRef _ _ => ret f
  end.

(** Modelled from the spec: the deep copy of an attachment list. *)
Fixpoint copy_files (l : list AttachableEtchFile) : M (list AttachableEtchFile) :=
  match l with
  | [] => ret []
  | f :: l' =>
      f' ← copy_file f;
      fs ← copy_files l';
      ret (f' :: fs)
  end.

(** Modelled from the spec: the class [CreateEtchPacketPayload] is not among
    the sources.  The payload is a new, independently owned structure: it
    owns deep copies of the signer list and of the attachment list as they
    are at the moment of materialization, and keeps the packet-level fields
    as given. *)
Definition CreateEtchPacketPayload_new
    (is_test0 is_draft0 : bool) (name0 : option string)
    (signers0 files0 data0 : loc)
    (subject body : option string) (page_options : pydict json)
    (webhook reply_email reply_name : option string)
    (merge : option bool) (emails : option EnableEmails)
    (cast_templates dup_casts : option bool) : M CreateEtchPacketPayload :=
  sl ← read_signer_refs signers0;
  cs ← copy_signers sl;
  ps ← new_signer_list cs;
  fl ← read_files files0;
  cf ← copy_files fl;
  pf ← new_file_list cf;
  ret {| p_name := name0;
         p_signature_email_subject := subject;
         p_signature_email_body := body;
         p_signers := ps;
         p_files := pf;
         p_is_draft := is_draft0;
         p_is_test := is_test0;
         p_data := data0;
         p_signature_page_options := page_options;
         p_webhook_url := webhook;
         p_reply_to_email := reply_email;
         p_reply_to_name := reply_name;
         p_merge_pdfs := merge;
         p_enable_emails := emails;
         p_create_cast_templates_from_uploads := cast_templates;
         p_duplicate_casts := dup_casts |}.

(** What a caller may hand to [add_signer]: a dict, an [EtchSigner] object
    (by reference, as every Python object), or an object of any other
    type. *)
Inductive signer_arg :=
| AsDict (d : SignerKw)
| AsSigner (r : loc)
| AsOther.

(** The signer object [add_signer] works on, [data] in the source: the
    caller's object, reached through its reference, or the object just built
    from the caller's dict.  Nothing but [add_signer] refers to the latter
    until it is appended, so it enters the store when it is appended. *)
Inductive signer_handle :=
| Held (r : loc)
| Built.

(** Assignment to an attribute of [data]: the caller's object is updated in
    the store. *)
Definition write_through (h : signer_handle) (s : EtchSigner) : M unit :=
  match h with
  | Held r => store_signer r s
  | Built => ret tt
  end.

(** The reference of [data] that is appended. *)
Definition settle (h : signer_handle) (s : EtchSigner) : M loc :=
  match h with
  | Held r => ret r
  | Built => new_signer s
  end.

(** [max(l) + 1] over the routing orders of a non-empty signer list. *)
Definition next_routing_order (s0 : EtchSigner) (rest : list EtchSigner) : Z :=
  let all_signers := map (fun s => or_zero (s_routing_order s)) (s0 :: rest) in
  fold_left Z.max (tail all_signers) (hd 0 all_signers) + 1.

Definition add_signer (self : CreateEtchPacket) (signer : signer_arg) : M unit :=
  '(h, data) ← match signer with
               | AsDict d => s ← construct (EtchSigner_new d); ret (Built, s)
               | AsSigner r => s ← read_signer r; ret (Held r, s)
               | AsOther => raise signer_type_error
               end;
  if negb (str_in (s_signer_type data) ["embedded"; "email"])
  then raise kind_error
  else
    data ← (if negb (str_truthy (s_id data))
            then
              i ← create_unique_id "signer";
              write_through h (set_id i data);;
              ret (set_id i data)
            else ret data);
    data ← (if negb (int_truthy (s_routing_order data))
            then
              existing ← read_signers (signers self);
              let num := match existing with
                         | s0 :: rest => next_routing_order s0 rest
                         | [] => 1
                         end in
              write_through h (set_routing_order num data);;
              ret (set_routing_order num data)
            else ret data);
    r ← settle h data;
    append_signer (signers self) r.

Definition add_file (self : CreateEtchPacket) (file : AttachableEtchFile) : M unit :=
  match file with
  | Upload d =>
      match du_file d with
      | BufferedIO r =>
          st ← read_stream r;
          match st_content_type st with
          | None =>
              fname ← match st_name st with
                      | Some n => ret n
                      | None => raise attribute_error
                      end;
              let content_type := fst (guess_type fname) in
              log_debug content_type;;
              store_stream r (set_content_type content_type st)
          | Some _ => ret tt
          end
      | Encoded _ => ret tt
      end
  | CastRef _ _ => ret tt
  end;;
  append_file (files self) file.

(** [[f.id for f in self.files if f]] *)
Definition existing_files (l : list AttachableEtchFile) : list string :=
  map file_id (filter (fun f => file_truthy f = true) l).

Definition add_file_payloads (self : CreateEtchPacket) (fid : string)
    (fill_payload : json) : M unit :=
  fl ← read_files (files self);
  if negb (str_in fid (existing_files fl))
  then raise (missing_file_error fid)
  else store_item (file_payloads self) fid fill_payload.

Definition get_file_payloads (self : CreateEtchPacket) : M loc :=
  fl ← read_files (files self);
  d ← read_dict (file_payloads self);
  for_each (dict_keys d) (fun key =>
    if negb (str_in key (existing_files fl))
    then raise (stale_payload_error key)
    else ret tt);;
  ret (file_payloads self).

Definition create_payload (self : CreateEtchPacket) : M CreateEtchPacketPayload :=
  match payload self with
  | Some p => ret p
  | None =>
      if negb (str_truthy (name self))
      then raise name_error
      else
        payloads ← get_file_payloads self;
        data ← CreateEtchFilePayload_new payloads;
        CreateEtchPacketPayload_new
          (is_test self) (is_draft self) (name self)
          (signers self) (files self) data
          (signature_email_subject self) (signature_email_body self)
          (or_empty (signature_page_options self))
          (webhook_url self) (reply_to_email self) (reply_to_name self)
          (merge_pdfs self) (enable_emails self)
          (create_cast_templates_from_uploads self) (duplicate_casts self)
  end.

(** The dict given to [create_from_dict]: its entries under the names of
    the parameters of [__init__] other than [signers] and [files], its
    [signers] and [files] entries (lists of keyword mappings) when present,
    and the keys that name no parameter. *)
Record Mapping := {
  m_fields : Fields;
  m_signers : option (list SignerKw);
  m_files : option (list FileKw);
  m_other : list string
}.

(** The call of [cls] on the unpacked dict comprehension: the [signers] and
    [files] entries are left out, every other entry is passed on as a keyword
    argument, and a key that names no parameter makes the call itself raise
    a [TypeError]. *)
Definition call_with_filtered_keys (m : Mapping) : M CreateEtchPacket :=
  match m_other m with
  | k :: _ => raise (unexpected_keyword_error k)
  | [] => __init__ None None (m_fields m)
  end.

(** In the loops, [EtchSigner] and [DocumentUpload] are called on the listed
    mapping and the new object is handed to [add_signer] and [add_file]. *)
Definition create_from_dict (m : Mapping) : M CreateEtchPacket :=
  mutation ← try_except (call_with_filtered_keys m) TypeError (fun e =>
    raise (import_error e));
  match m_signers m with
  | Some l =>
      for_each l (fun signer =>
        s ← construct (EtchSigner_new signer);
        r ← new_signer s;
        add_signer mutation (AsSigner r))
  | None => ret tt
  end;;
  match m_files m with
  | Some l =>
      for_each l (fun file =>
        d ← construct (DocumentUpload_new file);
        add_file mutation (Upload d))
  | None => ret tt
  end;;
  ret mutation.

End Builder.

(** ** Reading a payload back, and sequences of builder mutations *)

(** A payload with its three references blanked: what is left are the
    packet-level fields. *)
Definition packet_fields (p : CreateEtchPacketPayload) : CreateEtchPacketPayload :=
  {| p_name := p_name p;
     p_signature_email_subject := p_signature_email_subject p;
     p_signature_email_body := p_signature_email_body p;
     p_signers := 1%positive;
     p_files := 1%positive;
     p_is_draft := p_is_draft p;
     p_is_test := p_is_test p;
     p_data := 1%positive;
     p_signature_page_options := p_signature_page_options p;
     p_webhook_url := p_webhook_url p;
     p_reply_to_email := p_reply_to_email p;
     p_reply_to_name := p_reply_to_name p;
     p_merge_pdfs := p_merge_pdfs p;
     p_enable_emails := p_enable_emails p;
     p_create_cast_templates_from_uploads :=
       p_create_cast_templates_from_uploads p;
     p_duplicate_casts := p_duplicate_casts p |}.

(** An attachment with the reference to its stream blanked. *)
Definition unlinked (f : AttachableEtchFile) : AttachableEtchFile :=
  match f with
  | Upload d =>
      match du_file d with
      | BufferedIO _ => Upload (set_file (BufferedIO 1%positive) d)
      | Encoded _ => f
      end
  | CastRef _ _ => f
  end.

(** An attachment as a reader sees it in store [w]: the attachment, and
    what its stream holds if it has one. *)
Definition file_view (w : World) (f : AttachableEtchFile)
    : AttachableEtchFile * option Stream :=
  (unlinked f, (fun r => stream_at r w) <$> stream_ref f).

Definition file_views_at (l : loc) (w : World)
    : list (AttachableEtchFile * option Stream) :=
  map (file_view w) (files_at l w).

(** Everything a reader of the payload can observe in store [w]. *)
Record Snapshot := {
  snap_fields : CreateEtchPacketPayload;
  snap_signers : list EtchSigner;
  snap_files : list (AttachableEtchFile * option Stream);
  snap_data : pydict json
}.

Definition snapshot (p : CreateEtchPacketPayload) (w : World) : Snapshot :=
  {| snap_fields := packet_fields p;
     snap_signers := signers_at (p_signers p) w;
     snap_files := file_views_at (p_files p) w;
     snap_data := dict_at (p_data p) w |}.

Section Mutations.
Context `{Imports}.

(** The three mutators of the builder. *)
Inductive mutation :=
| AddSigner (a : signer_arg)
| AddFile (f : AttachableEtchFile)
| AddFilePayloads (fid : string) (data : json).

Definition mutate (self : CreateEtchPacket) (m : mutation) : M unit :=
  match m with
  | AddSigner a => add_signer self a
  | AddFile f => add_file self f
  | AddFilePayloads fid data => add_file_payloads self fid data
  end.

(** The store after a series of mutator calls; a call that raises leaves
    the store it raised in, and the caller goes on. *)
Fixpoint mutate_all (self : CreateEtchPacket) (ms : list mutation) (w : World) : World :=
  match ms with
  | [] => w
  | m :: ms' => mutate_all self ms' (world_of (mutate self m w))
  end.

(** The [EtchSigner] an argument of [add_signer] stands for in store [w]:
    what the constructor makes of a dict, what a reference refers to. *)
Definition signer_of (a : signer_arg) (w : World) : option EtchSigner :=
  match a with
  | AsDict d => match EtchSigner_new d with inr s => Some s | inl _ => None end
  | AsSigner r => signer_objs w !! r
  | AsOther => None
  end.

(** The references to objects of the caller among the arguments. *)
Definition held_ref (a : signer_arg) : option loc :=
  match a with
  | AsSigner r => Some r
  | _ => None
  end.

Definition held_refs (args : list signer_arg) : list loc := omap held_ref args.

(** An argument that stands for a signer with property [P]: a reference to
    an object of the store that has it, or a dict that the constructor can
    only turn into a signer that has it. *)
Definition passes (P : EtchSigner → Prop) (w : World) (a : signer_arg) : Prop :=
  match a with
  | AsDict d => ∀ s, EtchSigner_new d = inr s → P s
  | AsSigner r => ∃ s, signer_objs w !! r = Some s ∧ P s
  | AsOther => True
  end.

(** The object handed to [add_signer] is not already an entry of the
    builder's signer list; a dict is never: the object built from it is
    new. *)
Definition new_to (self : CreateEtchPacket) (w : World) (a : signer_arg) : Prop :=
  ∀ r, held_ref a = Some r → r ∉ signer_refs_at (signers self) w.

(** The builder's three collections exist in the store and are not the ones
    a pre-supplied payload holds. *)
Definition owns_collections (self : CreateEtchPacket) (w : World) : Prop :=
  signers self ∈ dom (signer_lists w) ∧
  files self ∈ dom (file_lists w) ∧
  file_payloads self ∈ dom (dicts w) ∧
  ∀ p, payload self = Some p →
       p_signers p ≠ signers self ∧ p_files p ≠ files self ∧
       p_data p ≠ file_payloads self.

(** A mutator call that is not handed an object of the payload [p]: no
    signer object that the payload's signer list holds, no stream object of
    an upload in its file list. *)
Definition spares (p : CreateEtchPacketPayload) (w : World) (m : mutation) : Prop :=
  match m with
  | AddSigner a =>
      ∀ r, held_ref a = Some r → r ∉ signer_refs_at (p_signers p) w
  | AddFile f =>
      ∀ r, stream_ref f = Some r → r ∉ stream_refs (files_at (p_files p) w)
  | AddFilePayloads _ _ => True
  end.

(** One step of the bulk import: a listed signer or a listed file. *)
Inductive import_step :=
| ImportSigner (d : SignerKw)
| ImportFile (d : FileKw).

Definition import_steps (m : Mapping) : list import_step :=
  map ImportSigner (default [] (m_signers m)) ++
  map ImportFile (default [] (m_files m)).

Definition run_import_step (self : CreateEtchPacket) (st : import_step) : M unit :=
  match st with
  | ImportSigner d =>
      s ← construct (EtchSigner_new d);
      r ← new_signer s;
      add_signer self (AsSigner r)
  | ImportFile d => f ← construct (DocumentUpload_new d); add_file self (Upload f)
  end.

End Mutations.

(** ** What the mutators write, and what they may touch *)

Section Defaults.
Context `{Imports}.

(** The routing order given to a signer that has none, after the signers
    in [l]. *)
Definition default_routing_order (l : list EtchSigner) : Z :=
  match l with
  | s0 :: rest => next_routing_order s0 rest
  | [] => 1
  end.

Definition with_id (s : EtchSigner) (w : World) : EtchSigner :=
  if str_truthy (s_id s) then s
  else set_id ("signer" +:+ random_suffix (entropy w)) s.

Definition with_routing_order (l : list EtchSigner) (s : EtchSigner) : EtchSigner :=
  if int_truthy (s_routing_order s) then s
  else set_routing_order (default_routing_order l) s.

(** The reference [add_signer] appends for an argument: the one it was
    handed, or that of the object it builds. *)
Definition arg_ref (a : signer_arg) (w : World) : loc :=
  match a with
  | AsSigner r => r
  | _ => fresh (signer_refs_in_use w)
  end.

(** The signer [add_signer] checks, [data] in the source before the checks,
    or what the call raises before it has one. *)
Definition data_of (a : signer_arg) (w : World) : exn + EtchSigner :=
  match a with
  | AsDict d => EtchSigner_new d
  | AsSigner r => inr (signer_at r w)
  | AsOther => inl signer_type_error
  end.

(** The signer list as it reads once the object at [r] holds [s']. *)
Definition rewritten (r : loc) (s' : EtchSigner) (l : list loc) (w : World)
    : list EtchSigner :=
  map (fun r0 => if decide (r0 = r) then s' else signer_at r0 w) l.

(** The store after an [add_signer] that returns, for the signer [s] at
    reference [r]: the object at [r] has its id and its routing order, and
    [r] is the last entry of the builder's list. *)
Definition signed (self : CreateEtchPacket) (r : loc) (s : EtchSigner)
    (w : World) : World :=
  {| signer_objs :=
       <[r := with_routing_order (signers_at (signers self) w) (with_id s w)]>
         (signer_objs w);
     stream_objs := stream_objs w;
     signer_lists :=
       <[signers self := signer_refs_at (signers self) w ++ [r]]>
         (signer_lists w);
     file_lists := file_lists w;
     dicts := dicts w;
     entropy := if str_truthy (s_id s) then entropy w else S (entropy w);
     debug_log := debug_log w |}.

(** The stream whose name [add_file] reads: the stream of a stream upload,
    when it has no content type. *)
Definition untyped_stream (f : AttachableEtchFile) (w : World) : option loc :=
  match stream_ref f with
  | Some r =>
      match st_content_type (stream_at r w) with
      | None => Some r
      | Some _ => None
      end
  | None => None
  end.

(** [add_file] is about to read the name of a stream that has none. *)
Definition nameless (f : AttachableEtchFile) (w : World) : bool :=
  match untyped_stream f w with
  | Some r =>
      match st_name (stream_at r w) with
      | Some _ => false
      | None => true
      end
  | None => false
  end.

(** The store after an [add_file] that returns. *)
Definition filed (self : CreateEtchPacket) (f : AttachableEtchFile)
    (w : World) : World :=
  let guess r :=
    fst (guess_type (default "" (st_name (stream_at r w)))) in
  {| signer_objs := signer_objs w;
     stream_objs :=
       match untyped_stream f w with
       | Some r =>
           <[r := set_content_type (guess r) (stream_at r w)]> (stream_objs w)
       | None => stream_objs w
       end;
     signer_lists := signer_lists w;
     file_lists := <[files self := files_at (files self) w ++ [f]]> (file_lists w);
     dicts := dicts w;
     entropy := entropy w;
     debug_log :=
       match untyped_stream f w with
       | Some r => debug_log w ++ [guess r]
       | None => debug_log w
       end |}.

(** A stream once [add_file] has seen it: with the content type guessed
    from its name if it had none, as it was if it had one. *)
Definition typed (st : Stream) : Stream :=
  match st_content_type st with
  | None =>
      set_content_type (fst (guess_type (default "" (st_name st)))) st
  | Some _ => st
  end.

(** The first key of the fill-payload dict that is no file's id. *)
Definition stale_key (self : CreateEtchPacket) (w : World) : option string :=
  List.find
    (fun key => negb (str_in key (existing_files (files_at (files self) w))))
    (dict_keys (dict_at (file_payloads self) w)).

(** What [create_payload] runs once its checks have passed. *)
Definition assemble (self : CreateEtchPacket) : M CreateEtchPacketPayload :=
  data ← CreateEtchFilePayload_new (file_payloads self);
  CreateEtchPacketPayload_new
    (is_test self) (is_draft self) (name self)
    (signers self) (files self) data
    (signature_email_subject self) (signature_email_body self)
    (or_empty (signature_page_options self))
    (webhook_url self) (reply_to_email self) (reply_to_name self)
    (merge_pdfs self) (enable_emails self)
    (create_cast_templates_from_uploads self) (duplicate_casts self).

(** The payload of the builder's fields over three given references. *)
Definition payload_over (self : CreateEtchPacket) (ps pf pd : loc)
    : CreateEtchPacketPayload :=
  {| p_name := name self;
     p_signature_email_subject := signature_email_subject self;
     p_signature_email_body := signature_email_body self;
     p_signers := ps;
     p_files := pf;
     p_is_draft := is_draft self;
     p_is_test := is_test self;
     p_data := pd;
     p_signature_page_options := or_empty (signature_page_options self);
     p_webhook_url := webhook_url self;
     p_reply_to_email := reply_to_email self;
     p_reply_to_name := reply_to_name self;
     p_merge_pdfs := merge_pdfs self;
     p_enable_emails := enable_emails self;
     p_create_cast_templates_from_uploads :=
       create_cast_templates_from_uploads self;
     p_duplicate_casts := duplicate_casts self |}.

(** Outside the builder's own three collections, the collections of [w']
    are those of [w], and no collection of [w] has gone. *)
Definition frames (self : CreateEtchPacket) (w w' : World) : Prop :=
  (∀ r, r ≠ signers self → signer_lists w' !! r = signer_lists w !! r) ∧
  (∀ r, r ≠ files self → file_lists w' !! r = file_lists w !! r) ∧
  (∀ r, r ≠ file_payloads self → dicts w' !! r = dicts w !! r) ∧
  dom (signer_lists w) ⊆ dom (signer_lists w') ∧
  dom (file_lists w) ⊆ dom (file_lists w') ∧
  dom (dicts w) ⊆ dom (dicts w').

(** Every collection of [w] and every signer object that [w] knows is in
    [w'] as it is in [w]. *)
Definition preserved (w w' : World) : Prop :=
  (∀ r, r ∈ signer_refs_in_use w → signer_objs w' !! r = signer_objs w !! r) ∧
  (∀ l, l ∈ dom (signer_lists w) → signer_lists w' !! l = signer_lists w !! l) ∧
  (∀ l, l ∈ dom (file_lists w) → file_lists w' !! l = file_lists w !! l) ∧
  (∀ l, l ∈ dom (dicts w) → dicts w' !! l = dicts w !! l).

(** So is every stream object that [w] knows. *)
Definition streams_preserved (w w' : World) : Prop :=
  ∀ r, r ∈ stream_refs_in_use w → stream_objs w' !! r = stream_objs w !! r.

(** The lists, the dict and the objects of the payload [p] are in [w'] as
    they are in [w]. *)
Definition payload_kept (p : CreateEtchPacketPayload) (w w' : World) : Prop :=
  signer_lists w' !! p_signers p = signer_lists w !! p_signers p ∧
  (∀ r, r ∈ signer_refs_at (p_signers p) w →
        signer_objs w' !! r = signer_objs w !! r) ∧
  file_lists w' !! p_files p = file_lists w !! p_files p ∧
  (∀ r, r ∈ stream_refs (files_at (p_files p) w) →
        stream_objs w' !! r = stream_objs w !! r) ∧
  dicts w' !! p_data p = dicts w !! p_data p.

End Defaults.

(** ** The fill-payload dict against the file list *)

(** Every key of the builder's fill-payload dict is the id of a file in its
    file list: what [get_file_payloads] checks. *)
Definition keys_known (self : CreateEtchPacket) (w : World) : Prop :=
  Forall (fun k => k ∈ map file_id (files_at (files self) w))
         (dict_keys (dict_at (file_payloads self) w)).

(** The signer as constructed and the signer as appended agree on all but
    the id and the routing order. *)
Definition same_party (s s' : EtchSigner) : Prop :=
  s_name s' = s_name s ∧ s_email s' = s_email s ∧
  s_fields s' = s_fields s ∧ s_signer_type s' = s_signer_type s.

(** ** A sample environment and sample objects *)

Definition ends_with (suffix s : string) : bool :=
  String.eqb
    (String.substring (String.length s - String.length suffix)
       (String.length suffix) s)
    suffix.

Definition sample_guess_type (fname : string) : option string * option string :=
  if ends_with ".pdf" fname then (Some "application/pdf", None)
  else if ends_with ".png" fname then (Some "image/png", None)
  else if ends_with ".txt" fname then (Some "text/plain", None)
  else (None, None).

Definition sample_signer_field (j : json) : option SignerField :=
  match j with
  | JObj o =>
      match dict_get "file_id" o, dict_get "field_id" o with
      | Some (JStr f), Some (JStr i) =>
          Some {| sf_file_id := f; sf_field_id := i |}
      | _, _ => None
      end
  | _ => None
  end.

(** A signer constructor that insists on [name], [email] and [fields]. *)
Definition sample_signer_of_kwargs (kw : pydict json) : exn + EtchSigner :=
  match dict_get "name" kw, dict_get "email" kw, dict_get "fields" kw with
  | Some (JStr n), Some (JStr e), Some (JList fs) =>
      match mapM sample_signer_field fs with
      | Some fields =>
          inr {| s_name := n; s_email := e; s_fields := fields;
                 s_signer_type :=
                   match dict_get "signer_type" kw with
                   | Some (JStr t) => t
                   | _ => "email"
                   end;
                 s_id :=
                   match dict_get "id" kw with
                   | Some (JStr i) => Some i
                   | _ => None
                   end;
                 s_routing_order :=
                   match dict_get "routing_order" kw with
                   | Some (JNum z) => Some z
                   | _ => None
                   end |}
      | None => inl (Exn ModelError "validation error for EtchSigner" None)
      end
  | _, _, _ => inl (Exn ModelError "validation error for EtchSigner" None)
  end.

Definition sample_signature_field (j : json) : option SignatureField :=
  match j with
  | JObj o =>
      match dict_get "id" o, dict_get "type" o, dict_get "page_num" o with
      | Some (JStr i), Some (JStr t), Some (JNum n) =>
          Some {| fld_id := i; fld_type := t; fld_page_num := n |}
      | _, _, _ => None
      end
  | _ => None
  end.

(** An upload constructor that insists on [id], [title], [file] and
    [fields]; the [file] entry, an object, is kept beside the dict. *)
Definition sample_upload_of_kwargs (kw : pydict json * option UploadSource)
    : exn + DocumentUpload :=
  match dict_get "id" (fst kw), dict_get "title" (fst kw), snd kw,
        dict_get "fields" (fst kw) with
  | Some (JStr i), Some (JStr t), Some src, Some (JList fs) =>
      match mapM sample_signature_field fs with
      | Some fields =>
          inr {| du_id := i; du_title := t; du_file := src;
                 du_fields := fields |}
      | None => inl (Exn ModelError "validation error for DocumentUpload" None)
      end
  | _, _, _, _ => inl (Exn ModelError "validation error for DocumentUpload" None)
  end.

Definition sample_imports : Imports :=
  {| SignerKw := pydict json;
     FileKw := pydict json * option UploadSource;
     EtchSigner_new := sample_signer_of_kwargs;
     DocumentUpload_new := sample_upload_of_kwargs;
     guess_type := sample_guess_type;
     random_suffix := fun n => "-" +:+ pretty (N.of_nat n) |}.

Definition named (n : string) : Fields :=
  {| k_name := Some n; k_signature_email_subject := None;
     k_signature_email_body := None; k_file_payloads := None;
     k_signature_page_options := None; k_is_draft := None; k_is_test := None;
     k_payload := None; k_webhook_url := None; k_reply_to_name := None;
     k_reply_to_email := None; k_merge_pdfs := None; k_enable_emails := None;
     k_create_cast_templates_from_uploads := None; k_duplicate_casts := None |}.

Definition jackie (kind : string) (order : option Z) : EtchSigner :=
  {| s_name := "Jackie"; s_email := "jackie@example.com";
     s_fields := [ {| sf_file_id := "myNewFile"; sf_field_id := "sign1" |} ];
     s_signer_type := kind; s_id := None; s_routing_order := order |}.

Definition pdf_bytes : list Byte.byte := [Byte.x25; Byte.x50; Byte.x44; Byte.x46].

(** The objects a caller has at hand before there is any builder: five
    signer objects, a stream opened on the file [report.pdf], and a stream
    in memory, which has no name. *)
Definition desk : World :=
  {| signer_objs :=
       list_to_map
         [ (10%positive, jackie "email" None);
           (11%positive, jackie "embedded" None);
           (12%positive, jackie "sms" None);
           (13%positive, jackie "embedded" (Some 7));
           (14%positive, jackie "email" (Some 0)) ];
     stream_objs :=
       list_to_map
         [ (30%positive, {| st_name := Some "report.pdf";
                            st_bytes := pdf_bytes;
                            st_content_type := None |});
           (31%positive, {| st_name := None;
                            st_bytes := pdf_bytes;
                            st_content_type := None |}) ];
     signer_lists := ∅;
     file_lists := ∅;
     dicts := ∅;
     entropy := 0%nat;
     debug_log := [] |}.

Definition report_pdf : DocumentUpload :=
  {| du_id := "myNewFile"; du_title := "Please sign this important form";
     du_file := BufferedIO 30%positive;
     du_fields := [ {| fld_id := "sign1"; fld_type := "signature";
                       fld_page_num := 0 |} ] |}.


(** An upload in base64 as the example script builds it. *)
Definition encoded_pdf : DocumentUpload :=
  {| du_id := "myNewFile"; du_title := "Please sign this important form";
     du_file := Encoded {| b64_data := "JVBERg==";
                           b64_filename := "a_custom_filename.pdf" |};
     du_fields := [] |}.

Definition sam (kind : string) : pydict json :=
  [("name", JStr "Sam"); ("email", JStr "sam@example.com");
   ("fields", JList [JObj [("file_id", JStr "myNewFile");
                           ("field_id", JStr "sign1")]]);
   ("signer_type", JStr kind)].

(** Three signers without a routing order, the second one given as a dict. *)
Definition three_signers : list (@signer_arg sample_imports) :=
  [ @AsSigner sample_imports 10%positive;
    @AsDict sample_imports (sam "embedded");
    @AsSigner sample_imports 11%positive ].

(** One signer object handed in twice. *)
Definition same_signer_twice : list (@signer_arg sample_imports) :=
  [ @AsSigner sample_imports 10%positive;
    @AsSigner sample_imports 10%positive ].

(** A builder and a payload over given references, all else at its default. *)
Definition packet_at (n : option string) (p : option CreateEtchPacketPayload)
    (sl fl fp : loc) : CreateEtchPacket :=
  {| name := n; signature_email_subject := None;
     signature_email_body := None; signature_page_options := None;
     signers := sl; files := fl; file_payloads := fp;
     is_draft := false; is_test := true;
     payload := p; webhook_url := None; reply_to_name := None;
     reply_to_email := None; merge_pdfs := None; enable_emails := None;
     create_cast_templates_from_uploads := None; duplicate_casts := None |}.

Definition payload_at (n : string) (sl fl d : loc) : CreateEtchPacketPayload :=
  {| p_name := Some n; p_signature_email_subject := None;
     p_signature_email_body := None; p_signers := sl; p_files := fl;
     p_is_draft := false; p_is_test := true; p_data := d;
     p_signature_page_options := []; p_webhook_url := None;
     p_reply_to_email := None; p_reply_to_name := None; p_merge_pdfs := None;
     p_enable_emails := None; p_create_cast_templates_from_uploads := None;
     p_duplicate_casts := None |}.

(** The builder of the example script, and the store it lives in. *)
Definition fresh_packet : Res CreateEtchPacket :=
  __init__ None None (named "Etch packet with existing template") desk.

Definition packet0 : CreateEtchPacket :=
  match fresh_packet with
  | Ok b _ => b
  | Raise _ _ => packet_at None None 1%positive 1%positive 1%positive
  end.

Definition world0 : World := world_of fresh_packet.

(** The example builder after the attachment [a] and the signer at
    reference 13 were added to it. *)
Definition world_a : World :=
  @mutate_all sample_imports packet0
    [ @AddFile sample_imports (CastRef "a" "cast-a");
      @AddSigner sample_imports (@AsSigner sample_imports 13%positive) ]
    world0.

(** A store with two sets of collections beside the objects on the desk:
    at reference 1 a signer, the attachment [a] and a fill payload for
    [ghost], which is no attachment; at reference 2 the collections of a
    payload built beforehand. *)
Definition world12 : World :=
  {| signer_objs :=
       <[20%positive := jackie "email" (Some 1)]>
         (<[21%positive := jackie "embedded" (Some 1)]> (signer_objs desk));
     stream_objs := stream_objs desk;
     signer_lists := list_to_map [ (1%positive, [20%positive]);
                                   (2%positive, [21%positive]) ];
     file_lists := list_to_map [ (1%positive, [CastRef "a" "cast-a"]);
                                 (2%positive, [CastRef "b" "cast-b"]) ];
     dicts := list_to_map [ (1%positive, [("ghost", JStr "prefill")]);
                            (2%positive, []) ];
     entropy := 0%nat;
     debug_log := [] |}.

Definition prebuilt : CreateEtchPacketPayload :=
  payload_at "prebuilt" 2%positive 2%positive 2%positive.

(** A builder holding the pre-built payload, and one without it. *)
Definition passthrough_packet : CreateEtchPacket :=
  packet_at None (Some prebuilt) 1%positive 1%positive 1%positive.

Definition open_packet : CreateEtchPacket :=
  packet_at (Some "open") None 1%positive 1%positive 1%positive.

(** A builder constructed over the very lists of the pre-built payload it
    is handed. *)
Definition lending_fields : Fields :=
  {| k_name := Some "lender"; k_signature_email_subject := None;
     k_signature_email_body := None; k_file_payloads := None;
     k_signature_page_options := None; k_is_draft := None; k_is_test := None;
     k_payload := Some prebuilt; k_webhook_url := None;
     k_reply_to_name := None; k_reply_to_email := None; k_merge_pdfs := None;
     k_enable_emails := None; k_create_cast_templates_from_uploads := None;
     k_duplicate_casts := None |}.

Definition lending_construction : Res CreateEtchPacket :=
  __init__ (Some 2%positive) (Some 2%positive) lending_fields world12.

Definition lender : CreateEtchPacket :=
  match lending_construction with
  | Ok b _ => b
  | Raise _ _ => packet_at None None 1%positive 1%positive 1%positive
  end.

Definition lender_world : World := world_of lending_construction.

(** The payload materialized from the example builder, and four later calls
    on the builder, the last of which raises. *)
Definition payload_a : CreateEtchPacketPayload :=
  match create_payload packet0 world_a with
  | Ok p _ => p
  | Raise _ _ => payload_at "" 1%positive 1%positive 1%positive
  end.

Definition world_a1 : World :=
  world_of (create_payload packet0 world_a).

Definition later_calls : list (@mutation sample_imports) :=
  [ @AddSigner sample_imports (@AsSigner sample_imports 10%positive);
    @AddFile sample_imports (Upload report_pdf);
    @AddFilePayloads sample_imports "a" (JStr "prefill");
    @AddSigner sample_imports (@AsSigner sample_imports 12%positive) ].

(** A mapping for the bulk import that lists a signer of kind [sms]. *)
Definition sms_mapping : @Mapping sample_imports :=
  @Build_Mapping sample_imports (named "imported") (Some [sam "sms"]) None [].

(** A mapping with a key that names no parameter, and one that imports
    cleanly. *)
Definition misspelt_mapping : @Mapping sample_imports :=
  @Build_Mapping sample_imports (named "imported") None None ["nmae"].

Definition clean_mapping : @Mapping sample_imports :=
  @Build_Mapping sample_imports (named "imported")
    (Some [sam "email"])
    (Some [([("id", JStr "myNewFile"); ("title", JStr "Form");
             ("fields", JList [])],
            Some (du_file report_pdf))])
    [].

(** The example builder's three later calls that return. *)
Definition calls_that_return : list (@mutation sample_imports) :=
  [ @AddFile sample_imports (Upload report_pdf);
    @AddFilePayloads sample_imports "myNewFile" (JStr "prefill");
    @AddSigner sample_imports (@AsSigner sample_imports 10%positive) ].

(** A construction over collections of the caller: the signer list and the
    file list at reference 1, which are not empty, and the dict at
    reference 2, which is. *)
Definition sharing_fields : Fields :=
  {| k_name := Some "shared"; k_signature_email_subject := None;
     k_signature_email_body := None; k_file_payloads := Some 2%positive;
     k_signature_page_options := None; k_is_draft := None; k_is_test := None;
     k_payload := None; k_webhook_url := None; k_reply_to_name := None;
     k_reply_to_email := None; k_merge_pdfs := None; k_enable_emails := None;
     k_create_cast_templates_from_uploads := None; k_duplicate_casts := None |}.

Definition shared_construction : Res CreateEtchPacket :=
  __init__ (Some 1%positive) (Some 1%positive) sharing_fields world12.

Definition shared_packet : CreateEtchPacket :=
  match shared_construction with
  | Ok b _ => b
  | Raise _ _ => packet_at None None 1%positive 1%positive 1%positive
  end.

Definition shared_world : World := world_of shared_construction.

(** A signer added late, without an id or a routing order, to the builder
    over reference 1; the encoded upload added to the example builder; the
    three signers added to the builder over reference 1; and the clean
    bulk import. *)
Definition late_signer : @signer_arg sample_imports :=
  @AsSigner sample_imports 11%positive.

Definition world12_signed : World :=
  world_of (@add_signer sample_imports open_packet late_signer world12).

Definition world0_filed : World :=
  world_of (@add_file sample_imports packet0 (Upload encoded_pdf) world0).

Definition world12_three : World :=
  world_of (for_each three_signers (@add_signer sample_imports open_packet)
              world12).

Definition imported : Res CreateEtchPacket :=
  create_from_dict clean_mapping desk.

Definition imported_packet : CreateEtchPacket :=
  match imported with
  | Ok b _ => b
  | Raise _ _ => packet_at None None 1%positive 1%positive 1%positive
  end.

Definition imported_world : World := world_of imported.

(** * Properties *)

(** ** The monad *)

Lemma bind_inv_ok {A B} (c : M A) (k : A → M B) w b w2 :
  (c ≫= k) w = Ok b w2 → ∃ a w1, c w = Ok a w1 ∧ k a w1 = Ok b w2.
Proof.
  unfold mbind, M_bind, bind. destruct (c w) as [a w1|e w1]; [eauto|discriminate].
Qed.

Ltac run := unfold mbind, M_bind, bind, mret, M_ret, ret, raise, construct in *.

(** ** Strings, dicts and maxima *)

Arguments str_in : simpl never.

Lemma str_in_elem_of (x : string) (l : list string) :
  str_in x l = true ↔ x ∈ l.
Proof.
  unfold str_in. rewrite existsb_exists. split.
  - intros (y & Hy & E). apply String.eqb_eq in E. subst.
    now apply list_elem_of_In.
  - intros Hx. exists x. split; [now apply list_elem_of_In|apply String.eqb_refl].
Qed.

Lemma str_in_not_elem_of (x : string) (l : list string) :
  str_in x l = false ↔ x ∉ l.
Proof.
  rewrite <- str_in_elem_of. destruct (str_in x l); split; intros; congruence.
Qed.

Lemma str_truthy_false (o : option string) :
  str_truthy o = false ↔ o = None ∨ o = Some "".
Proof.
  destruct o as [s|]; simpl; [|tauto].
  destruct (String.eqb_spec s "") as [->|Hne]; simpl.
  - split; auto.
  - split; [discriminate|]. intros [[=]|[=]]. congruence.
Qed.

Lemma dict_get_set_eq {V} (k : string) (v : V) (d : pydict V) :
  dict_get k (dict_set k v d) = Some v.
Proof.
  induction d as [|[k' v'] d IH]; simpl.
  - now rewrite String.eqb_refl.
  - destruct (String.eqb k k') eqn:E; simpl; rewrite E; auto.
Qed.

Lemma dict_get_set_ne {V} (k k2 : string) (v : V) (d : pydict V) :
  k2 ≠ k → dict_get k2 (dict_set k v d) = dict_get k2 d.
Proof.
  intros Hne. induction d as [|[k' v'] d IH]; simpl.
  - destruct (String.eqb_spec k2 k); congruence.
  - destruct (String.eqb_spec k k'); simpl.
    + subst k'. destruct (String.eqb_spec k2 k); congruence.
    + now rewrite IH.
Qed.

Lemma fold_max_le (l : list Z) (a : Z) :
  a ≤ fold_left Z.max l a ∧ Forall (fun x => x ≤ fold_left Z.max l a) l.
Proof.
  revert a. induction l as [|x l IH]; intros a; simpl.
  - split; [lia|constructor].
  - destruct (IH (Z.max a x)) as [H1 H2]. split; [lia|].
    constructor; [lia|assumption].
Qed.

Lemma fold_max_elem (l : list Z) (a : Z) :
  fold_left Z.max l a ∈ a :: l.
Proof.
  revert a. induction l as [|x l IH]; intros a; simpl.
  - apply list_elem_of_here.
  - specialize (IH (Z.max a x)).
    apply elem_of_cons in IH as [E|IH].
    + rewrite E. destruct (Z.max_spec a x) as [[_ ->]|[_ ->]].
      * apply list_elem_of_further, list_elem_of_here.
      * apply list_elem_of_here.
    + now do 2 apply list_elem_of_further.
Qed.

(** The default routing order after a non-empty list is one more than the
    greatest routing order in it. *)
Lemma next_routing_order_spec (s0 : EtchSigner) (rest : list EtchSigner) (k : Z) :
  Forall (fun s => or_zero (s_routing_order s) ≤ k) (s0 :: rest) →
  k ∈ map (fun s => or_zero (s_routing_order s)) (s0 :: rest) →
  next_routing_order s0 rest = k + 1.
Proof.
  intros Hle Hin. unfold next_routing_order. simpl hd. simpl tail.
  set (f := fun s => or_zero (s_routing_order s)) in *.
  set (mx := fold_left Z.max (map f rest) (f s0)).
  assert (Hmx : mx ∈ map f (s0 :: rest)) by apply fold_max_elem.
  assert (Hub : mx ≤ k).
  { apply list_elem_of_fmap in Hmx as (s & -> & Hs).
    rewrite Forall_forall in Hle. now apply Hle. }
  assert (Hlb : k ≤ mx).
  { destruct (fold_max_le (map f rest) (f s0)) as [H1 H2].
    simpl in Hin. apply elem_of_cons in Hin as [->|Hin]; [exact H1|].
    rewrite Forall_forall in H2. now apply H2. }
  change (mx + 1 = k + 1). lia.
Qed.

Lemma or_zero_Some (z : Z) : or_zero (Some z) = z.
Proof. unfold or_zero. simpl. destruct (Z.eqb_spec z 0); simpl; congruence. Qed.

Lemma for_each_cons_ok {A} (x : A) (l : list A) (body : A → M unit) w w' :
  for_each (x :: l) body w = Ok tt w' →
  ∃ w1, body x w = Ok tt w1 ∧ for_each l body w1 = Ok tt w'.
Proof.
  simpl. intros (u & w1 & E1 & E2)%bind_inv_ok. destruct u. eauto.
Qed.

(** ** The store *)

Lemma default_cons_is_Some {A} (o : option (list A)) (x : A) (l : list A) :
  default [] o = x :: l → is_Some o.
Proof. destruct o; [eauto|discriminate]. Qed.

(** The references a stored list holds are in use. *)
Lemma listed_signer_in_use (w : World) (l r : loc) :
  r ∈ signer_refs_at l w → r ∈ signer_refs_in_use w.
Proof.
  unfold signer_refs_at, signer_refs_in_use. intros Hr.
  destruct (signer_lists w !! l) as [refs|] eqn:El;
    [|now apply elem_of_nil in Hr].
  apply elem_of_union_r, elem_of_list_to_set, list_elem_of_join.
  exists refs. split; [exact Hr|].
  apply list_elem_of_fmap. exists (l, refs). split; [reflexivity|].
  now apply elem_of_map_to_list.
Qed.

Lemma signer_obj_in_use (w : World) (r : loc) :
  r ∈ dom (signer_objs w) → r ∈ signer_refs_in_use w.
Proof. intros Hr. now apply elem_of_union_l. Qed.

Lemma in_use_inv (w : World) (r : loc) :
  r ∈ signer_refs_in_use w →
  r ∈ dom (signer_objs w) ∨ ∃ l, r ∈ signer_refs_at l w.
Proof.
  unfold signer_refs_in_use. intros [Hr|Hr]%elem_of_union; [now left|right].
  apply elem_of_list_to_set, list_elem_of_join in Hr as (refs & Hr & Hin).
  apply list_elem_of_fmap in Hin as ([l refs'] & -> & Hin).
  apply elem_of_map_to_list in Hin. exists l. unfold signer_refs_at.
  now rewrite Hin.
Qed.

Lemma listed_stream_in_use (w : World) (l r : loc) :
  r ∈ stream_refs (files_at l w) → r ∈ stream_refs_in_use w.
Proof.
  unfold files_at, stream_refs_in_use. intros Hr.
  destruct (file_lists w !! l) as [fs|] eqn:El;
    [|now apply elem_of_nil in Hr].
  apply elem_of_union_r, elem_of_list_to_set, list_elem_of_join.
  exists (stream_refs fs). split; [exact Hr|].
  apply list_elem_of_fmap. exists (l, fs). split; [reflexivity|].
  now apply elem_of_map_to_list.
Qed.

Lemma stream_in_use_inv (w : World) (r : loc) :
  r ∈ stream_refs_in_use w →
  r ∈ dom (stream_objs w) ∨ ∃ l, r ∈ stream_refs (files_at l w).
Proof.
  unfold stream_refs_in_use. intros [Hr|Hr]%elem_of_union; [now left|right].
  apply elem_of_list_to_set, list_elem_of_join in Hr as (refs & Hr & Hin).
  apply list_elem_of_fmap in Hin as ([l fs] & -> & Hin).
  apply elem_of_map_to_list in Hin. exists l. unfold files_at.
  now rewrite Hin.
Qed.

(** A new object is none of the objects in use. *)
Lemma fresh_signer_not_in_use (w : World) :
  fresh (signer_refs_in_use w) ∉ signer_refs_in_use w.
Proof. apply is_fresh. Qed.

Lemma fresh_signer_not_listed (w : World) (l : loc) :
  fresh (signer_refs_in_use w) ∉ signer_refs_at l w.
Proof.
  intros Hr. apply (fresh_signer_not_in_use w). eapply listed_signer_in_use, Hr.
Qed.

Lemma fresh_signer_not_obj (w : World) :
  signer_objs w !! fresh (signer_refs_in_use w) = None.
Proof.
  apply not_elem_of_dom. intros Hr.
  apply (fresh_signer_not_in_use w). now apply signer_obj_in_use.
Qed.

Section FrameFacts.
Context `{Imports}.

Lemma frames_refl self w : frames self w w.
Proof. repeat split; done. Qed.

Lemma frames_trans self w1 w2 w3 :
  frames self w1 w2 → frames self w2 w3 → frames self w1 w3.
Proof.
  intros (A1 & B1 & C1 & D1 & E1 & F1) (A2 & B2 & C2 & D2 & E2 & F2).
  split; [|split; [|split; [|split; [|split]]]].
  - intros r Hr. now rewrite A2, A1.
  - intros r Hr. now rewrite B2, B1.
  - intros r Hr. now rewrite C2, C1.
  - set_solver.
  - set_solver.
  - set_solver.
Qed.

(** Ownership lasts as long as the store moves within the frame. *)
Lemma frames_owns self w w' :
  frames self w w' → owns_collections self w → owns_collections self w'.
Proof.
  intros (_ & _ & _ & D & E & F) (Hs & Hf & Hd & Hp).
  split; [|split; [|split]]; [now apply D|now apply E|now apply F|exact Hp].
Qed.

Lemma payload_kept_refl p w : payload_kept p w w.
Proof. repeat split; done. Qed.

Lemma payload_kept_trans p w1 w2 w3 :
  payload_kept p w1 w2 → payload_kept p w2 w3 → payload_kept p w1 w3.
Proof.
  intros (A1 & B1 & C1 & D1 & E1) (A2 & B2 & C2 & D2 & E2).
  split; [|split; [|split; [|split]]].
  - now rewrite A2, A1.
  - intros r Hr. rewrite B2, B1; [reflexivity|exact Hr|].
    unfold signer_refs_at in *. now rewrite A1.
  - now rewrite C2, C1.
  - intros r Hr. rewrite D2, D1; [reflexivity|exact Hr|].
    unfold files_at in *. now rewrite C1.
  - now rewrite E2, E1.
Qed.

(** A payload that is kept reads the same. *)
Lemma payload_kept_snapshot p w w' :
  payload_kept p w w' → snapshot p w' = snapshot p w.
Proof.
  intros (A & B & C & D & E).
  assert (Hr : signer_refs_at (p_signers p) w' = signer_refs_at (p_signers p) w)
    by (unfold signer_refs_at; now rewrite A).
  assert (Hf : files_at (p_files p) w' = files_at (p_files p) w)
    by (unfold files_at; now rewrite C).
  assert (Hd : dict_at (p_data p) w' = dict_at (p_data p) w)
    by (unfold dict_at; now rewrite E).
  unfold snapshot, signers_at, file_views_at.
  rewrite Hr, Hf, Hd. f_equal.
  - apply map_ext_in. intros r Hin%list_elem_of_In.
    unfold signer_at. now rewrite B.
  - apply map_ext_in. intros f Hin%list_elem_of_In.
    unfold file_view. f_equal.
    destruct (stream_ref f) as [r|] eqn:Er; [|reflexivity]. simpl.
    unfold stream_at. rewrite D; [reflexivity|].
    unfold stream_refs. apply list_elem_of_omap. eauto.
Qed.

End FrameFacts.

(** ** [add_signer] *)

Section AddSigner.
Context `{Imports}.

Lemma default_routing_order_ext (l1 l2 : list EtchSigner) :
  map s_routing_order l1 = map s_routing_order l2 →
  default_routing_order l1 = default_routing_order l2.
Proof.
  intros E.
  assert (E' : map (fun s => or_zero (s_routing_order s)) l1
             = map (fun s => or_zero (s_routing_order s)) l2).
  { rewrite <- !(map_map s_routing_order or_zero). now rewrite E. }
  destruct l1 as [|a l1], l2 as [|b l2]; try discriminate; [reflexivity|].
  unfold default_routing_order, next_routing_order. now rewrite E'.
Qed.

Lemma with_id_routing_order s w :
  s_routing_order (with_id s w) = s_routing_order s.
Proof. unfold with_id. now destruct (str_truthy (s_id s)). Qed.

Lemma with_routing_order_default l s :
  int_truthy (s_routing_order s) = false →
  s_routing_order (with_routing_order l s) = Some (default_routing_order l).
Proof. intros E. unfold with_routing_order. now rewrite E. Qed.

Lemma with_defaults_same_party l s w :
  same_party s (with_routing_order l (with_id s w)).
Proof.
  unfold same_party, with_routing_order, with_id.
  destruct (str_truthy (s_id s)); simpl;
    destruct (int_truthy (s_routing_order s)); simpl; auto.
Qed.

(** A signer of a valid kind is an object of the store. *)
Lemma valid_kind_is_obj r w :
  str_in (s_signer_type (signer_at r w)) ["embedded"; "email"] = true →
  signer_objs w !! r = Some (signer_at r w).
Proof.
  unfold signer_at. destruct (signer_objs w !! r); [reflexivity|discriminate].
Qed.

Lemma signer_of_data a w s :
  signer_of a w = Some s → data_of a w = inr s.
Proof.
  destruct a as [d|r|]; simpl; try discriminate.
  - destruct (EtchSigner_new d); now intros [= ->].
  - unfold signer_at. now intros ->.
Qed.

Lemma data_signer_of a w s :
  data_of a w = inr s →
  str_in (s_signer_type s) ["embedded"; "email"] = true →
  signer_of a w = Some s.
Proof.
  destruct a as [d|r|]; simpl; try discriminate.
  - now intros ->.
  - intros [= <-]. apply valid_kind_is_obj.
Qed.

(** The whole of [add_signer]: what it raises, and the store it leaves. *)
Lemma add_signer_run self a w :
  add_signer self a w =
  match data_of a w with
  | inl e => Raise e w
  | inr s =>
      if str_in (s_signer_type s) ["embedded"; "email"]
      then Ok tt (signed self (arg_ref a w) s w)
      else Raise kind_error w
  end.
Proof.
  destruct a as [d|r|]; simpl; [| |reflexivity].
  - unfold add_signer. run. destruct (EtchSigner_new d) as [e|s]; [reflexivity|].
    simpl. destruct (str_in (s_signer_type s) ["embedded"; "email"]) eqn:Ek; [|reflexivity].
    simpl. unfold signed, with_routing_order. rewrite with_id_routing_order.
    unfold with_id, create_unique_id, read_signers, write_through, settle,
      new_signer, append_signer. run.
    destruct (str_truthy (s_id s)), (int_truthy (s_routing_order s)) eqn:Ero;
      simpl; try rewrite Ero; reflexivity.
  - unfold add_signer, read_signer. run. simpl.
    destruct (str_in (s_signer_type (signer_at r w)) ["embedded"; "email"]) eqn:Ek; [|reflexivity].
    pose proof (valid_kind_is_obj r w Ek) as Hobj.
    set (s := signer_at r w) in *.
    simpl. unfold signed, with_routing_order. rewrite with_id_routing_order.
    unfold with_id, create_unique_id, read_signers, write_through, settle,
      store_signer, append_signer. run.
    destruct (str_truthy (s_id s)) eqn:Eid,
             (int_truthy (s_routing_order s)) eqn:Ero;
      simpl; try rewrite Ero; simpl.
    + unfold set_signer_lists. simpl. now rewrite (insert_id _ _ _ Hobj).
    + reflexivity.
    + reflexivity.
    + unfold set_signer_lists, set_signer_objs, set_entropy. simpl.
      rewrite insert_insert_eq. do 4 f_equal.
      assert (Hl : ∀ l1 l2, default_routing_order l1 = default_routing_order l2 →
                match l1 with
                | s0 :: rest => next_routing_order s0 rest
                | [] => 1
                end = default_routing_order l2) by (intros; assumption).
      apply Hl, default_routing_order_ext.
      unfold signers_at, signer_refs_at. simpl. rewrite !map_map.
      apply map_ext. intros r0. unfold signer_at. simpl.
      destruct (decide (r0 = r)) as [->|Hne].
      * rewrite lookup_insert_eq. simpl. fold (signer_at r w). reflexivity.
      * now rewrite lookup_insert_ne.
Qed.

Lemma add_signer_ok_inv self a w w' :
  add_signer self a w = Ok tt w' →
  ∃ s, signer_of a w = Some s ∧
       str_in (s_signer_type s) ["embedded"; "email"] = true ∧
       w' = signed self (arg_ref a w) s w.
Proof.
  rewrite add_signer_run. destruct (data_of a w) as [e|s] eqn:Ed; [discriminate|].
  destruct (str_in (s_signer_type s) ["embedded"; "email"]) eqn:Ek; [|discriminate].
  intros [= <-]. exists s. split; [now apply data_signer_of|]. auto.
Qed.

(** A call of [add_signer] that raises has changed nothing. *)
Lemma add_signer_raise_inv self a w e w' :
  add_signer self a w = Raise e w' → w' = w.
Proof.
  rewrite add_signer_run. destruct (data_of a w) as [e0|s]; [congruence|].
  destruct (str_in (s_signer_type s) ["embedded"; "email"]); congruence.
Qed.

Lemma add_signer_accepts self a s w :
  signer_of a w = Some s →
  str_in (s_signer_type s) ["embedded"; "email"] = true →
  add_signer self a w = Ok tt (signed self (arg_ref a w) s w).
Proof.
  intros Ea Ek. rewrite add_signer_run, (signer_of_data _ _ _ Ea). now rewrite Ek.
Qed.

Lemma add_signer_rejects self a s w :
  signer_of a w = Some s →
  str_in (s_signer_type s) ["embedded"; "email"] = false →
  add_signer self a w = Raise kind_error w.
Proof.
  intros Ea Ek. rewrite add_signer_run, (signer_of_data _ _ _ Ea). now rewrite Ek.
Qed.

(** Reading the store an [add_signer] leaves. *)
Lemma signer_at_signed self r s w r0 :
  signer_at r0 (signed self r s w) =
  if decide (r0 = r)
  then with_routing_order (signers_at (signers self) w) (with_id s w)
  else signer_at r0 w.
Proof.
  unfold signer_at at 1. simpl. destruct (decide (r0 = r)) as [->|Hne].
  - now rewrite lookup_insert_eq.
  - now rewrite lookup_insert_ne.
Qed.

Lemma signer_refs_at_signed self r s w :
  signer_refs_at (signers self) (signed self r s w) =
  signer_refs_at (signers self) w ++ [r].
Proof. unfold signer_refs_at at 1. simpl. now rewrite lookup_insert_eq. Qed.

Lemma signer_refs_at_signed_ne self r s w l :
  l ≠ signers self →
  signer_refs_at l (signed self r s w) = signer_refs_at l w.
Proof.
  intros Hne. unfold signer_refs_at. simpl. now rewrite lookup_insert_ne.
Qed.

Lemma rewritten_other r s' l w :
  r ∉ l → rewritten r s' l w = map (fun r0 => signer_at r0 w) l.
Proof.
  intros Hr. unfold rewritten. apply map_ext_in. intros r0 Hin%list_elem_of_In.
  destruct (decide (r0 = r)) as [->|]; [contradiction|reflexivity].
Qed.

(** The builder's list after [add_signer]: the entries that refer to the
    object handed in read as it does now, and it is the last entry. *)
Lemma signers_at_signed self r s w :
  signers_at (signers self) (signed self r s w) =
  rewritten r (with_routing_order (signers_at (signers self) w) (with_id s w))
    (signer_refs_at (signers self) w) w
  ++ [with_routing_order (signers_at (signers self) w) (with_id s w)].
Proof.
  unfold signers_at at 1. rewrite signer_refs_at_signed, map_app. f_equal.
  - unfold rewritten. apply map_ext. intros r0. apply signer_at_signed.
  - simpl. rewrite signer_at_signed. now rewrite decide_True.
Qed.

Lemma signers_at_signed_new self r s w :
  r ∉ signer_refs_at (signers self) w →
  signers_at (signers self) (signed self r s w) =
  signers_at (signers self) w
  ++ [with_routing_order (signers_at (signers self) w) (with_id s w)].
Proof.
  intros Hr. rewrite signers_at_signed. now rewrite rewritten_other.
Qed.

(** Any other list reads as before if it does not hold the object. *)
Lemma signers_at_signed_ne self r s w l :
  l ≠ signers self → r ∉ signer_refs_at l w →
  signers_at l (signed self r s w) = signers_at l w.
Proof.
  intros Hne Hr. unfold signers_at. rewrite signer_refs_at_signed_ne by done.
  apply map_ext_in. intros r0 Hin%list_elem_of_In. rewrite signer_at_signed.
  destruct (decide (r0 = r)) as [->|]; [contradiction|reflexivity].
Qed.

(** The object built from a dict is in no list. *)
Lemma arg_ref_dict_new d w l : arg_ref (AsDict d) w ∉ signer_refs_at l w.
Proof. apply fresh_signer_not_listed. Qed.

Lemma signed_frames self r s w : frames self w (signed self r s w).
Proof.
  split; [|split; [|split; [|split; [|split]]]]; simpl; try done.
  - intros l Hl. now rewrite lookup_insert_ne.
  - rewrite dom_insert_L. set_solver.
Qed.

End AddSigner.

(** ** Construction *)

(** The constructor past its guard, by cases on the collections given and
    on whether they are empty. *)
Ltac init_by_cases s0 f0 kw :=
  unfold __init__;
  replace (negb (obj_truthy (k_payload kw)) && negb (str_truthy (k_name kw)))
    with false by (now destruct (obj_truthy _), (str_truthy _));
  unfold signers_or_new, files_or_new, dict_or_new, read_signer_refs, read_files,
    read_dict, new_signer_list, new_file_list, new_dict; run;
  destruct s0 as [?rs|], f0 as [?rf|], (k_file_payloads kw) as [?rd|]; simpl;
  repeat match goal with
    | |- context [match signer_refs_at ?r ?w with _ => _ end] =>
        let E := fresh "E" in destruct (signer_refs_at r w) eqn:E; simpl
    | |- context [match files_at ?r ?w with _ => _ end] =>
        let E := fresh "E" in destruct (files_at r w) eqn:E; simpl
    | |- context [match dict_at ?r ?w with _ => _ end] =>
        let E := fresh "E" in destruct (dict_at r w) eqn:E; simpl
    end;
  do 2 eexists; (split; [reflexivity|]); simpl;
  repeat match goal with |- _ ∧ _ => split end.

Section Construction.
Context `{Imports}.

Lemma init_rejects s0 f0 kw w :
  k_payload kw = None → str_truthy (k_name kw) = false →
  __init__ s0 f0 kw w = Raise init_error w.
Proof. intros Ep En. unfold __init__. now rewrite Ep, En. Qed.

Lemma init_ok_guard s0 f0 kw w self w' :
  __init__ s0 f0 kw w = Ok self w' →
  obj_truthy (k_payload kw) || str_truthy (k_name kw) = true.
Proof.
  intros E. destruct (obj_truthy _ || str_truthy _) eqn:Hg; [reflexivity|].
  apply orb_false_iff in Hg as [Hp Hn].
  rewrite init_rejects in E; [discriminate| |exact Hn].
  now destruct (k_payload kw).
Qed.

(** Otherwise construction succeeds; the attributes are the arguments, with
    [False] and [True] for the two flags left out, and each collection holds
    what the caller's did, or is empty where none was given.  No object is
    written to. *)
Lemma init_accepts s0 f0 kw w :
  obj_truthy (k_payload kw) || str_truthy (k_name kw) = true →
  ∃ self w', __init__ s0 f0 kw w = Ok self w' ∧
    name self = k_name kw ∧ payload self = k_payload kw ∧
    is_draft self = default false (k_is_draft kw) ∧
    is_test self = default true (k_is_test kw) ∧
    signer_refs_at (signers self) w' =
      from_option (fun r => signer_refs_at r w) [] s0 ∧
    files_at (files self) w' = from_option (fun r => files_at r w) [] f0 ∧
    dict_at (file_payloads self) w' =
      from_option (fun r => dict_at r w) [] (k_file_payloads kw) ∧
    signers self ∈ dom (signer_lists w') ∧
    files self ∈ dom (file_lists w') ∧
    file_payloads self ∈ dom (dicts w') ∧
    signer_objs w' = signer_objs w ∧ stream_objs w' = stream_objs w ∧
    entropy w' = entropy w ∧ debug_log w' = debug_log w.
Proof.
  intros Hg. init_by_cases s0 f0 kw; try reflexivity.
  all: unfold signer_refs_at, files_at, dict_at in *; simpl in *;
       rewrite ?lookup_insert_eq; try done.
  all: apply elem_of_dom; simpl; rewrite ?lookup_insert_eq; eauto;
       eapply default_cons_is_Some; eassumption.
Qed.

(** Each collection of the new builder is the one the caller gave or a new
    one, and the collections that existed are still there. *)
Lemma init_refs s0 f0 kw w :
  obj_truthy (k_payload kw) || str_truthy (k_name kw) = true →
  ∃ self w', __init__ s0 f0 kw w = Ok self w' ∧
    (s0 = Some (signers self) ∨ signers self ∉ dom (signer_lists w)) ∧
    (f0 = Some (files self) ∨ files self ∉ dom (file_lists w)) ∧
    (k_file_payloads kw = Some (file_payloads self) ∨
       file_payloads self ∉ dom (dicts w)).
Proof.
  intros Hg. init_by_cases s0 f0 kw.
  all: first [left; reflexivity | right; apply is_fresh].
Qed.

(** Which reference each attribute gets, and what the constructor leaves
    alone. *)
Lemma init_sharing s0 f0 kw w :
  obj_truthy (k_payload kw) || str_truthy (k_name kw) = true →
  ∃ self w', __init__ s0 f0 kw w = Ok self w' ∧
    (∀ r, s0 = Some r →
       (signer_refs_at r w ≠ [] → signers self = r) ∧
       (signer_refs_at r w = [] → signers self ∉ dom (signer_lists w))) ∧
    (∀ r, f0 = Some r →
       (files_at r w ≠ [] → files self = r) ∧
       (files_at r w = [] → files self ∉ dom (file_lists w))) ∧
    (∀ r, k_file_payloads kw = Some r →
       (dict_at r w ≠ [] → file_payloads self = r) ∧
       (dict_at r w = [] → file_payloads self ∉ dom (dicts w))) ∧
    (∀ r, r ∈ dom (signer_lists w) → signer_lists w' !! r = signer_lists w !! r) ∧
    (∀ r, r ∈ dom (file_lists w) → file_lists w' !! r = file_lists w !! r) ∧
    (∀ r, r ∈ dom (dicts w) → dicts w' !! r = dicts w !! r).
Proof.
  intros Hg. init_by_cases s0 f0 kw; try reflexivity.
  all: unfold signer_refs_at, files_at, dict_at in *; simpl in *.
  all: try (intros r [=]; fail).
  all: try (intros r [= <-]; split; intros Hnil;
            first [reflexivity | congruence | apply is_fresh]).
  all: intros r Hr; try reflexivity;
       apply lookup_insert_ne; intros <-; now apply is_fresh in Hr.
Qed.

(** A signer list reads the same in two stores that agree on it and on the
    signer objects. *)
Lemma signers_at_agree l w w' :
  signer_refs_at l w' = signer_refs_at l w →
  signer_objs w' = signer_objs w →
  signers_at l w' = signers_at l w.
Proof.
  intros Hl Ho. unfold signers_at, signer_at. now rewrite Hl, Ho.
Qed.

(** A builder constructed over collections none of which is a collection
    of the payload it is handed owns its collections. *)
Lemma init_owns s0 f0 kw w self w' :
  __init__ s0 f0 kw w = Ok self w' →
  (∀ p, k_payload kw = Some p →
        p_signers p ∈ dom (signer_lists w) ∧ s0 ≠ Some (p_signers p) ∧
        p_files p ∈ dom (file_lists w) ∧ f0 ≠ Some (p_files p) ∧
        p_data p ∈ dom (dicts w) ∧ k_file_payloads kw ≠ Some (p_data p)) →
  owns_collections self w'.
Proof.
  intros Hinit Hsep. pose proof (init_ok_guard _ _ _ _ _ _ Hinit) as Hg.
  destruct (init_accepts s0 f0 kw w Hg)
    as (b & w1 & E & _ & Hp & _ & _ & _ & _ & _ & Ds & Df & Dd & _).
  destruct (init_refs s0 f0 kw w Hg) as (b' & w1' & E' & Rs & Rf & Rd).
  rewrite E in Hinit, E'. simplify_eq.
  split; [exact Ds|]. split; [exact Df|]. split; [exact Dd|].
  intros p Hpay. rewrite Hp in Hpay.
  destruct (Hsep p Hpay) as (Ps & Ns & Pf & Nf & Pd & Nd).
  repeat split; intros Heq; rewrite Heq in *.
  + destruct Rs as [Rs|Rs]; [congruence|contradiction].
  + destruct Rf as [Rf|Rf]; [congruence|contradiction].
  + destruct Rd as [Rd|Rd]; [congruence|contradiction].
Qed.

End Construction.

(** ** [add_file] *)

Section AddFile.
Context `{Imports}.

Lemma existing_files_ids (l : list AttachableEtchFile) :
  existing_files l = map file_id l.
Proof.
  unfold existing_files. f_equal. induction l as [|f l IH]; [reflexivity|].
  rewrite filter_cons_True by reflexivity. now rewrite IH.
Qed.

(** The whole of [add_file]: it raises when it reads the name of a stream
    that has none, and otherwise returns. *)
Lemma add_file_run self f w :
  add_file self f w =
  if nameless f w then Raise attribute_error w else Ok tt (filed self f w).
Proof.
  unfold add_file, nameless, filed, untyped_stream, read_stream, log_debug,
    store_stream, append_file. run.
  destruct f as [d|i c]; simpl; [|reflexivity].
  destruct (du_file d) as [r|b]; simpl; [|reflexivity].
  destruct (st_content_type (stream_at r w)); simpl; [reflexivity|].
  destruct (st_name (stream_at r w)); reflexivity.
Qed.

Lemma untyped_stream_ref f w r :
  untyped_stream f w = Some r →
  stream_ref f = Some r ∧ st_content_type (stream_at r w) = None.
Proof.
  unfold untyped_stream. destruct (stream_ref f) as [r0|]; [|discriminate].
  destruct (st_content_type (stream_at r0 w)) eqn:Ec; [discriminate|].
  now intros [= <-].
Qed.

Lemma files_at_filed self f w :
  files_at (files self) (filed self f w) = files_at (files self) w ++ [f].
Proof. unfold files_at at 1. simpl. now rewrite lookup_insert_eq. Qed.

Lemma files_at_filed_ne self f w l :
  l ≠ files self → files_at l (filed self f w) = files_at l w.
Proof. intros Hne. unfold files_at. simpl. now rewrite lookup_insert_ne. Qed.

(** No stream but the one of the upload handed in is written to. *)
Lemma stream_objs_filed self f w r :
  stream_ref f ≠ Some r →
  stream_objs (filed self f w) !! r = stream_objs w !! r.
Proof.
  intros Hne. simpl. destruct (untyped_stream f w) as [r0|] eqn:Eu; [|reflexivity].
  apply untyped_stream_ref in Eu as [Er _].
  apply lookup_insert_ne. congruence.
Qed.

Lemma stream_objs_filed_typed self f w :
  untyped_stream f w = None → stream_objs (filed self f w) = stream_objs w.
Proof. intros Eu. simpl. now rewrite Eu. Qed.

Lemma filed_frames self f w : frames self w (filed self f w).
Proof.
  split; [|split; [|split; [|split; [|split]]]]; simpl; try done.
  - intros l Hl. now rewrite lookup_insert_ne.
  - rewrite dom_insert_L. set_solver.
Qed.

(** [add_file] either raises in the unchanged store or leaves [filed]. *)
Lemma add_file_world self f w :
  world_of (add_file self f w) = if nameless f w then w else filed self f w.
Proof. rewrite add_file_run. now destruct (nameless f w). Qed.

End AddFile.

(** ** Fill payloads and materialization *)

Section Materialize.
Context `{Imports}.

Lemma for_each_check {A} (l : list A) (bad : A → bool) (err : A → exn) (w : World) :
  for_each l (fun x => if bad x then raise (err x) else ret tt) w =
  match List.find bad l with
  | Some x => Raise (err x) w
  | None => Ok tt w
  end.
Proof.
  induction l as [|x l IH]; simpl; [reflexivity|]. run.
  destruct (bad x); [reflexivity|exact IH].
Qed.

Lemma get_file_payloads_run self w :
  get_file_payloads self w =
  match stale_key self w with
  | Some k => Raise (stale_payload_error k) w
  | None => Ok (file_payloads self) w
  end.
Proof.
  unfold get_file_payloads, stale_key, read_files, read_dict. run.
  rewrite for_each_check. now destruct (List.find _ _).
Qed.

Lemma add_file_payloads_run self fid data w :
  add_file_payloads self fid data w =
  if str_in fid (map file_id (files_at (files self) w))
  then Ok tt (set_dicts
                (<[file_payloads self :=
                     dict_set fid data (dict_at (file_payloads self) w)]> (dicts w))
                w)
  else Raise (missing_file_error fid) w.
Proof.
  unfold add_file_payloads, read_files, store_item. run.
  rewrite existing_files_ids. now destruct (str_in _ _).
Qed.

Lemma create_payload_run self w :
  payload self = None →
  create_payload self w =
  if str_truthy (name self)
  then match stale_key self w with
       | Some k => Raise (stale_payload_error k) w
       | None => assemble self w
       end
  else Raise name_error w.
Proof.
  intros Hp. unfold create_payload. rewrite Hp.
  destruct (str_truthy (name self)); simpl; [|reflexivity].
  change (get_file_payloads self ≫= _) with
    (bind (get_file_payloads self) (fun payloads =>
       data ← CreateEtchFilePayload_new payloads;
       CreateEtchPacketPayload_new
          (is_test self) (is_draft self) (name self)
          (signers self) (files self) data
          (signature_email_subject self) (signature_email_body self)
          (or_empty (signature_page_options self))
          (webhook_url self) (reply_to_email self) (reply_to_name self)
          (merge_pdfs self) (enable_emails self)
          (create_cast_templates_from_uploads self) (duplicate_casts self))).
  unfold bind at 1. rewrite get_file_payloads_run.
  destruct (stale_key self w); reflexivity.
Qed.

(** *** The copies the payload takes *)

Lemma in_use_new_signer r s w :
  signer_refs_in_use (set_signer_objs (<[r := s]> (signer_objs w)) w)
  = {[r]} ∪ signer_refs_in_use w.
Proof.
  unfold signer_refs_in_use. simpl. rewrite dom_insert_L.
  symmetry. apply (assoc_L (∪)).
Qed.

Lemma in_use_new_stream r st w :
  stream_refs_in_use (set_stream_objs (<[r := st]> (stream_objs w)) w)
  = {[r]} ∪ stream_refs_in_use w.
Proof.
  unfold stream_refs_in_use. simpl. rewrite dom_insert_L.
  symmetry. apply (assoc_L (∪)).
Qed.

(** Only signer objects are added to the store, one per entry; the entries
    of the copy are new and read as the entries of the original. *)
Lemma copy_signers_spec (l : list loc) :
  ∀ w, ∃ l' w', copy_signers l w = Ok l' w' ∧
    stream_objs w' = stream_objs w ∧ signer_lists w' = signer_lists w ∧
    file_lists w' = file_lists w ∧ dicts w' = dicts w ∧
    entropy w' = entropy w ∧ debug_log w' = debug_log w ∧
    (∀ r, r ∈ signer_refs_in_use w → signer_objs w' !! r = signer_objs w !! r) ∧
    signer_refs_in_use w ⊆ signer_refs_in_use w' ∧
    Forall (fun r' => r' ∉ signer_refs_in_use w) l' ∧
    length l' = length l ∧
    ((∀ r, r ∈ l → r ∈ signer_refs_in_use w) →
     map (fun r => signer_at r w') l' = map (fun r => signer_at r w) l).
Proof.
  induction l as [|r l IH]; intros w.
  - exists [], w. simpl. run. repeat split; try done.
  - simpl. unfold read_signer, new_signer. run.
    set (r' := fresh (signer_refs_in_use w)).
    set (w1 := set_signer_objs (<[r' := signer_at r w]> (signer_objs w)) w).
    destruct (IH w1) as (l' & w' & E & Hst & Hsl & Hfl & Hd & He & Hlg
                         & Hkeep & Hsub & Hnew & Hlen & Hview).
    rewrite E. exists (r' :: l'), w'. split; [reflexivity|].
    assert (Hfr : r' ∉ signer_refs_in_use w) by apply is_fresh.
    assert (Hin1 : signer_refs_in_use w1 = {[r']} ∪ signer_refs_in_use w)
      by apply in_use_new_signer.
    assert (Hkeep0 : ∀ x, x ∈ signer_refs_in_use w →
                          signer_objs w' !! x = signer_objs w !! x).
    { intros x Hx. rewrite Hkeep by (rewrite Hin1; now apply elem_of_union_r).
      simpl. apply lookup_insert_ne. intros <-. contradiction. }
    repeat split; try assumption.
    + intros x Hx. apply Hsub. rewrite Hin1. now apply elem_of_union_r.
    + constructor; [exact Hfr|].
      eapply Forall_impl; [exact Hnew|]. intros x Hx Hx'. apply Hx.
      rewrite Hin1. now apply elem_of_union_r.
    + simpl. now rewrite Hlen.
    + intros Hall. simpl. f_equal.
      * unfold signer_at at 1.
        rewrite Hkeep
          by (rewrite Hin1; now apply elem_of_union_l, elem_of_singleton).
        simpl. now rewrite lookup_insert_eq.
      * rewrite Hview.
        -- apply map_ext_in. intros x Hx%list_elem_of_In.
           unfold signer_at. simpl. rewrite lookup_insert_ne; [reflexivity|].
           intros <-. apply Hfr, Hall. now apply list_elem_of_further.
        -- intros x Hx. rewrite Hin1. apply elem_of_union_r, Hall.
           now apply list_elem_of_further.
Qed.

Lemma file_view_agree w w' f :
  (∀ r, stream_ref f = Some r → stream_objs w' !! r = stream_objs w !! r) →
  file_view w' f = file_view w f.
Proof.
  intros Hs. unfold file_view. f_equal.
  destruct (stream_ref f) as [r|]; [|reflexivity]. simpl.
  unfold stream_at. now rewrite Hs.
Qed.

Lemma unlinked_id f : file_id (unlinked f) = file_id f.
Proof.
  destruct f as [d|i c]; [|reflexivity]. simpl.
  now destruct (du_file d).
Qed.

Lemma file_views_ids l1 l2 w1 w2 :
  map (file_view w1) l1 = map (file_view w2) l2 →
  map file_id l1 = map file_id l2.
Proof.
  intros E. apply (f_equal (map (fun x => file_id (fst x)))) in E.
  rewrite !map_map in E. simpl in E.
  erewrite (map_ext _ file_id), (map_ext (fun x => file_id (unlinked x)) file_id)
    in E; [exact E| |]; intros f; apply unlinked_id.
Qed.

(** The copy of one attachment: at most one stream object is added. *)
Lemma copy_file_spec (f : AttachableEtchFile) (w : World) :
  ∃ f' w', copy_file f w = Ok f' w' ∧
    signer_objs w' = signer_objs w ∧ signer_lists w' = signer_lists w ∧
    file_lists w' = file_lists w ∧ dicts w' = dicts w ∧
    entropy w' = entropy w ∧ debug_log w' = debug_log w ∧
    (∀ r, r ∈ stream_refs_in_use w → stream_objs w' !! r = stream_objs w !! r) ∧
    stream_refs_in_use w ⊆ stream_refs_in_use w' ∧
    (∀ r, stream_ref f' = Some r → r ∉ stream_refs_in_use w) ∧
    (∀ r, stream_ref f' = Some r → r ∈ stream_refs_in_use w') ∧
    file_view w' f' = file_view w f.
Proof.
  unfold copy_file, read_stream, new_stream. run.
  destruct f as [d|i c]; [destruct (du_file d) as [r|b] eqn:Ef|].
  - set (r' := fresh (stream_refs_in_use w)).
    assert (Hfr : r' ∉ stream_refs_in_use w) by apply is_fresh.
    do 2 eexists. split; [reflexivity|].
    rewrite in_use_new_stream. simpl. repeat split.
    + intros x Hx. apply lookup_insert_ne. intros <-. contradiction.
    + apply union_subseteq_r.
    + intros x [= <-]. exact Hfr.
    + intros x [= <-]. now apply elem_of_union_l, elem_of_singleton.
    + unfold file_view. simpl. rewrite Ef. simpl. f_equal.
      unfold stream_at at 1. simpl. now rewrite lookup_insert_eq.
  - exists (Upload d), w. repeat split; try done;
      intros x; simpl; rewrite Ef; discriminate.
  - exists (CastRef i c), w. repeat split; try done; intros x; discriminate.
Qed.

Lemma stream_refs_cons f l r :
  r ∈ stream_refs (f :: l) ↔ stream_ref f = Some r ∨ r ∈ stream_refs l.
Proof.
  unfold stream_refs. simpl. destruct (stream_ref f) as [r0|].
  - rewrite elem_of_cons. split; intros [E|E]; auto; [left|left]; congruence.
  - split; [auto|]. now intros [[=]|E].
Qed.

Lemma copy_files_spec (l : list AttachableEtchFile) :
  ∀ w, ∃ l' w', copy_files l w = Ok l' w' ∧
    signer_objs w' = signer_objs w ∧ signer_lists w' = signer_lists w ∧
    file_lists w' = file_lists w ∧ dicts w' = dicts w ∧
    entropy w' = entropy w ∧ debug_log w' = debug_log w ∧
    (∀ r, r ∈ stream_refs_in_use w → stream_objs w' !! r = stream_objs w !! r) ∧
    stream_refs_in_use w ⊆ stream_refs_in_use w' ∧
    (∀ r, r ∈ stream_refs l' → r ∉ stream_refs_in_use w) ∧
    length l' = length l ∧
    ((∀ r, r ∈ stream_refs l → r ∈ stream_refs_in_use w) →
     map (file_view w') l' = map (file_view w) l).
Proof.
  induction l as [|f l IH]; intros w.
  - exists [], w. simpl. run. repeat split; try done.
    intros r Hr. now apply elem_of_nil in Hr.
  - simpl. run.
    destruct (copy_file_spec f w) as (f' & w1 & E1 & Ho1 & Hsl1 & Hfl1 & Hd1
                                      & He1 & Hlg1 & Hkeep1 & Hsub1 & Hnew1
                                      & Hin1 & Hview1).
    rewrite E1.
    destruct (IH w1) as (l' & w' & E & Ho & Hsl & Hfl & Hd & He & Hlg
                         & Hkeep & Hsub & Hnew & Hlen & Hview).
    rewrite E. exists (f' :: l'), w'. split; [reflexivity|].
    assert (Hkeep0 : ∀ x, x ∈ stream_refs_in_use w →
                          stream_objs w' !! x = stream_objs w !! x).
    { intros x Hx. rewrite Hkeep by (now apply Hsub1). now apply Hkeep1. }
    repeat split; try congruence; try assumption.
    + now transitivity (stream_refs_in_use w1).
    + intros r [Hr|Hr]%stream_refs_cons.
      * now apply Hnew1.
      * intros Hx. apply (Hnew r Hr). now apply Hsub1.
    + simpl. now rewrite Hlen.
    + intros Hall. simpl. f_equal.
      * rewrite <- Hview1. apply file_view_agree.
        intros r Hr. apply Hkeep. now apply Hin1.
      * rewrite Hview.
        -- apply map_ext_in. intros x Hx%list_elem_of_In.
           apply file_view_agree. intros r Hr. apply Hkeep1, Hall.
           apply stream_refs_cons. right.
           unfold stream_refs. apply list_elem_of_omap. eauto.
        -- intros r Hr. apply Hsub1, Hall, stream_refs_cons. now right.
Qed.

End Materialize.

(** *** What [create_payload] assembles *)

Section Assemble.
Context `{Imports}.

Lemma signer_refs_in_use_agree w w' :
  signer_objs w' = signer_objs w → signer_lists w' = signer_lists w →
  signer_refs_in_use w' = signer_refs_in_use w.
Proof. intros Ho Hl. unfold signer_refs_in_use. now rewrite Ho, Hl. Qed.

Lemma stream_refs_in_use_agree w w' :
  stream_objs w' = stream_objs w → file_lists w' = file_lists w →
  stream_refs_in_use w' = stream_refs_in_use w.
Proof. intros Ho Hl. unfold stream_refs_in_use. now rewrite Ho, Hl. Qed.

(** The assembly always returns.  The payload holds the builder's fields
    over three new collections: a list of new signer objects that read as
    the builder's signers, a list of attachments over new stream objects
    that read as the builder's, and a copy of the fill-payload dict.
    Nothing that the store knew is written to. *)
Lemma assemble_shape self w :
  let ps := fresh (dom (signer_lists w)) in
  let pf := fresh (dom (file_lists w)) in
  let pd := fresh (dom (dicts w)) in
  ∃ w1 cs cf, assemble self w = Ok (payload_over self ps pf pd) w1 ∧
    signer_lists w1 = <[ps := cs]> (signer_lists w) ∧
    file_lists w1 = <[pf := cf]> (file_lists w) ∧
    dicts w1 = <[pd := dict_at (file_payloads self) w]> (dicts w) ∧
    entropy w1 = entropy w ∧ debug_log w1 = debug_log w ∧
    (∀ r, r ∈ signer_refs_in_use w → signer_objs w1 !! r = signer_objs w !! r) ∧
    (∀ r, r ∈ cs → r ∉ signer_refs_in_use w) ∧
    map (fun r => signer_at r w1) cs = signers_at (signers self) w ∧
    (∀ r, r ∈ stream_refs_in_use w → stream_objs w1 !! r = stream_objs w !! r) ∧
    (∀ r, r ∈ stream_refs cf → r ∉ stream_refs_in_use w) ∧
    map (file_view w1) cf = file_views_at (files self) w.
Proof.
  intros ps pf pd.
  unfold assemble, CreateEtchFilePayload_new, CreateEtchPacketPayload_new,
    read_dict, new_dict, read_signer_refs, read_files, new_signer_list,
    new_file_list. run.
  fold pd.
  set (wa := set_dicts (<[pd := dict_at (file_payloads self) w]> (dicts w)) w).
  destruct (copy_signers_spec (signer_refs_at (signers self) wa) wa)
    as (cs & wb & Eb & Hst_b & Hsl_b & Hfl_b & Hd_b & He_b & Hlg_b
        & Hkeep_b & _ & Hnew_b & _ & Hview_b).
  rewrite Eb.
  assert (Eps : fresh (dom (signer_lists wb)) = ps) by (now rewrite Hsl_b).
  rewrite Eps.
  set (wc := set_signer_lists (<[ps := cs]> (signer_lists wb)) wb).
  destruct (copy_files_spec (files_at (files self) wc) wc)
    as (cf & wd & Ed & Ho_d & Hsl_d & Hfl_d & Hd_d & He_d & Hlg_d
        & Hkeep_d & _ & Hnew_d & _ & Hview_d).
  rewrite Ed.
  assert (Epf : fresh (dom (file_lists wd)) = pf)
    by (now rewrite Hfl_d; simpl; rewrite Hfl_b).
  rewrite Epf.
  assert (Hin_c : stream_refs_in_use wc = stream_refs_in_use w).
  { apply stream_refs_in_use_agree; simpl; [exact Hst_b|exact Hfl_b]. }
  assert (Hfiles : files_at (files self) wc = files_at (files self) w).
  { unfold files_at. simpl. now rewrite Hfl_b. }
  exists (set_file_lists (<[pf := cf]> (file_lists wd)) wd), cs, cf.
  split; [reflexivity|]. simpl.
  split; [now rewrite Hsl_d; simpl; rewrite Hsl_b|].
  split; [now rewrite Hfl_d; simpl; rewrite Hfl_b|].
  split; [now rewrite Hd_d; simpl; rewrite Hd_b|].
  split; [now rewrite He_d; simpl; rewrite He_b|].
  split; [now rewrite Hlg_d; simpl; rewrite Hlg_b|].
  split; [intros r Hr; rewrite Ho_d; simpl; now apply Hkeep_b|].
  split; [intros r Hr; rewrite Forall_forall in Hnew_b; now apply Hnew_b|].
  split.
  { transitivity (map (fun r => signer_at r wb) cs).
    - apply map_ext. intros r. unfold signer_at. simpl. now rewrite Ho_d.
    - rewrite Hview_b; [reflexivity|].
      intros r Hr. now apply (listed_signer_in_use wa (signers self)). }
  split.
  { intros r Hr. rewrite Hkeep_d by (now rewrite Hin_c). simpl.
    now rewrite Hst_b. }
  split; [intros r Hr; rewrite <- Hin_c; now apply Hnew_d|].
  unfold file_views_at. rewrite <- Hfiles.
  erewrite (map_ext _ (file_view wd)) by reflexivity.
  rewrite Hview_d.
  - apply map_ext. intros f. apply file_view_agree. intros r _. simpl.
    now rewrite Hst_b.
  - intros r Hr. now apply (listed_stream_in_use wc (files self)).
Qed.

End Assemble.

Section AssembleFacts.
Context `{Imports}.

(** What the store knows reads the same in a store that preserves it. *)
Lemma preserved_refl w : preserved w w.
Proof. repeat split; done. Qed.

Lemma preserved_in_use w w' r :
  preserved w w' → r ∈ signer_refs_in_use w → r ∈ signer_refs_in_use w'.
Proof.
  intros (Ho & Hl & _) Hr. apply in_use_inv in Hr as [Hr|[l Hr]].
  - apply signer_obj_in_use, elem_of_dom. rewrite Ho by now apply signer_obj_in_use.
    now apply elem_of_dom.
  - apply (listed_signer_in_use w' l). unfold signer_refs_at in *.
    destruct (signer_lists w !! l) as [refs|] eqn:El;
      [|now apply elem_of_nil in Hr].
    rewrite Hl, El; [exact Hr|]. apply elem_of_dom. eauto.
Qed.

Lemma preserved_trans w1 w2 w3 :
  preserved w1 w2 → preserved w2 w3 → preserved w1 w3.
Proof.
  intros H12 H23. pose proof H12 as (Ho1 & Hl1 & Hf1 & Hd1).
  pose proof H23 as (Ho2 & Hl2 & Hf2 & Hd2).
  split; [|split; [|split]].
  - intros r Hr. rewrite Ho2, Ho1; [reflexivity|exact Hr|].
    now apply (preserved_in_use w1 w2).
  - intros l Hl. rewrite Hl2, Hl1; [reflexivity|exact Hl|].
    apply elem_of_dom. rewrite Hl1 by exact Hl. now apply elem_of_dom.
  - intros l Hl. rewrite Hf2, Hf1; [reflexivity|exact Hl|].
    apply elem_of_dom. rewrite Hf1 by exact Hl. now apply elem_of_dom.
  - intros l Hl. rewrite Hd2, Hd1; [reflexivity|exact Hl|].
    apply elem_of_dom. rewrite Hd1 by exact Hl. now apply elem_of_dom.
Qed.

Lemma preserved_signer_refs_at w w' l :
  preserved w w' → l ∈ dom (signer_lists w) →
  signer_refs_at l w' = signer_refs_at l w.
Proof. intros (_ & Hl & _) Hin. unfold signer_refs_at. now rewrite Hl. Qed.

Lemma preserved_signers_at w w' l :
  preserved w w' → l ∈ dom (signer_lists w) →
  signers_at l w' = signers_at l w.
Proof.
  intros Hp Hin. unfold signers_at.
  rewrite (preserved_signer_refs_at _ _ _ Hp Hin).
  apply map_ext_in. intros r Hr%list_elem_of_In. unfold signer_at.
  destruct Hp as (Ho & _). rewrite Ho; [reflexivity|].
  now apply (listed_signer_in_use w l).
Qed.

Lemma preserved_files_at w w' l :
  preserved w w' → l ∈ dom (file_lists w) → files_at l w' = files_at l w.
Proof. intros (_ & _ & Hf & _) Hin. unfold files_at. now rewrite Hf. Qed.

Lemma preserved_dict_at w w' l :
  preserved w w' → l ∈ dom (dicts w) → dict_at l w' = dict_at l w.
Proof.
  intros (_ & _ & _ & Hd) Hin. unfold dict_at. f_equal. now apply Hd.
Qed.

Lemma preserved_file_views_at w w' l :
  preserved w w' → streams_preserved w w' → l ∈ dom (file_lists w) →
  file_views_at l w' = file_views_at l w.
Proof.
  intros Hp Hs Hin. unfold file_views_at.
  rewrite (preserved_files_at _ _ _ Hp Hin).
  apply map_ext_in. intros f Hf%list_elem_of_In. apply file_view_agree.
  intros r Hr. apply Hs. apply (listed_stream_in_use w l).
  unfold stream_refs. apply list_elem_of_omap. eauto.
Qed.

(** A payload whose collections the store holds is kept by a store that
    preserves what it knows. *)
Lemma preserved_payload_kept p w w' :
  preserved w w' → streams_preserved w w' →
  p_signers p ∈ dom (signer_lists w) → p_files p ∈ dom (file_lists w) →
  p_data p ∈ dom (dicts w) →
  payload_kept p w w'.
Proof.
  intros (Ho & Hl & Hf & Hd) Hs Ps Pf Pd.
  split; [now apply Hl|]. split.
  { intros r Hr. apply Ho. now apply (listed_signer_in_use w (p_signers p)). }
  split; [now apply Hf|]. split; [|now apply Hd].
  intros r Hr. apply Hs. now apply (listed_stream_in_use w (p_files p)).
Qed.

(** The assembly as its callers need it. *)
Lemma assemble_spec self w :
  ∃ p w1, assemble self w = Ok p w1 ∧
    p = payload_over self (fresh (dom (signer_lists w)))
          (fresh (dom (file_lists w))) (fresh (dom (dicts w))) ∧
    preserved w w1 ∧ streams_preserved w w1 ∧
    entropy w1 = entropy w ∧ debug_log w1 = debug_log w ∧
    (signers_at (p_signers p) w1 = signers_at (signers self) w ∧
     file_views_at (p_files p) w1 = file_views_at (files self) w ∧
     dict_at (p_data p) w1 = dict_at (file_payloads self) w) ∧
    (signer_refs_at (signers self) w1 = signer_refs_at (signers self) w ∧
     signers_at (signers self) w1 = signers_at (signers self) w ∧
     files_at (files self) w1 = files_at (files self) w ∧
     file_views_at (files self) w1 = file_views_at (files self) w ∧
     dict_at (file_payloads self) w1 = dict_at (file_payloads self) w) ∧
    (p_signers p ∈ dom (signer_lists w1) ∧ p_files p ∈ dom (file_lists w1) ∧
     p_data p ∈ dom (dicts w1)) ∧
    (∀ r, r ∈ signer_refs_at (p_signers p) w1 → r ∉ signer_refs_in_use w) ∧
    (∀ r, r ∈ stream_refs (files_at (p_files p) w1) → r ∉ stream_refs_in_use w).
Proof.
  destruct (assemble_shape self w)
    as (w1 & cs & cf & E & Hsl & Hfl & Hd & He & Hlg & Hko & Hnew_s & Hview_s
        & Hks & Hnew_f & Hview_f).
  set (ps := fresh (dom (signer_lists w))) in *.
  set (pf := fresh (dom (file_lists w))) in *.
  set (pd := fresh (dom (dicts w))) in *.
  assert (Hps : signer_lists w !! ps = None)
    by (apply not_elem_of_dom, is_fresh).
  assert (Hpf : file_lists w !! pf = None)
    by (apply not_elem_of_dom, is_fresh).
  assert (Hpd : dicts w !! pd = None)
    by (apply not_elem_of_dom, is_fresh).
  assert (Hpres : preserved w w1).
  { split; [exact Hko|]. split; [|split]; intros l Hl.
    - rewrite Hsl. apply lookup_insert_ne. intros <-.
      apply elem_of_dom in Hl as [x Hx]. congruence.
    - rewrite Hfl. apply lookup_insert_ne. intros <-.
      apply elem_of_dom in Hl as [x Hx]. congruence.
    - rewrite Hd. apply lookup_insert_ne. intros <-.
      apply elem_of_dom in Hl as [x Hx]. congruence. }
  assert (Rs : signer_refs_at ps w1 = cs)
    by (unfold signer_refs_at; now rewrite Hsl, lookup_insert_eq).
  assert (Rf : files_at pf w1 = cf)
    by (unfold files_at; now rewrite Hfl, lookup_insert_eq).
  assert (Ks : signer_refs_at (signers self) w1 = signer_refs_at (signers self) w).
  { destruct (decide (signers self = ps)) as [Heq|Hne].
    - rewrite Heq in *. rewrite Rs.
      unfold signers_at, signer_refs_at in *.
      rewrite Hps in *. simpl in *. now apply map_eq_nil in Hview_s.
    - unfold signer_refs_at. now rewrite Hsl, lookup_insert_ne. }
  assert (Kf : files_at (files self) w1 = files_at (files self) w).
  { destruct (decide (files self = pf)) as [Heq|Hne].
    - rewrite Heq in *. rewrite Rf. unfold file_views_at, files_at in *.
      rewrite Hpf in *. simpl in *. now apply map_eq_nil in Hview_f.
    - unfold files_at. now rewrite Hfl, lookup_insert_ne. }
  exists (payload_over self ps pf pd), w1.
  split; [exact E|]. split; [reflexivity|]. split; [exact Hpres|].
  split; [exact Hks|]. split; [exact He|]. split; [exact Hlg|]. simpl.
  split; [|split; [|split; [|split]]].
  - split; [|split].
    + unfold signers_at at 1. now rewrite Rs.
    + unfold file_views_at at 1. now rewrite Rf.
    + unfold dict_at at 1. now rewrite Hd, lookup_insert_eq.
  - split; [exact Ks|]. split; [|split; [exact Kf|split]].
    + unfold signers_at. rewrite Ks. apply map_ext_in.
      intros r Hr%list_elem_of_In. unfold signer_at. rewrite Hko; [reflexivity|].
      now apply (listed_signer_in_use w (signers self)).
    + unfold file_views_at. rewrite Kf. apply map_ext_in.
      intros f Hf%list_elem_of_In. apply file_view_agree. intros r Hr.
      apply Hks, (listed_stream_in_use w (files self)).
      unfold stream_refs. apply list_elem_of_omap. eauto.
    + destruct (decide (file_payloads self = pd)) as [Heq|Hne].
      * unfold dict_at at 1. rewrite Hd, Heq. now rewrite lookup_insert_eq.
      * unfold dict_at. now rewrite Hd, lookup_insert_ne.
  - split; [|split]; apply elem_of_dom.
    + rewrite Hsl, lookup_insert_eq. eauto.
    + rewrite Hfl, lookup_insert_eq. eauto.
    + rewrite Hd, lookup_insert_eq. eauto.
  - rewrite Rs. exact Hnew_s.
  - rewrite Rf. exact Hnew_f.
Qed.

End AssembleFacts.

(** ** Claims about the signer kind and the routing order *)

Section SignerClaims.
Context `{Imports}.

Lemma new_to_arg_ref self w a :
  new_to self w a → arg_ref a w ∉ signer_refs_at (signers self) w.
Proof.
  intros Hnew. destruct a as [d|r|]; simpl.
  - apply fresh_signer_not_listed.
  - now apply Hnew.
  - apply fresh_signer_not_listed.
Qed.

(** C4. For every builder state and every signer whose kind is outside
    embedded and email, [add_signer] raises the [ValueError] for the kind and
    the store, hence the builder's signer list, is exactly as it was before
    the call; for a signer whose kind is one of the two the call returns. *)
Theorem add_signer_checks_kind (self : CreateEtchPacket) (a : signer_arg)
    (s : EtchSigner) (w : World) :
  signer_of a w = Some s →
  (s_signer_type s ∉ ["embedded"; "email"] →
     add_signer self a w = Raise kind_error w ∧
     exn_cls kind_error = ValueError ∧
     signers_at (signers self) (world_of (add_signer self a w)) =
       signers_at (signers self) w) ∧
  (s_signer_type s ∈ ["embedded"; "email"] →
     ∃ w', add_signer self a w = Ok tt w').
Proof.
  intros Ea. split.
  - intros Hk%str_in_not_elem_of.
    rewrite (add_signer_rejects _ _ _ _ Ea Hk). auto.
  - intros Hk%str_in_elem_of.
    rewrite (add_signer_accepts _ _ _ _ Ea Hk). eauto.
Qed.

(** C3, amended. For every signer passed to [add_signer] with an explicit
    routing order other than 0, the signer appended to the builder's list
    carries that same routing order: the object handed in, or built from
    the dict, becomes the last entry of the list, it is as it was but for
    an id if it had none, and its routing order is the one it came with.
    The earlier entries read as before, except those that refer to the
    very object handed in, which read as it does now. *)
Theorem add_signer_keeps_nonzero_routing_order (self : CreateEtchPacket)
    (a : signer_arg) (s : EtchSigner) (z : Z) (w w' : World) :
  signer_of a w = Some s →
  s_routing_order s = Some z → z ≠ 0 →
  add_signer self a w = Ok tt w' →
  ∃ s', signers_at (signers self) w' =
          rewritten (arg_ref a w) s' (signer_refs_at (signers self) w) w
          ++ [s'] ∧
        (new_to self w a →
           signers_at (signers self) w' = signers_at (signers self) w ++ [s']) ∧
        s' = with_id s w ∧
        s_routing_order s' = Some z.
Proof.
  intros Ea Ez Hz Hok.
  destruct (add_signer_ok_inv _ _ _ _ Hok) as (s1 & Ea1 & _ & ->).
  rewrite Ea in Ea1. simplify_eq.
  assert (Ht : int_truthy (s_routing_order (with_id s1 w)) = true).
  { rewrite with_id_routing_order, Ez. simpl. now destruct (Z.eqb_spec z 0). }
  assert (Hs' : with_routing_order (signers_at (signers self) w) (with_id s1 w)
                = with_id s1 w).
  { unfold with_routing_order. now rewrite Ht. }
  exists (with_id s1 w). split; [|split; [|split]].
  - now rewrite signers_at_signed, Hs'.
  - intros Hnew%new_to_arg_ref.
    now rewrite signers_at_signed_new, Hs'.
  - reflexivity.
  - now rewrite with_id_routing_order.
Qed.

End SignerClaims.

(** ** Claims about the name check and the pre-supplied payload *)

Section NameClaims.
Context `{Imports}.

(** C7. Construction raises its [TypeError] exactly when the payload is
    absent and the name is unset ([None] or empty), and then leaves the
    store as it was; and on every builder without a pre-supplied payload
    whose name is unset, [create_payload] raises its [TypeError]. *)
Theorem name_required_without_payload (s0 f0 : option loc) (kw : Fields)
    (self : CreateEtchPacket) (w : World) :
  ((∃ e w', __init__ s0 f0 kw w = Raise e w') ↔
     (k_payload kw = None ∧ unset (k_name kw))) ∧
  (∀ e w', __init__ s0 f0 kw w = Raise e w' → e = init_error ∧ w' = w) ∧
  exn_cls init_error = TypeError ∧
  (payload self = None → unset (name self) →
     create_payload self w = Raise name_error w) ∧
  exn_cls name_error = TypeError.
Proof.
  assert (Hcases :
    (k_payload kw = None ∧ unset (k_name kw) ∧
       __init__ s0 f0 kw w = Raise init_error w) ∨
    (¬ (k_payload kw = None ∧ unset (k_name kw)) ∧
       ∃ b w', __init__ s0 f0 kw w = Ok b w')).
  { destruct (k_payload kw) as [p|] eqn:Ep.
    - right. split; [intros [[=] _]|].
      destruct (init_accepts s0 f0 kw w) as (b & w' & E & _);
        [now rewrite Ep|eauto].
    - destruct (str_truthy (k_name kw)) eqn:En.
      + right. split.
        * intros [_ Hu%str_truthy_false]. congruence.
        * destruct (init_accepts s0 f0 kw w) as (b & w' & E & _);
            [now rewrite Ep, En|eauto].
      + left. split; [reflexivity|]. split; [now apply str_truthy_false|].
        now apply init_rejects. }
  split; [|split; [|split; [reflexivity|split; [|reflexivity]]]].
  - split.
    + intros (e & w' & E).
      destruct Hcases as [(Hp & Hn & _)|(_ & b & w2 & E2)]; [auto|congruence].
    + intros Habs.
      destruct Hcases as [(_ & _ & E)|(Hn & _)]; [eauto|contradiction].
  - intros e w' E.
    destruct Hcases as [(_ & _ & E2)|(_ & b & w2 & E2)]; rewrite E2 in E;
      now simplify_eq.
  - intros Hp Hn%str_truthy_false. unfold create_payload.
    now rewrite Hp, Hn.
Qed.

(** C10. A builder that holds a pre-supplied payload returns that payload
    from [create_payload] in the unchanged store, whatever its name and its
    fill-payload dict are: no check runs. *)
Theorem presupplied_payload_bypasses_validation (self : CreateEtchPacket)
    (p : CreateEtchPacketPayload) (w : World) :
  payload self = Some p → create_payload self w = Ok p w.
Proof. intros Hp. unfold create_payload. now rewrite Hp. Qed.

End NameClaims.

(** ** Default routing orders count up *)

Section RoutingOrder.
Context `{Imports}.

Lemma default_routing_order_above (l : list EtchSigner) (s : EtchSigner) :
  s ∈ l → or_zero (s_routing_order s) < default_routing_order l.
Proof.
  intros Hs. destruct l as [|s0 rest]; [now apply elem_of_nil in Hs|].
  unfold default_routing_order, next_routing_order. simpl hd. simpl tail.
  set (f := fun s => or_zero (s_routing_order s)).
  destruct (fold_max_le (map f rest) (f s0)) as [H1 H2].
  apply elem_of_cons in Hs as [->|Hs].
  - change (f s0 < fold_left Z.max (map f rest) (f s0) + 1). lia.
  - rewrite Forall_forall in H2.
    assert (f s ≤ fold_left Z.max (map f rest) (f s0)).
    { apply H2. apply list_elem_of_fmap. eauto. }
    change (f s < fold_left Z.max (map f rest) (f s0) + 1). lia.
Qed.

Lemma default_routing_order_snoc (l : list EtchSigner) (s' : EtchSigner) :
  s_routing_order s' = Some (default_routing_order l) →
  default_routing_order (l ++ [s']) = default_routing_order l + 1.
Proof.
  intros Hs'.
  assert (Hall : Forall (fun s => or_zero (s_routing_order s)
                                   ≤ default_routing_order l) (l ++ [s'])).
  { apply Forall_app. split.
    - apply Forall_forall. intros s Hs.
      pose proof (default_routing_order_above l s Hs). lia.
    - repeat constructor. rewrite Hs', or_zero_Some. lia. }
  assert (Hin : default_routing_order l
                ∈ map (fun s => or_zero (s_routing_order s)) (l ++ [s'])).
  { rewrite map_app. apply elem_of_app. right. simpl.
    rewrite Hs', or_zero_Some. apply list_elem_of_here. }
  destruct (l ++ [s']) as [|s0 rest] eqn:El.
  - now apply app_eq_nil in El as [_ [=]].
  - now apply next_routing_order_spec.
Qed.

Lemma held_refs_cons a args r :
  r ∈ held_refs (a :: args) ↔ held_ref a = Some r ∨ r ∈ held_refs args.
Proof.
  unfold held_refs. simpl. destruct (held_ref a) as [r0|].
  - rewrite elem_of_cons. split; intros [E|E]; auto; [left|left]; congruence.
  - split; [auto|]. now intros [[=]|E].
Qed.

(** An argument that was not the one handed in stands for the same signer
    after the call. *)
Lemma passes_signed P self a0 s0 a w :
  (∀ r, held_ref a = Some r → r ≠ arg_ref a0 w) →
  passes P w a → passes P (signed self (arg_ref a0 w) s0 w) a.
Proof.
  intros Hne Hp. destruct a as [d|r|]; simpl in *; [exact Hp| |exact I].
  destruct Hp as (s & Es & Ps). exists s. split; [|exact Ps].
  rewrite lookup_insert_ne; [exact Es|]. intros E. now apply (Hne r).
Qed.

(** Signers handed in one by one, each of them an object of the store that
    is not yet in the builder's list and is not handed in twice, or a dict,
    and none with a routing order of its own: the entries already in the
    list stay as they are, and the new entries get consecutive routing
    orders from the list's default on. *)
Lemma add_signers_count_on (self : CreateEtchPacket) (args : list signer_arg) :
  ∀ (w w' : World),
  NoDup (held_refs args) →
  Forall (new_to self w) args →
  Forall (passes (fun s => int_truthy (s_routing_order s) = false) w) args →
  for_each args (add_signer self) w = Ok tt w' →
  ∃ added,
    signers_at (signers self) w' = signers_at (signers self) w ++ added ∧
    map s_routing_order added
      = map Some (seqZ (default_routing_order (signers_at (signers self) w))
                       (Z.of_nat (length args))).
Proof.
  induction args as [|a args IH]; intros w w' Hnd Hnew Hargs Hrun.
  - simpl in Hrun. run. injection Hrun as <-. exists [].
    now rewrite app_nil_r.
  - apply for_each_cons_ok in Hrun as (w1 & Hstep & Hrest).
    inversion Hargs as [|? ? Ha Hargs']; subst.
    inversion Hnew as [|? ? Hna Hnew']; subst.
    destruct (add_signer_ok_inv _ _ _ _ Hstep) as (s & Ea & _ & ->).
    assert (Hfalsy : int_truthy (s_routing_order s) = false).
    { destruct a as [d|r|]; simpl in Ea, Ha; [|destruct Ha as (s1 & E1 & P1)|];
        try discriminate.
      - apply Ha. now destruct (EtchSigner_new d); simplify_eq.
      - congruence. }
    set (l := signers_at (signers self) w) in *.
    set (s' := with_routing_order l (with_id s w)) in *.
    assert (Hs' : s_routing_order s' = Some (default_routing_order l)).
    { apply with_routing_order_default. now rewrite with_id_routing_order. }
    assert (Hl : signers_at (signers self) (signed self (arg_ref a w) s w)
                 = l ++ [s']).
    { apply signers_at_signed_new. now apply new_to_arg_ref. }
    assert (Hother : ∀ a', a' ∈ args →
              ∀ r, held_ref a' = Some r → r ≠ arg_ref a w).
    { intros a' Hin r Hr.
      assert (Hrin : r ∈ held_refs args).
      { unfold held_refs. apply list_elem_of_omap. eauto. }
      destruct a as [d|r0|]; simpl.
      - intros ->. rewrite Forall_forall in Hargs'.
        specialize (Hargs' a' Hin). destruct a' as [|r'|]; try discriminate.
        injection Hr as ->. destruct Hargs' as (sx & Ex & _).
        now rewrite fresh_signer_not_obj in Ex.
      - intros ->. simpl in Hnd. apply NoDup_cons in Hnd as [Hnd _].
        contradiction.
      - discriminate. }
    destruct (IH (signed self (arg_ref a w) s w) w') as (added & Hadd & Hord).
    + unfold held_refs in *. simpl in Hnd.
      destruct (held_ref a); [now apply NoDup_cons in Hnd as [_ Hnd]|exact Hnd].
    + apply Forall_forall. intros a' Hin r Hr.
      rewrite signer_refs_at_signed. intros [Hold|Heq%list_elem_of_singleton]%elem_of_app.
      * rewrite Forall_forall in Hnew'. now apply (Hnew' a' Hin r Hr).
      * now apply (Hother a' Hin r Hr).
    + apply Forall_forall. intros a' Hin. apply passes_signed.
      * now apply Hother.
      * rewrite Forall_forall in Hargs'. now apply Hargs'.
    + exact Hrest.
    + exists (s' :: added). split.
      * rewrite Hadd, Hl, <- app_assoc. reflexivity.
      * rewrite Hl, (default_routing_order_snoc l s' Hs') in Hord.
        simpl length. rewrite seqZ_cons by lia. simpl. rewrite Hs', Hord.
        do 3 f_equal; lia.
Qed.

(** C2, amended. After any series of successful [add_signer] calls on a
    builder constructed without signers (no signer list given, or an empty
    one), each call being handed a dict or a signer object of the store,
    none of them carrying a routing order and no object being handed in
    twice, the routing orders in the builder's list are 1, 2, ..., n in call
    order. *)
Theorem default_routing_orders_count_up (s0 f0 : option loc) (kw : Fields)
    (self : CreateEtchPacket) (args : list signer_arg) (w0 w w' : World) :
  from_option (fun r => signers_at r w0) [] s0 = [] →
  __init__ s0 f0 kw w0 = Ok self w →
  NoDup (held_refs args) →
  Forall (passes (fun s => s_routing_order s = None) w) args →
  for_each args (add_signer self) w = Ok tt w' →
  map s_routing_order (signers_at (signers self) w')
    = map Some (seqZ 1 (Z.of_nat (length args))).
Proof.
  intros Hnone Hinit Hnd Hargs Hrun.
  assert (Hempty : signer_refs_at (signers self) w = []).
  { pose proof (init_ok_guard _ _ _ _ _ _ Hinit) as Hg.
    destruct (init_accepts s0 f0 kw w0 Hg)
      as (b & w1 & E & _ & _ & _ & _ & Hs & _).
    rewrite E in Hinit. simplify_eq. rewrite Hs.
    destruct s0 as [r|]; [|reflexivity]. simpl in *.
    unfold signers_at in Hnone. now apply map_eq_nil in Hnone. }
  destruct (add_signers_count_on self args w w') as (added & Hadd & Hord);
    try assumption.
  - apply Forall_forall. intros a _ r _. rewrite Hempty. apply not_elem_of_nil.
  - eapply Forall_impl; [exact Hargs|]. intros a Ha.
    destruct a as [d|r|]; simpl in *; [|destruct Ha as (s & Es & Ps)|exact I].
    + intros s Es. now rewrite (Ha s Es).
    + exists s. split; [exact Es|]. now rewrite Ps.
  - assert (Hv : signers_at (signers self) w = [])
      by (unfold signers_at; now rewrite Hempty).
    rewrite Hv in Hadd, Hord. simpl in Hadd, Hord. now rewrite Hadd, Hord.
Qed.

End RoutingOrder.

(** ** The claim about the content type *)

Section ContentTypeClaim.
Context `{Imports}.


End ContentTypeClaim.

(** ** Claims about fill payloads *)

Section FillPayloadClaims.
Context `{Imports}.

Lemma create_payload_ok_inv self p w w1 :
  payload self = None → create_payload self w = Ok p w1 →
  str_truthy (name self) = true ∧ stale_key self w = None ∧
  assemble self w = Ok p w1.
Proof.
  intros Hp E. rewrite (create_payload_run _ _ Hp) in E.
  destruct (str_truthy (name self)); [|discriminate].
  destruct (stale_key self w); [discriminate|]. auto.
Qed.

(** C5, amended. [add_file_payloads] raises exactly when the id is not the
    id of an attachment in the builder's file list, and then it raises the
    [ValueError] for that id in the unchanged store.  When it returns, the
    entry for the id in the fill-payload dict is the data given, every other
    entry is as before, and nothing outside that dict has changed; and if
    the builder holds no pre-supplied payload, a [create_payload] that
    returns right after it yields a payload whose data block has the data
    under that id. *)
Theorem add_file_payloads_checks_id (self : CreateEtchPacket) (fid : string)
    (data : json) (w : World) :
  ((∃ e w', add_file_payloads self fid data w = Raise e w') ↔
     fid ∉ map file_id (files_at (files self) w)) ∧
  (fid ∉ map file_id (files_at (files self) w) →
     add_file_payloads self fid data w = Raise (missing_file_error fid) w ∧
     exn_cls (missing_file_error fid) = ValueError) ∧
  (fid ∈ map file_id (files_at (files self) w) →
     ∃ w', add_file_payloads self fid data w = Ok tt w' ∧
       dict_get fid (dict_at (file_payloads self) w') = Some data ∧
       (∀ k, k ≠ fid →
          dict_get k (dict_at (file_payloads self) w') =
          dict_get k (dict_at (file_payloads self) w)) ∧
       signer_objs w' = signer_objs w ∧ stream_objs w' = stream_objs w ∧
       signer_lists w' = signer_lists w ∧ file_lists w' = file_lists w ∧
       (∀ r, r ≠ file_payloads self → dicts w' !! r = dicts w !! r) ∧
       (payload self = None →
        ∀ p w'', create_payload self w' = Ok p w'' →
                 dict_get fid (dict_at (p_data p) w'') = Some data)).
Proof.
  rewrite add_file_payloads_run.
  destruct (str_in fid (map file_id (files_at (files self) w))) eqn:Ein.
  - apply str_in_elem_of in Ein. split; [|split].
    + split; [intros (e & w' & [=])|contradiction].
    + contradiction.
    + intros _. eexists. split; [reflexivity|].
      set (w' := set_dicts _ w).
      assert (Hd : dict_at (file_payloads self) w'
                   = dict_set fid data (dict_at (file_payloads self) w)).
      { unfold dict_at at 1. simpl. now rewrite lookup_insert_eq. }
      split; [rewrite Hd; apply dict_get_set_eq|].
      split; [intros k Hk; rewrite Hd; now apply dict_get_set_ne|].
      do 4 (split; [reflexivity|]).
      split; [intros r Hr; simpl; now rewrite lookup_insert_ne|].
      intros Hp p w2 E.
      destruct (create_payload_ok_inv _ _ _ _ Hp E) as (_ & _ & Ea).
      destruct (assemble_spec self w')
        as (p' & w2' & Ea' & _ & _ & _ & _ & _ & (_ & _ & Hdata) & _).
      rewrite Ea in Ea'. injection Ea' as <- <-.
      rewrite Hdata, Hd. apply dict_get_set_eq.
  - apply str_in_not_elem_of in Ein. split; [|split].
    + split; [auto|eauto].
    + auto.
    + contradiction.
Qed.

End FillPayloadClaims.

(** ** Claims about the materialized payload *)

Section SnapshotClaims.
Context `{Imports}.

Lemma stale_key_agree self w w' :
  files_at (files self) w' = files_at (files self) w →
  dict_at (file_payloads self) w' = dict_at (file_payloads self) w →
  stale_key self w' = stale_key self w.
Proof. intros Hf Hd. unfold stale_key. now rewrite Hf, Hd. Qed.

(** C9. When [create_payload] returns a payload, calling it again right
    away returns a payload that reads the same: equal packet-level fields,
    signer list, file list and data block; and the first payload still reads
    as it did. *)
Theorem create_payload_twice_equal (self : CreateEtchPacket)
    (p1 : CreateEtchPacketPayload) (w w1 : World) :
  create_payload self w = Ok p1 w1 →
  ∃ p2 w2, create_payload self w1 = Ok p2 w2 ∧
           snapshot p2 w2 = snapshot p1 w2 ∧
           snapshot p1 w2 = snapshot p1 w1.
Proof.
  intros E1. destruct (payload self) as [p|] eqn:Hp.
  - unfold create_payload in *. rewrite Hp in *. run. simplify_eq.
    exists p1, w1. auto.
  - destruct (create_payload_ok_inv _ _ _ _ Hp E1) as (Hn & Hk & Ea).
    destruct (assemble_spec self w)
      as (p & w1' & Ea' & Hp1 & _ & _ & _ & _ & (Rs & Rf & Rd)
          & (_ & Ks & Kf & Kv & Kd) & (Ds & Df & Dd) & _).
    rewrite Ea in Ea'. injection Ea' as <- <-.
    destruct (assemble_spec self w1)
      as (p2 & w2 & Ea2 & Hp2 & Hpres & Hstr & _ & _ & (Rs2 & Rf2 & Rd2) & _).
    exists p2, w2. split.
    { rewrite (create_payload_run _ _ Hp), Hn.
      now rewrite (stale_key_agree self w w1 Kf Kd), Hk. }
    assert (Hkeep : snapshot p1 w2 = snapshot p1 w1).
    { apply payload_kept_snapshot. now apply preserved_payload_kept. }
    split; [|exact Hkeep]. rewrite Hkeep. unfold snapshot.
    rewrite Rs2, Rf2, Rd2, Rs, Rf, Rd, Ks, Kv, Kd. f_equal.
    now rewrite Hp1, Hp2.
Qed.

(** What a mutator writes to, seen from a payload that shares nothing with
    the builder and none of whose objects the call is handed. *)
Lemma mutate_payload_kept self p m w :
  p_signers p ≠ signers self → p_files p ≠ files self →
  p_data p ≠ file_payloads self →
  spares p w m →
  payload_kept p w (world_of (mutate self m w)).
Proof.
  intros Ns Nf Nd Hsp. destruct m as [a|f|fid data]; simpl in *.
  - rewrite add_signer_run. destruct (data_of a w) as [e|s];
      [apply payload_kept_refl|].
    destruct (str_in (s_signer_type s) ["embedded"; "email"]);
      [|apply payload_kept_refl]. simpl.
    split; [now apply lookup_insert_ne|]. split; [|repeat split].
    intros r Hr. apply lookup_insert_ne. intros <-.
    destruct a as [d|r0|]; simpl in *.
    + now apply fresh_signer_not_listed in Hr.
    + now apply (Hsp r0).
    + now apply fresh_signer_not_listed in Hr.
  - rewrite add_file_world. destruct (nameless f w); [apply payload_kept_refl|].
    split; [reflexivity|]. split; [reflexivity|].
    split; [simpl; now apply lookup_insert_ne|]. split; [|reflexivity].
    intros r Hr. apply stream_objs_filed. intros Er. now apply (Hsp r).
  - rewrite add_file_payloads_run. destruct (str_in _ _);
      [|apply payload_kept_refl]. simpl.
    repeat split. now apply lookup_insert_ne.
Qed.

Lemma spares_kept p w w' m :
  payload_kept p w w' → spares p w m → spares p w' m.
Proof.
  intros (A & _ & C & _) Hsp. destruct m as [a|f|fid data]; simpl in *.
  - unfold signer_refs_at in *. now rewrite A.
  - unfold files_at in *. now rewrite C.
  - exact I.
Qed.

Lemma mutate_all_payload_kept self p ms :
  p_signers p ≠ signers self → p_files p ≠ files self →
  p_data p ≠ file_payloads self →
  ∀ w, Forall (spares p w) ms → payload_kept p w (mutate_all self ms w).
Proof.
  intros Ns Nf Nd. induction ms as [|m ms IH]; intros w Hsp; simpl.
  - apply payload_kept_refl.
  - inversion Hsp as [|? ? Hm Hms]; subst.
    pose proof (mutate_payload_kept self p m w Ns Nf Nd Hm) as Hstep.
    eapply payload_kept_trans; [exact Hstep|]. apply IH.
    eapply Forall_impl; [exact Hms|]. intros m'. now apply spares_kept.
Qed.

(** C1, amended. On a builder that owns its collections (they exist in
    the store and are not the collections of a payload handed to the
    constructor), once [create_payload] has returned a payload, no later
    series of [add_signer], [add_file] and [add_file_payloads] calls on the
    builder, returning or raising, none of them handed a signer object or a
    stream object of the payload itself, changes what the payload reads:
    its signers, its attachments with their streams, its data block and
    its fields stay as they were when it was returned. *)
Theorem payload_unaffected_by_later_mutations (self : CreateEtchPacket)
    (p : CreateEtchPacketPayload) (w w1 : World) (ms : list mutation) :
  owns_collections self w →
  create_payload self w = Ok p w1 →
  Forall (spares p w1) ms →
  snapshot p (mutate_all self ms w1) = snapshot p w1.
Proof.
  intros (Hs & Hf & Hd & Hown) E Hsp.
  assert (Hne : p_signers p ≠ signers self ∧ p_files p ≠ files self ∧
                p_data p ≠ file_payloads self).
  { destruct (payload self) as [p0|] eqn:Hp.
    - unfold create_payload in E. rewrite Hp in E. run. simplify_eq.
      now apply Hown.
    - destruct (create_payload_ok_inv _ _ _ _ Hp E) as (_ & _ & Ea).
      destruct (assemble_spec self w) as (p' & w1' & Ea' & Hp' & _).
      rewrite Ea in Ea'. injection Ea' as <- <-. rewrite Hp'. simpl.
      repeat split; intros Heq.
      + apply (is_fresh (dom (signer_lists w))). now rewrite Heq.
      + apply (is_fresh (dom (file_lists w))). now rewrite Heq.
      + apply (is_fresh (dom (dicts w))). now rewrite Heq. }
  destruct Hne as (N1 & N2 & N3).
  apply payload_kept_snapshot. now apply mutate_all_payload_kept.
Qed.

End SnapshotClaims.

(** ** The bulk import *)

Section BulkImport.
Context `{Imports}.

Lemma for_each_app {A} (l1 l2 : list A) (body : A → M unit) (w : World) :
  for_each (l1 ++ l2) body w = (for_each l1 body ;; for_each l2 body) w.
Proof.
  revert w. induction l1 as [|x l1 IH]; intros w; simpl; [reflexivity|].
  run. destruct (body x w) as [[] w1|e w1]; [apply IH|reflexivity].
Qed.

Lemma for_each_map {A B} (f : A → B) (l : list A) (body : B → M unit) (w : World) :
  for_each (map f l) body w = for_each l (fun x => body (f x)) w.
Proof.
  revert w. induction l as [|x l IH]; intros w; simpl; [reflexivity|].
  run. destruct (body (f x) w) as [[] w1|e w1]; [apply IH|reflexivity].
Qed.

(** A loop one of whose rounds is bound to raise raises. *)
Lemma for_each_raises {A} (l : list A) (body : A → M unit) (x : A) :
  x ∈ l → (∀ w, ∃ e w', body x w = Raise e w') →
  ∀ w, ∃ e w', for_each l body w = Raise e w'.
Proof.
  intros Hx Hbad. induction l as [|y l IH]; intros w.
  - now apply elem_of_nil in Hx.
  - simpl. run. destruct (body y w) as [[] w1|e w1] eqn:Ey; [|eauto].
    apply elem_of_cons in Hx as [->|Hx].
    + destruct (Hbad w) as (e & w' & E). congruence.
    + now apply IH.
Qed.

(** A listed signer: the constructor's error, the kind error once the new
    object exists, or the store [add_signer] leaves for the new object. *)
Lemma run_import_signer self d w :
  run_import_step self (ImportSigner d) w =
  match EtchSigner_new d with
  | inl e => Raise e w
  | inr s =>
      if str_in (s_signer_type s) ["embedded"; "email"]
      then Ok tt (signed self (fresh (signer_refs_in_use w)) s w)
      else Raise kind_error
             (set_signer_objs
                (<[fresh (signer_refs_in_use w) := s]> (signer_objs w)) w)
  end.
Proof.
  unfold run_import_step, new_signer. run.
  destruct (EtchSigner_new d) as [e|s]; [reflexivity|]. simpl.
  set (r := fresh (signer_refs_in_use w)).
  set (w0 := set_signer_objs (<[r := s]> (signer_objs w)) w).
  rewrite add_signer_run. simpl.
  assert (Hs : signer_at r w0 = s).
  { unfold signer_at. simpl. now rewrite lookup_insert_eq. }
  rewrite Hs. destruct (str_in (s_signer_type s) ["embedded"; "email"]);
    [|reflexivity].
  f_equal. unfold signed. simpl. rewrite insert_insert_eq.
  assert (Hv : signers_at (signers self) w0 = signers_at (signers self) w).
  { unfold signers_at. apply map_ext_in. intros r0 Hr0%list_elem_of_In.
    unfold signer_at. simpl. rewrite lookup_insert_ne; [reflexivity|].
    intros <-. now apply (fresh_signer_not_listed w (signers self)). }
  rewrite Hv. reflexivity.
Qed.

(** The constructor call of the import raises nothing but [TypeError], and
    raises it in the unchanged store. *)
Lemma call_with_filtered_keys_raise (m : Mapping) w e w1 :
  call_with_filtered_keys m w = Raise e w1 →
  exn_cls e = TypeError ∧ w1 = w.
Proof.
  unfold call_with_filtered_keys. destruct (m_other m) as [|k ks].
  - intros E.
    destruct (obj_truthy (k_payload (m_fields m)) || str_truthy (k_name (m_fields m)))
      eqn:Hg.
    + destruct (init_accepts None None _ w Hg) as (b & w' & E' & _). congruence.
    + apply orb_false_iff in Hg as [Hp Hn].
      rewrite init_rejects in E; [now simplify_eq| |exact Hn].
      now destruct (k_payload _).
  - run. intros [= <- <-]. auto.
Qed.

Lemma create_from_dict_run (m : Mapping) w b w1 :
  call_with_filtered_keys m w = Ok b w1 →
  create_from_dict m w =
  match for_each (import_steps m) (run_import_step b) w1 with
  | Ok _ w2 => Ok b w2
  | Raise e w2 => Raise e w2
  end.
Proof.
  intros E. unfold create_from_dict, try_except, import_steps. run.
  rewrite E. rewrite for_each_app. run.
  destruct (m_signers m) as [ls|], (m_files m) as [lf|]; simpl.
  - rewrite for_each_map. unfold run_import_step at 1. run.
    destruct (for_each ls _ w1) as [[] w2|e w2]; [|reflexivity].
    rewrite for_each_map. unfold run_import_step. run.
    now destruct (for_each lf _ w2).
  - rewrite for_each_map. unfold run_import_step. run.
    now destruct (for_each ls _ w1) as [[] w2|e w2].
  - rewrite for_each_map. unfold run_import_step. run.
    now destruct (for_each lf _ w1).
  - reflexivity.
Qed.

(** C8, amended. [create_from_dict] calls the constructor with every entry
    of the mapping but [signers] and [files]; a [TypeError] raised there, the
    only thing the call can raise, reaches the caller as a [ValueError] whose
    cause it is.  When the constructor returns, each listed signer and then
    each listed file is built and added through [add_signer] and [add_file]
    in order; the builder is returned if all of it returns, an exception
    raised on the way reaches the caller as it is, and a listed signer of an
    unknown kind makes the import raise. *)
Theorem create_from_dict_wraps_construction_only (m : Mapping) (w : World) :
  (∀ e w1, call_with_filtered_keys m w = Raise e w1 →
     exn_cls e = TypeError ∧ w1 = w ∧
     create_from_dict m w = Raise (import_error e) w ∧
     exn_cls (import_error e) = ValueError ∧
     exn_cause (import_error e) = Some e) ∧
  (∀ b w1, call_with_filtered_keys m w = Ok b w1 →
     m_other m = [] ∧
     __init__ None None (m_fields m) w = Ok b w1 ∧
     (∀ w2, for_each (import_steps m) (run_import_step b) w1 = Ok tt w2 →
            create_from_dict m w = Ok b w2) ∧
     (∀ e w2, for_each (import_steps m) (run_import_step b) w1 = Raise e w2 →
              create_from_dict m w = Raise e w2) ∧
     (∀ d s, d ∈ default [] (m_signers m) →
             EtchSigner_new d = inr s →
             s_signer_type s ∉ ["embedded"; "email"] →
             ∃ e w2, create_from_dict m w = Raise e w2)).
Proof.
  split.
  - intros e w1 E.
    destruct (call_with_filtered_keys_raise _ _ _ _ E) as [Hc ->].
    repeat split; try assumption.
    unfold create_from_dict, try_except. run. rewrite E.
    destruct e as [c msg cause]. simpl in Hc. subst c. reflexivity.
  - intros b w1 E. rewrite (create_from_dict_run _ _ _ _ E).
    assert (Hother : m_other m = []).
    { unfold call_with_filtered_keys in E.
      destruct (m_other m); [reflexivity|discriminate]. }
    split; [exact Hother|]. split.
    { unfold call_with_filtered_keys in E. now rewrite Hother in E. }
    split; [intros w2 ->; reflexivity|].
    split; [intros e w2 ->; reflexivity|].
    intros d s Hd Es Hk%str_in_not_elem_of.
    destruct (for_each_raises (import_steps m) (run_import_step b)
                (ImportSigner d)) with (w := w1) as (e & w2 & Er).
    + unfold import_steps. apply elem_of_app. left.
      now apply list_elem_of_fmap_2.
    + intros w'. rewrite run_import_signer, Es, Hk. eauto.
    + rewrite Er. eauto.
Qed.

End BulkImport.

(** ** The claims on the example builders *)

Ltac by_decide := apply (bool_decide_unpack _); vm_compute; exact I.

Lemma add_signer_checks_kind_witness :
  @add_signer sample_imports packet0 (AsSigner 12%positive) world0
    = Raise kind_error world0 ∧
  ∃ w', @add_signer sample_imports packet0 (AsSigner 10%positive) world0
    = Ok tt w'.
Proof.
  split.
  - apply (@add_signer_checks_kind sample_imports packet0
             (AsSigner 12%positive) (jackie "sms" None) world0);
      [vm_compute; reflexivity|].
    apply str_in_not_elem_of. reflexivity.
  - apply (@add_signer_checks_kind sample_imports packet0
             (AsSigner 10%positive) (jackie "email" None) world0);
      [vm_compute; reflexivity|].
    apply str_in_elem_of. reflexivity.
Defined.

Lemma add_signer_keeps_nonzero_routing_order_witness :
  ∃ s', signers_at (signers open_packet)
          (world_of (@add_signer sample_imports open_packet
                       (AsSigner 13%positive) world12))
        = signers_at (signers open_packet) world12 ++ [s'] ∧
        s' = @with_id sample_imports (jackie "embedded" (Some 7)) world12 ∧
        s_routing_order s' = Some 7.
Proof.
  destruct (@add_signer_keeps_nonzero_routing_order sample_imports open_packet
              (AsSigner 13%positive) (jackie "embedded" (Some 7)) 7 world12
              (world_of (@add_signer sample_imports open_packet
                           (AsSigner 13%positive) world12)))
    as (s' & _ & Hnew & Hs & Hz);
    [vm_compute; reflexivity|reflexivity|lia|vm_compute; reflexivity|].
  exists s'. split; [|split; assumption].
  apply Hnew. intros r E. injection E as <-. by_decide.
Defined.

(** C3 as stated fails at routing order 0: the signer is passed with the
    explicit order 0 and is appended with order 1. *)
Lemma add_signer_replaces_zero_routing_order :
  s_routing_order (signer_at 14%positive world0) = Some 0 ∧
  ∃ w' s', @add_signer sample_imports packet0 (AsSigner 14%positive) world0
             = Ok tt w' ∧
           signers_at (signers packet0) w' = [s'] ∧
           s_routing_order s' = Some 1 ∧
           s_routing_order s' ≠ s_routing_order (signer_at 14%positive world0).
Proof.
  split; [reflexivity|]. do 2 eexists. vm_compute.
  repeat split. discriminate.
Qed.

Lemma name_required_without_payload_witness :
  (∃ e w', __init__ None None no_fields world12 = Raise e w') ∧
  create_payload (packet_at (Some "") None 1%positive 1%positive 1%positive)
    world12 = Raise name_error world12.
Proof.
  destruct (name_required_without_payload None None no_fields
              (packet_at (Some "") None 1%positive 1%positive 1%positive)
              world12) as (Hinit & _ & _ & Hmat & _).
  split.
  - apply Hinit. split; [reflexivity|left; reflexivity].
  - apply Hmat; [reflexivity|right; reflexivity].
Defined.

Lemma presupplied_payload_bypasses_validation_witness :
  name passthrough_packet = None ∧
  (∃ e, get_file_payloads passthrough_packet world12 = Raise e world12) ∧
  create_payload passthrough_packet world12 = Ok prebuilt world12.
Proof.
  split; [reflexivity|]. split.
  - eexists. vm_compute. reflexivity.
  - apply (presupplied_payload_bypasses_validation
             passthrough_packet prebuilt world12). reflexivity.
Defined.

Lemma default_routing_orders_count_up_witness :
  map s_routing_order
    (signers_at (signers packet0)
       (world_of (for_each three_signers (add_signer packet0) world0)))
  = [Some 1; Some 2; Some 3].
Proof.
  apply (@default_routing_orders_count_up sample_imports None None
           (named "Etch packet with existing template") packet0
           three_signers desk world0).
  - reflexivity.
  - vm_compute. reflexivity.
  - by_decide.
  - repeat constructor.
    + eexists. split; [vm_compute; reflexivity|reflexivity].
    + intros s E. vm_compute in E. injection E as <-. reflexivity.
    + eexists. split; [vm_compute; reflexivity|reflexivity].
  - vm_compute. reflexivity.
Defined.

(** C2 as stated fails when one signer object is handed in twice: the first
    call writes the order 1 into the object, the second call finds the
    order set and keeps it, and the list holds the object twice. *)
Lemma add_signer_twice_repeats_routing_order :
  s_routing_order (signer_at 10%positive world0) = None ∧
  ∃ w', for_each same_signer_twice (@add_signer sample_imports packet0) world0
          = Ok tt w' ∧
        map s_routing_order (signers_at (signers packet0) w')
          = [Some 1; Some 1] ∧
        map s_routing_order (signers_at (signers packet0) w')
          ≠ map Some (seqZ 1 (Z.of_nat (length same_signer_twice))).
Proof.
  split; [reflexivity|]. eexists. split; [vm_compute; reflexivity|].
  split; [vm_compute; reflexivity|]. vm_compute. discriminate.
Qed.



Lemma add_file_payloads_checks_id_witness :
  (∃ w' p w'',
     add_file_payloads packet0 "a" (JStr "prefill") world_a = Ok tt w' ∧
     create_payload packet0 w' = Ok p w'' ∧
     dict_get "a" (dict_at (p_data p) w'') = Some (JStr "prefill")) ∧
  add_file_payloads packet0 "c" (JStr "prefill") world_a
    = Raise (missing_file_error "c") world_a.
Proof.
  destruct (add_file_payloads_checks_id packet0 "a" (JStr "prefill") world_a)
    as (_ & _ & Hin).
  destruct (add_file_payloads_checks_id packet0 "c" (JStr "prefill") world_a)
    as (_ & Hout & _).
  split.
  - destruct Hin as (w' & E & _ & _ & _ & _ & _ & _ & _ & Hmat).
    { apply str_in_elem_of. vm_compute. reflexivity. }
    exists w'.
    destruct (create_payload packet0 w') as [p w''|e w''] eqn:Ec.
    + exists p, w''. split; [exact E|]. split; [reflexivity|].
      now apply (Hmat eq_refl p w'').
    + exfalso. vm_compute in E.
      injection E as <-. vm_compute in Ec. discriminate Ec.
  - apply Hout. apply str_in_not_elem_of. vm_compute. reflexivity.
Defined.

(** C5 as stated fails on a builder that holds a pre-supplied payload: the
    fill payload for the attachment [a] is accepted, [create_payload]
    returns, and the payload returned has nothing under [a]. *)
Lemma presupplied_payload_lacks_fill_payload :
  payload passthrough_packet = Some prebuilt ∧
  ∃ w', add_file_payloads passthrough_packet "a" (JStr "prefill") world12
          = Ok tt w' ∧
        create_payload passthrough_packet w' = Ok prebuilt w' ∧
        dict_get "a" (dict_at (p_data prebuilt) w') = None.
Proof.
  split; [reflexivity|]. eexists. split; [vm_compute; reflexivity|].
  split; reflexivity.
Qed.

Lemma create_payload_twice_equal_witness :
  ∃ p2 w2, create_payload packet0 world_a1 = Ok p2 w2 ∧
           snapshot p2 w2 = snapshot payload_a w2 ∧
           snapshot payload_a w2 = snapshot payload_a world_a1.
Proof.
  apply (create_payload_twice_equal packet0 payload_a world_a world_a1).
  vm_compute. reflexivity.
Defined.

Lemma payload_unaffected_by_later_mutations_witness :
  snapshot payload_a (mutate_all packet0 later_calls world_a1)
    = snapshot payload_a world_a1 ∧
  length (signers_at (signers packet0)
            (mutate_all packet0 later_calls world_a1)) = 2%nat ∧
  length (snap_signers (snapshot payload_a world_a1)) = 1%nat.
Proof.
  split; [|split; vm_compute; reflexivity].
  apply (@payload_unaffected_by_later_mutations sample_imports packet0
           payload_a world_a world_a1 later_calls).
  - repeat split; try discriminate;
      apply elem_of_dom; vm_compute; eexists; reflexivity.
  - vm_compute. reflexivity.
  - repeat (apply List.Forall_cons || apply List.Forall_nil);
      try exact I; intros r E; injection E as <-; by_decide.
Defined.

(** C1 as stated fails on a builder constructed over the lists of the
    pre-supplied payload it holds: [create_payload] returns that payload,
    and a later [add_signer] on the builder appends to the list that is
    the payload's own. *)
Lemma presupplied_payload_follows_builder :
  lending_construction = Ok lender lender_world ∧
  create_payload lender lender_world = Ok prebuilt lender_world ∧
  ∃ w', @add_signer sample_imports lender (AsSigner 10%positive) lender_world
          = Ok tt w' ∧
        length (snap_signers (snapshot prebuilt lender_world)) = 1%nat ∧
        length (snap_signers (snapshot prebuilt w')) = 2%nat ∧
        snapshot prebuilt w' ≠ snapshot prebuilt lender_world.
Proof.
  split; [vm_compute; reflexivity|]. split; [reflexivity|].
  eexists. split; [vm_compute; reflexivity|].
  split; [vm_compute; reflexivity|]. split; [vm_compute; reflexivity|].
  intros E. apply (f_equal (fun s => length (snap_signers s))) in E.
  vm_compute in E. discriminate E.
Qed.

Lemma create_from_dict_wraps_construction_only_witness :
  create_from_dict misspelt_mapping desk
    = Raise (import_error (unexpected_keyword_error "nmae")) desk ∧
  ∃ b w2, create_from_dict clean_mapping desk = Ok b w2 ∧
          name b = Some "imported" ∧
          map s_routing_order (signers_at (signers b) w2) = [Some 1] ∧
          map file_id (files_at (files b) w2) = ["myNewFile"].
Proof.
  split.
  - destruct (@create_from_dict_wraps_construction_only sample_imports
                misspelt_mapping desk) as (Hraise & _).
    now destruct (Hraise (unexpected_keyword_error "nmae") desk eq_refl)
      as (_ & _ & E & _).
  - destruct (@create_from_dict_wraps_construction_only sample_imports
                clean_mapping desk) as (_ & Hok).
    destruct (Hok (packet_at (Some "imported") None 1%positive 1%positive
                     1%positive) world0) as (_ & _ & Hret & _);
      [vm_compute; reflexivity|].
    eexists. eexists. split.
    + apply Hret. vm_compute. reflexivity.
    + vm_compute. repeat split.
Defined.

(** C8 as stated fails on a mapping that lists a signer of kind [sms]: the
    import raises the very exception [add_signer] raised, which wraps
    nothing and has no cause. *)
Lemma create_from_dict_leaves_entity_errors_unwrapped :
  (∃ w', create_from_dict sms_mapping desk = Raise kind_error w') ∧
  exn_cause kind_error = None.
Proof.
  split; [eexists; vm_compute; reflexivity|reflexivity].
Qed.

(** * Further properties of the builder *)

(** ** [add_signer]: failures, what is appended, ids and default orders *)

Section AddSignerFurther.
Context `{Imports}.

(** X1. A call of [add_signer] that raises leaves the store exactly as it
    was, whatever made it raise; and what it raises is the type error for
    an argument that is neither a dict nor a signer, the error of the signer
    constructor for a dict it rejects, or the kind error. *)
Theorem add_signer_failure_changes_nothing (self : CreateEtchPacket)
    (a : signer_arg) (w w' : World) (e : exn) :
  add_signer self a w = Raise e w' →
  w' = w ∧
  match a with
  | AsOther => e = signer_type_error
  | AsSigner r =>
      e = kind_error ∧ s_signer_type (signer_at r w) ∉ ["embedded"; "email"]
  | AsDict d =>
      EtchSigner_new d = inl e ∨
      ∃ s, EtchSigner_new d = inr s ∧ e = kind_error ∧
           s_signer_type s ∉ ["embedded"; "email"]
  end.
Proof.
  intros Hr. split; [exact (add_signer_raise_inv _ _ _ _ _ Hr)|].
  rewrite add_signer_run in Hr. destruct a as [d|r|]; simpl in Hr.
  - destruct (EtchSigner_new d) as [e0|s] eqn:Ed.
    + left. congruence.
    + right. exists s. split; [reflexivity|].
      destruct (str_in (s_signer_type s) ["embedded"; "email"]) eqn:Ek;
        [discriminate|].
      split; [congruence|now apply str_in_not_elem_of].
  - destruct (str_in (s_signer_type (signer_at r w)) ["embedded"; "email"])
      eqn:Ek; [discriminate|].
    split; [congruence|now apply str_in_not_elem_of].
  - congruence.
Qed.

(** X2. A call of [add_signer] that returns has appended exactly one entry
    at the end of the builder's list: the object it was handed, or the new
    object built from the dict.  That object has the name, email, fields
    and kind of the signer passed, its kind is embedded or email, and no
    other signer object, no stream, no file list and no dict of the store
    has changed; so, unless the object handed in already was an entry of
    the list, the earlier entries read as before. *)
Theorem add_signer_appends_one (self : CreateEtchPacket) (a : signer_arg)
    (w w' : World) :
  add_signer self a w = Ok tt w' →
  ∃ s s', signer_of a w = Some s ∧
    signer_refs_at (signers self) w' =
      signer_refs_at (signers self) w ++ [arg_ref a w] ∧
    signer_at (arg_ref a w) w' = s' ∧
    last (signers_at (signers self) w') = Some s' ∧
    (∀ r, r ≠ arg_ref a w → signer_objs w' !! r = signer_objs w !! r) ∧
    (new_to self w a →
       signers_at (signers self) w' = signers_at (signers self) w ++ [s']) ∧
    s_name s' = s_name s ∧ s_email s' = s_email s ∧
    s_fields s' = s_fields s ∧ s_signer_type s' = s_signer_type s ∧
    s_signer_type s' ∈ ["embedded"; "email"] ∧
    stream_objs w' = stream_objs w ∧
    file_lists w' = file_lists w ∧ dicts w' = dicts w.
Proof.
  intros Hok.
  destruct (add_signer_ok_inv _ _ _ _ Hok) as (s & Ea & Ek & ->).
  exists s, (with_routing_order (signers_at (signers self) w) (with_id s w)).
  split; [exact Ea|]. split; [apply signer_refs_at_signed|].
  split; [rewrite signer_at_signed; now rewrite decide_True|].
  split; [rewrite signers_at_signed; apply last_snoc|].
  split; [intros r Hr; simpl; now apply lookup_insert_ne|].
  split; [intros Hnew%new_to_arg_ref; now apply signers_at_signed_new|].
  destruct (with_defaults_same_party (signers_at (signers self) w) s w)
    as (H1 & H2 & H3 & H4).
  repeat split; try assumption.
  rewrite H4. now apply str_in_elem_of.
Qed.

(** X3. [add_signer] gives an id only to a signer that has none: a signer
    passed with a non-empty id is appended with that id and no id is
    generated; a signer without one (or with the empty string) is appended
    with the id that one call of [create_unique_id] with the prefix
    [signer] returns. *)
Theorem add_signer_assigns_missing_id (self : CreateEtchPacket)
    (a : signer_arg) (s : EtchSigner) (w w' : World) :
  signer_of a w = Some s →
  add_signer self a w = Ok tt w' →
  ∃ s', last (signers_at (signers self) w') = Some s' ∧
    signer_at (arg_ref a w) w' = s' ∧
    (str_truthy (s_id s) = true →
       s_id s' = s_id s ∧ entropy w' = entropy w) ∧
    (str_truthy (s_id s) = false →
       ∃ i w1, create_unique_id "signer" w = Ok i w1 ∧
               s_id s' = Some i ∧ entropy w' = entropy w1).
Proof.
  intros Ea Hok.
  destruct (add_signer_ok_inv _ _ _ _ Hok) as (s1 & Ea1 & Ek & ->).
  rewrite Ea in Ea1. injection Ea1 as <-.
  exists (with_routing_order (signers_at (signers self) w) (with_id s w)).
  split; [rewrite signers_at_signed; apply last_snoc|].
  split; [rewrite signer_at_signed; now rewrite decide_True|].
  unfold with_routing_order, with_id. simpl.
  split; intros Et; rewrite Et; simpl.
  - destruct (int_truthy (s_routing_order s)); simpl; auto.
  - eexists. eexists. split; [reflexivity|].
    destruct (int_truthy (s_routing_order s)); simpl; auto.
Qed.

(** X4. The routing order [add_signer] gives to a signer passed without one
    (or with 0) is 1 on an empty list, and otherwise is greater than the
    routing order of every signer in the list before the call, a missing
    order counting as 0: the default never ties with an earlier signer. *)
Theorem add_signer_default_exceeds_existing (self : CreateEtchPacket)
    (a : signer_arg) (s : EtchSigner) (w w' : World) :
  signer_of a w = Some s →
  int_truthy (s_routing_order s) = false →
  add_signer self a w = Ok tt w' →
  ∃ s' z, last (signers_at (signers self) w') = Some s' ∧
    s_routing_order s' = Some z ∧
    (signers_at (signers self) w = [] → z = 1) ∧
    (∀ s0, s0 ∈ signers_at (signers self) w →
           or_zero (s_routing_order s0) < z).
Proof.
  intros Ea Ero Hok.
  destruct (add_signer_ok_inv _ _ _ _ Hok) as (s1 & Ea1 & _ & ->).
  rewrite Ea in Ea1. injection Ea1 as <-.
  exists (with_routing_order (signers_at (signers self) w) (with_id s w)),
         (default_routing_order (signers_at (signers self) w)).
  split; [rewrite signers_at_signed; apply last_snoc|].
  split; [apply with_routing_order_default; now rewrite with_id_routing_order|].
  split; [now intros ->|].
  intros s0 Hs0. now apply default_routing_order_above.
Qed.

End AddSignerFurther.

(** ** Construction: which collections the builder gets *)

Section ConstructionFurther.
Context `{Imports}.

Lemma signers_at_nil l w : signers_at l w = [] ↔ signer_refs_at l w = [].
Proof.
  unfold signers_at. split; [apply map_eq_nil|]. now intros ->.
Qed.

(** X5. The constructor adopts a collection the caller passes only when it
    is non-empty: a non-empty signer list, file list or fill-payload dict
    becomes the builder's own by reference, so that the two are one object,
    while for an empty one, as for none, the builder gets a new empty
    collection that did not exist before. *)
Theorem init_adopts_only_nonempty_collections (s0 f0 : option loc)
    (kw : Fields) (self : CreateEtchPacket) (w w' : World) :
  __init__ s0 f0 kw w = Ok self w' →
  (∀ r, s0 = Some r →
     (signers_at r w ≠ [] → signers self = r) ∧
     (signers_at r w = [] →
        (signers self ∉ dom (signer_lists w)) ∧
        signers_at (signers self) w' = [])) ∧
  (∀ r, f0 = Some r →
     (files_at r w ≠ [] → files self = r) ∧
     (files_at r w = [] →
        (files self ∉ dom (file_lists w)) ∧ files_at (files self) w' = [])) ∧
  (∀ r, k_file_payloads kw = Some r →
     (dict_at r w ≠ [] → file_payloads self = r) ∧
     (dict_at r w = [] →
        (file_payloads self ∉ dom (dicts w)) ∧
        dict_at (file_payloads self) w' = [])).
Proof.
  intros E. pose proof (init_ok_guard _ _ _ _ _ _ E) as Hg.
  destruct (init_sharing s0 f0 kw w Hg)
    as (b & w1 & E1 & Hs & Hf & Hd & _).
  destruct (init_accepts s0 f0 kw w Hg)
    as (b' & w1' & E2 & _ & _ & _ & _ & Cs & Cf & Cd & _).
  rewrite E in E1, E2. simplify_eq.
  split; [|split]; intros r Hr.
  - split.
    + intros Hne. apply (Hs r Hr). intros Hnil. apply Hne.
      now apply signers_at_nil.
    + intros Hnil%signers_at_nil.
      split; [now apply (Hs r Hr)|]. apply signers_at_nil.
      rewrite Cs, Hr. exact Hnil.
  - split; [apply (Hf r Hr)|]. intros Hnil.
    split; [now apply (Hf r Hr)|]. rewrite Cf, Hr. exact Hnil.
  - split; [apply (Hd r Hr)|]. intros Hnil.
    split; [now apply (Hd r Hr)|]. rewrite Cd, Hr. exact Hnil.
Qed.

(** X6. A construction that returns leaves every collection that existed
    and every object as it was, draws no entropy and logs nothing; the new
    builder's collections read as the ones passed, or are empty where none
    was passed, and its two flags are [False] and [True] unless given. *)
Theorem init_preserves_store (s0 f0 : option loc) (kw : Fields)
    (self : CreateEtchPacket) (w w' : World) :
  __init__ s0 f0 kw w = Ok self w' →
  (∀ r, r ∈ dom (signer_lists w) → signers_at r w' = signers_at r w) ∧
  (∀ r, r ∈ dom (file_lists w) → files_at r w' = files_at r w) ∧
  (∀ r, r ∈ dom (dicts w) → dict_at r w' = dict_at r w) ∧
  signer_objs w' = signer_objs w ∧ stream_objs w' = stream_objs w ∧
  entropy w' = entropy w ∧ debug_log w' = debug_log w ∧
  signers_at (signers self) w' = from_option (fun r => signers_at r w) [] s0 ∧
  files_at (files self) w' = from_option (fun r => files_at r w) [] f0 ∧
  dict_at (file_payloads self) w' =
    from_option (fun r => dict_at r w) [] (k_file_payloads kw) ∧
  is_draft self = default false (k_is_draft kw) ∧
  is_test self = default true (k_is_test kw).
Proof.
  intros E. pose proof (init_ok_guard _ _ _ _ _ _ E) as Hg.
  destruct (init_sharing s0 f0 kw w Hg)
    as (b & w1 & E1 & _ & _ & _ & Ks & Kf & Kd).
  destruct (init_accepts s0 f0 kw w Hg)
    as (b' & w1' & E2 & _ & _ & Hdr & Hte & Cs & Cf & Cd & _ & _ & _
        & Ho & Hst & He & Hlg).
  rewrite E in E1, E2. simplify_eq.
  split; [|split; [|split]].
  - intros r Hr. apply signers_at_agree; [|exact Ho].
    unfold signer_refs_at. now rewrite Ks.
  - intros r Hr. unfold files_at. now rewrite Kf.
  - intros r Hr. unfold dict_at. f_equal. now apply Kd.
  - do 4 (split; [assumption|]). split; [|auto].
    unfold signers_at, signer_at. rewrite Cs, Ho. now destruct s0.
Qed.

End ConstructionFurther.

(** ** [add_file] and the fill payloads *)

Section AddFileFurther.
Context `{Imports}.


(** X8. Once [add_file] has added an attachment, [add_file_payloads] for
    that attachment's id returns, and the fill payload is then in the
    builder's dict under the id. *)
Theorem add_file_then_fill_payload (self : CreateEtchPacket)
    (f : AttachableEtchFile) (data : json) (w w1 : World) :
  add_file self f w = Ok tt w1 →
  ∃ w2, add_file_payloads self (file_id f) data w1 = Ok tt w2 ∧
        dict_get (file_id f) (dict_at (file_payloads self) w2) = Some data.
Proof.
  intros E. rewrite add_file_run in E.
  destruct (nameless f w); [discriminate|]. injection E as <-.
  rewrite add_file_payloads_run.
  assert (Hin : str_in (file_id f)
                  (map file_id (files_at (files self) (filed self f w))) = true).
  { apply str_in_elem_of. rewrite files_at_filed, map_app.
    apply elem_of_app. right. simpl. apply list_elem_of_here. }
  rewrite Hin. eexists. split; [reflexivity|].
  unfold dict_at at 1. simpl. rewrite lookup_insert_eq. simpl.
  apply dict_get_set_eq.
Qed.

End AddFileFurther.

(** ** The check of the fill payloads, and what keeps it passing *)

Section KeysKnown.
Context `{Imports}.

Lemma find_none_Forall {A} (p : A → bool) (l : list A) :
  List.find p l = None ↔ Forall (fun x => p x = false) l.
Proof.
  induction l as [|x l IH]; simpl.
  - split; [constructor|reflexivity].
  - destruct (p x) eqn:Ex.
    + split; [discriminate|]. intros Hall. inversion Hall; congruence.
    + rewrite IH. split; [now constructor|]. intros Hall. now inversion Hall.
Qed.

Lemma find_first {A} (p : A → bool) (pre post : list A) (x : A) :
  Forall (fun y => p y = false) pre → p x = true →
  List.find p (pre ++ x :: post) = Some x.
Proof.
  intros Hpre Hx. induction Hpre as [|y pre Hy _ IH]; simpl.
  - now rewrite Hx.
  - now rewrite Hy.
Qed.

Lemma find_some_split {A} (p : A → bool) (l : list A) (x : A) :
  List.find p l = Some x →
  ∃ pre post, l = pre ++ x :: post ∧ Forall (fun y => p y = false) pre ∧
              p x = true.
Proof.
  induction l as [|y l IH]; simpl; [discriminate|].
  destruct (p y) eqn:Ey.
  - intros [= ->]. exists [], l. repeat split; [constructor|exact Ey].
  - intros (pre & post & -> & Hpre & Hx)%IH.
    exists (y :: pre), post. repeat split; [now constructor|exact Hx].
Qed.

Lemma stale_key_None self w : stale_key self w = None ↔ keys_known self w.
Proof.
  unfold stale_key, keys_known. rewrite find_none_Forall, existing_files_ids.
  apply Forall_iff. intros k. rewrite negb_false_iff. apply str_in_elem_of.
Qed.

Lemma dict_keys_set_elem {V} (k fid : string) (v : V) (d : pydict V) :
  k ∈ dict_keys (dict_set fid v d) → k = fid ∨ k ∈ dict_keys d.
Proof.
  unfold dict_keys. induction d as [|[k' v'] d IH]; simpl.
  - intros Hk. apply list_elem_of_singleton in Hk. now left.
  - destruct (String.eqb_spec fid k') as [->|Hne]; simpl.
    + intros Hk. now right.
    + intros Hk. apply elem_of_cons in Hk as [->|Hk].
      * right. apply list_elem_of_here.
      * destruct (IH Hk) as [->|Hd]; [now left|].
        right. now apply list_elem_of_further.
Qed.

(** Each mutator keeps the keys of the dict among the ids of the files. *)
Lemma mutate_keys_known self m w :
  keys_known self w → keys_known self (world_of (mutate self m w)).
Proof.
  intros Hk. destruct m as [a|f|fid data]; simpl.
  - rewrite add_signer_run. destruct (data_of a w) as [e|s]; [exact Hk|].
    destruct (str_in (s_signer_type s) ["embedded"; "email"]); exact Hk.
  - rewrite add_file_world. destruct (nameless f w); [exact Hk|].
    unfold keys_known. rewrite files_at_filed.
    eapply Forall_impl; [exact Hk|]. intros k Hin. simpl in Hin.
    rewrite map_app. apply elem_of_app. now left.
  - rewrite add_file_payloads_run.
    destruct (str_in fid _) eqn:Ein; simpl; [|exact Hk].
    apply str_in_elem_of in Ein.
    unfold keys_known, files_at, dict_at in *. simpl.
    rewrite lookup_insert_eq. simpl. apply Forall_forall. intros k Hin.
    apply dict_keys_set_elem in Hin as [->|Hin]; [exact Ein|].
    rewrite Forall_forall in Hk. now apply Hk.
Qed.

Lemma mutate_all_keys_known self ms :
  ∀ w, keys_known self w → keys_known self (mutate_all self ms w).
Proof.
  induction ms as [|m ms IH]; intros w Hk; simpl; [exact Hk|].
  apply IH. now apply mutate_keys_known.
Qed.

(** X9. If every key of the builder's fill-payload dict is the id of one of
    its files, as it is for an empty dict, then it stays so through every
    series of [add_signer], [add_file] and [add_file_payloads] calls,
    returning or raising: afterwards [get_file_payloads] returns, and
    [create_payload] can raise for a missing name only. *)
Theorem fill_payload_check_cannot_fail_through_mutators
    (self : CreateEtchPacket) (ms : list mutation) (w : World) :
  keys_known self w →
  keys_known self (mutate_all self ms w) ∧
  get_file_payloads self (mutate_all self ms w)
    = Ok (file_payloads self) (mutate_all self ms w) ∧
  (∀ e w', create_payload self (mutate_all self ms w) = Raise e w' →
           e = name_error).
Proof.
  intros Hk. pose proof (mutate_all_keys_known self ms w Hk) as Hk'.
  apply stale_key_None in Hk' as Hst.
  split; [exact Hk'|]. split.
  - now rewrite get_file_payloads_run, Hst.
  - intros e w' E. destruct (payload self) as [p|] eqn:Hp.
    + unfold create_payload in E. rewrite Hp in E. discriminate.
    + rewrite (create_payload_run _ _ Hp), Hst in E.
      destruct (str_truthy (name self)); [|congruence].
      destruct (assemble_spec self (mutate_all self ms w))
        as (p & w1 & Ea & _). congruence.
Qed.

(** X10. [get_file_payloads] returns the builder's own dict, by reference
    and in the unchanged store, when every key is the id of a file of the
    builder; otherwise it raises, in the unchanged store, the [ValueError]
    that names the first key, in the dict's order, that is no file's id. *)
Theorem get_file_payloads_reports_first_stale_key (self : CreateEtchPacket)
    (w : World) :
  (keys_known self w →
     get_file_payloads self w = Ok (file_payloads self) w) ∧
  (∀ pre k post,
     dict_keys (dict_at (file_payloads self) w) = pre ++ k :: post →
     Forall (fun k' => k' ∈ map file_id (files_at (files self) w)) pre →
     k ∉ map file_id (files_at (files self) w) →
     get_file_payloads self w = Raise (stale_payload_error k) w ∧
     exn_cls (stale_payload_error k) = ValueError) ∧
  (∀ r w', get_file_payloads self w = Ok r w' → keys_known self w).
Proof.
  rewrite get_file_payloads_run. split; [|split].
  - intros Hk%stale_key_None. now rewrite Hk.
  - intros pre k post Hkeys Hpre Hk. split; [|reflexivity].
    unfold stale_key. rewrite Hkeys, existing_files_ids.
    rewrite (find_first _ pre post k); [reflexivity| |].
    + eapply Forall_impl; [exact Hpre|]. intros k' Hin. simpl.
      apply negb_false_iff. now apply str_in_elem_of.
    + apply negb_true_iff. now apply str_in_not_elem_of.
  - intros r w' E. apply stale_key_None.
    destruct (stale_key self w); [discriminate|reflexivity].
Qed.

End KeysKnown.

(** ** [create_payload]: when it raises, what it leaves, what it returns *)

Section CreatePayloadFurther.
Context `{Imports}.

Lemma not_unset_truthy (o : option string) : ¬ unset o ↔ str_truthy o = true.
Proof.
  unfold unset. rewrite <- str_truthy_false.
  destruct (str_truthy o); split; congruence.
Qed.

(** X11. [create_payload] raises only on a builder without a pre-supplied
    payload, always in the unchanged store, and for one of two reasons: the
    name is unset, which is checked first and reported even when a fill
    payload is stale; or the name is set and some key of the fill-payload
    dict is no file's id, the first such key being the one reported.  With
    the name set and every key known it returns. *)
Theorem create_payload_raises_in_two_cases (self : CreateEtchPacket) (w : World) :
  (∀ e w', create_payload self w = Raise e w' →
     w' = w ∧ payload self = None ∧
     ((unset (name self) ∧ e = name_error) ∨
      (¬ unset (name self) ∧
       ∃ pre k post,
         dict_keys (dict_at (file_payloads self) w) = pre ++ k :: post ∧
         Forall (fun k' => k' ∈ map file_id (files_at (files self) w)) pre ∧
         (k ∉ map file_id (files_at (files self) w)) ∧
         e = stale_payload_error k))) ∧
  (payload self = None → unset (name self) →
     create_payload self w = Raise name_error w) ∧
  (payload self = None → ¬ unset (name self) → keys_known self w →
     ∃ p w1, create_payload self w = Ok p w1).
Proof.
  split; [|split].
  - intros e w' E. destruct (payload self) as [p|] eqn:Hp.
    { unfold create_payload in E. rewrite Hp in E. discriminate. }
    rewrite (create_payload_run _ _ Hp) in E.
    destruct (str_truthy (name self)) eqn:Hn.
    + destruct (stale_key self w) as [k|] eqn:Hk.
      2: { destruct (assemble_spec self w) as (p & w1 & Ea & _). congruence. }
      injection E as <- <-. split; [reflexivity|]. split; [reflexivity|].
      right. split; [now apply not_unset_truthy|].
      unfold stale_key in Hk. rewrite existing_files_ids in Hk.
      apply find_some_split in Hk as (pre & post & Hkeys & Hpre & Hbad).
      exists pre, k, post. split; [exact Hkeys|]. split; [|split].
      * eapply Forall_impl; [exact Hpre|]. intros k' Hk'. simpl in Hk'.
        apply negb_false_iff in Hk'. now apply str_in_elem_of.
      * apply negb_true_iff in Hbad. now apply str_in_not_elem_of.
      * reflexivity.
    + injection E as <- <-. split; [reflexivity|]. split; [reflexivity|].
      left. split; [now apply str_truthy_false|reflexivity].
  - intros Hp Hn%str_truthy_false.
    now rewrite (create_payload_run _ _ Hp), Hn.
  - intros Hp Hn%not_unset_truthy Hk%stale_key_None.
    rewrite (create_payload_run _ _ Hp), Hn, Hk.
    destruct (assemble_spec self w) as (p & w1 & Ea & _). eauto.
Qed.

(** What [create_payload] leaves, whether it returns or raises. *)
Lemma create_payload_world self w :
  let w' := world_of (create_payload self w) in
  preserved w w' ∧ streams_preserved w w' ∧
  entropy w' = entropy w ∧ debug_log w' = debug_log w ∧
  signers_at (signers self) w' = signers_at (signers self) w ∧
  files_at (files self) w' = files_at (files self) w ∧
  file_views_at (files self) w' = file_views_at (files self) w ∧
  dict_at (file_payloads self) w' = dict_at (file_payloads self) w.
Proof.
  assert (Hsame : preserved w w ∧ streams_preserved w w ∧
            entropy w = entropy w ∧ debug_log w = debug_log w ∧
            signers_at (signers self) w = signers_at (signers self) w ∧
            files_at (files self) w = files_at (files self) w ∧
            file_views_at (files self) w = file_views_at (files self) w ∧
            dict_at (file_payloads self) w = dict_at (file_payloads self) w).
  { split; [apply preserved_refl|]. split; [now intros r Hr|]. repeat split. }
  destruct (payload self) as [p|] eqn:Hp.
  - unfold create_payload. rewrite Hp. exact Hsame.
  - rewrite (create_payload_run _ _ Hp).
    destruct (str_truthy (name self)); [|exact Hsame].
    destruct (stale_key self w); [exact Hsame|].
    destruct (assemble_spec self w)
      as (p & w1 & Ea & _ & Hpres & Hstr & He & Hlg & _
          & (_ & Ks & Kf & Kv & Kd) & _).
    rewrite Ea. simpl. auto 10.
Qed.

(** X12. [create_payload] only reads the builder: whether it returns or
    raises, the builder's signer list, file list and fill-payload dict read
    afterwards as before, and so does every collection that existed; no
    signer object and no stream that the store knew is written to, no
    entropy is drawn and nothing is logged. *)
Theorem create_payload_reads_only (self : CreateEtchPacket) (w : World) :
  let w' := world_of (create_payload self w) in
  signers_at (signers self) w' = signers_at (signers self) w ∧
  files_at (files self) w' = files_at (files self) w ∧
  file_views_at (files self) w' = file_views_at (files self) w ∧
  dict_at (file_payloads self) w' = dict_at (file_payloads self) w ∧
  (∀ r, r ∈ dom (signer_lists w) → signers_at r w' = signers_at r w) ∧
  (∀ r, r ∈ dom (file_lists w) → files_at r w' = files_at r w) ∧
  (∀ r, r ∈ dom (file_lists w) → file_views_at r w' = file_views_at r w) ∧
  (∀ r, r ∈ dom (dicts w) → dict_at r w' = dict_at r w) ∧
  (∀ r, r ∈ dom (signer_objs w) → signer_at r w' = signer_at r w) ∧
  (∀ r, r ∈ dom (stream_objs w) → stream_at r w' = stream_at r w) ∧
  entropy w' = entropy w ∧ debug_log w' = debug_log w.
Proof.
  destruct (create_payload_world self w)
    as (Hpres & Hstr & He & Hlg & Ks & Kf & Kv & Kd).
  intros w'. fold w' in Hpres, Hstr, He, Hlg, Ks, Kf, Kv, Kd.
  split; [exact Ks|]. split; [exact Kf|]. split; [exact Kv|].
  split; [exact Kd|].
  split; [intros r Hr; now apply preserved_signers_at|].
  split; [intros r Hr; now apply preserved_files_at|].
  split; [intros r Hr; now apply preserved_file_views_at|].
  split; [intros r Hr; now apply preserved_dict_at|].
  split.
  { intros r Hr. unfold signer_at. destruct Hpres as (Ho & _).
    rewrite Ho; [reflexivity|]. now apply signer_obj_in_use. }
  split; [|auto].
  intros r Hr. unfold stream_at. rewrite Hstr; [reflexivity|].
  now apply elem_of_union_l.
Qed.

(** X13. On a builder without a pre-supplied payload, the payload that
    [create_payload] returns carries the builder's name, which is set, its
    two flags and its other packet-level fields, an empty dict for page
    options that are [None]; and its signers, its attachments with their
    streams and its data block read as the builder's list, list and dict
    did at the call. *)
Theorem create_payload_carries_builder_state (self : CreateEtchPacket)
    (p : CreateEtchPacketPayload) (w w1 : World) :
  payload self = None →
  create_payload self w = Ok p w1 →
  p_name p = name self ∧ ¬ unset (p_name p) ∧
  p_is_draft p = is_draft self ∧ p_is_test p = is_test self ∧
  p_signature_email_subject p = signature_email_subject self ∧
  p_signature_email_body p = signature_email_body self ∧
  p_webhook_url p = webhook_url self ∧
  p_reply_to_email p = reply_to_email self ∧
  p_reply_to_name p = reply_to_name self ∧
  p_merge_pdfs p = merge_pdfs self ∧
  p_enable_emails p = enable_emails self ∧
  p_create_cast_templates_from_uploads p
    = create_cast_templates_from_uploads self ∧
  p_duplicate_casts p = duplicate_casts self ∧
  p_signature_page_options p = default [] (signature_page_options self) ∧
  signers_at (p_signers p) w1 = signers_at (signers self) w ∧
  file_views_at (p_files p) w1 = file_views_at (files self) w ∧
  map file_id (files_at (p_files p) w1) = map file_id (files_at (files self) w) ∧
  dict_at (p_data p) w1 = dict_at (file_payloads self) w.
Proof.
  intros Hp E.
  destruct (create_payload_ok_inv _ _ _ _ Hp E) as (Hn & _ & Ea).
  destruct (assemble_spec self w)
    as (p' & w1' & Ea' & Hp' & _ & _ & _ & _ & (Rs & Rf & Rd) & _).
  rewrite Ea in Ea'. injection Ea' as <- <-.
  assert (Hids : map file_id (files_at (p_files p) w1)
                 = map file_id (files_at (files self) w)).
  { unfold file_views_at in Rf. now apply file_views_ids in Rf. }
  rewrite Hp' in *. simpl in *.
  split; [reflexivity|]. split; [now apply not_unset_truthy|].
  do 12 (split; [reflexivity|]). auto.
Qed.

End CreatePayloadFurther.

(** ** The bulk import: what the builder holds afterwards *)

Section BulkImportFurther.
Context `{Imports}.

Lemma import_signers_ok self (l : list SignerKw) :
  ∀ w w', for_each l (fun d => run_import_step self (ImportSigner d)) w = Ok tt w' →
  ∃ ss, signers_at (signers self) w' = signers_at (signers self) w ++ ss ∧
        Forall2 (fun d s' => ∃ s, EtchSigner_new d = inr s ∧ same_party s s' ∧
                                  s_signer_type s' ∈ ["embedded"; "email"])
                l ss ∧
        stream_objs w' = stream_objs w ∧
        file_lists w' = file_lists w ∧ dicts w' = dicts w.
Proof.
  induction l as [|d l IH]; intros w w' Hrun.
  - simpl in Hrun. run. injection Hrun as <-. exists [].
    rewrite app_nil_r. repeat split. constructor.
  - apply for_each_cons_ok in Hrun as (w1 & Hstep & Hrest).
    rewrite run_import_signer in Hstep.
    destruct (EtchSigner_new d) as [e|s] eqn:Ed; [discriminate|].
    destruct (str_in (s_signer_type s) ["embedded"; "email"]) eqn:Ek;
      [|discriminate].
    injection Hstep as <-.
    destruct (IH _ w' Hrest) as (ss & Hss & Hall & Hst & Hf & Hd).
    exists (with_routing_order (signers_at (signers self) w) (with_id s w) :: ss).
    split.
    { rewrite Hss, signers_at_signed_new by apply fresh_signer_not_listed.
      now rewrite <- app_assoc. }
    split; [|auto].
    constructor; [|exact Hall]. exists s.
    split; [exact Ed|]. split; [apply with_defaults_same_party|].
    destruct (with_defaults_same_party (signers_at (signers self) w) s w)
      as (_ & _ & _ & ->). now apply str_in_elem_of.
Qed.

Lemma typed_idem (st : Stream) : typed (typed st) = typed st.
Proof.
  destruct st as [n b c]. unfold typed. simpl. destruct c as [c|]; simpl.
  - reflexivity.
  - now destruct (fst (guess_type (default "" n))).
Qed.

(** The stream of the attachment handed to an [add_file] that returns. *)
Lemma filed_stream self f w r :
  nameless f w = false → stream_ref f = Some r →
  stream_at r (filed self f w) = typed (stream_at r w).
Proof.
  intros Hn Er. unfold nameless, untyped_stream in Hn.
  unfold stream_at at 1, typed. simpl. unfold untyped_stream.
  rewrite Er in *. destruct (st_content_type (stream_at r w)) eqn:Ec.
  - reflexivity.
  - rewrite lookup_insert_eq. reflexivity.
Qed.

Lemma filed_stream_other self f w r :
  stream_ref f ≠ Some r → stream_at r (filed self f w) = stream_at r w.
Proof.
  intros Hne. unfold stream_at. now rewrite stream_objs_filed.
Qed.

Lemma import_files_ok self (l : list FileKw) :
  ∀ w w', for_each l (fun d => run_import_step self (ImportFile d)) w = Ok tt w' →
  ∃ fs, files_at (files self) w' = files_at (files self) w ++ fs ∧
        Forall2 (fun d f' => ∃ u, DocumentUpload_new d = inr u ∧ f' = Upload u)
                l fs ∧
        (∀ r, stream_at r w' = stream_at r w ∨
              stream_at r w' = typed (stream_at r w)) ∧
        (∀ r, r ∈ stream_refs fs → stream_at r w' = typed (stream_at r w)) ∧
        signer_objs w' = signer_objs w ∧
        signer_lists w' = signer_lists w ∧ dicts w' = dicts w.
Proof.
  induction l as [|d l IH]; intros w w' Hrun.
  - simpl in Hrun. run. injection Hrun as <-. exists [].
    rewrite app_nil_r. repeat split; try constructor; auto.
    intros r Hr. now apply elem_of_nil in Hr.
  - apply for_each_cons_ok in Hrun as (w1 & Hstep & Hrest).
    simpl in Hstep. run. destruct (DocumentUpload_new d) as [e|u] eqn:Ed;
      simpl in Hstep; [discriminate|].
    rewrite add_file_run in Hstep.
    destruct (nameless (Upload u) w) eqn:Hn; [discriminate|].
    injection Hstep as <-.
    destruct (IH _ w' Hrest) as (fs & Hfs & Hall & Hany & Hty & Ho & Hs & Hd).
    assert (Hstep : ∀ r,
              stream_at r (filed self (Upload u) w) =
                if decide (stream_ref (Upload u) = Some r)
                then typed (stream_at r w) else stream_at r w).
    { intros r. destruct (decide (stream_ref (Upload u) = Some r)) as [E|E].
      - now apply filed_stream.
      - now apply filed_stream_other. }
    exists (Upload u :: fs).
    split; [rewrite Hfs, files_at_filed, <- app_assoc; reflexivity|].
    split; [constructor; eauto|].
    split; [|split; [|auto]].
    + intros r. destruct (Hany r) as [E|E]; rewrite E, Hstep;
        destruct (decide _); rewrite ?typed_idem; auto.
    + intros r [Hr|Hr]%stream_refs_cons.
      * destruct (Hany r) as [E|E]; rewrite E, Hstep;
          rewrite decide_True by exact Hr; rewrite ?typed_idem; reflexivity.
      * rewrite (Hty r Hr), Hstep. destruct (decide _);
          rewrite ?typed_idem; reflexivity.
Qed.

(** What a successful import went through. *)
Lemma create_from_dict_ok_inv (m : Mapping) w b w2 :
  create_from_dict m w = Ok b w2 →
  ∃ w1 wm, m_other m = [] ∧
    __init__ None None (m_fields m) w = Ok b w1 ∧
    for_each (default [] (m_signers m))
      (fun d => run_import_step b (ImportSigner d)) w1 = Ok tt wm ∧
    for_each (default [] (m_files m))
      (fun d => run_import_step b (ImportFile d)) wm = Ok tt w2.
Proof.
  intros E.
  destruct (call_with_filtered_keys m w) as [b1 w1|e w1] eqn:Ec.
  - rewrite (create_from_dict_run _ _ _ _ Ec) in E.
    destruct (for_each (import_steps m) (run_import_step b1) w1)
      as [[] w3|e w3] eqn:Es; [|discriminate].
    injection E as <- <-.
    unfold import_steps in Es. rewrite for_each_app in Es.
    apply bind_inv_ok in Es as ([] & wm & Es1 & Es2). cbv beta in Es2.
    rewrite for_each_map in Es1. rewrite for_each_map in Es2.
    exists w1, wm. unfold call_with_filtered_keys in Ec.
    destruct (m_other m); [|discriminate]. auto.
  - exfalso. destruct (call_with_filtered_keys_raise _ _ _ _ Ec) as [Hc ->].
    unfold create_from_dict, try_except in E. run. rewrite Ec in E.
    destruct e as [c msg cause]. simpl in Hc. subst c. discriminate.
Qed.

(** X14. When [create_from_dict] returns, the builder is the one the
    constructor built from the remaining keys, and it holds one signer per
    listed signer mapping and one attachment per listed file mapping, in the
    order listed: each signer is the constructed one up to its id and its
    routing order and has a valid kind, each attachment is the constructed
    upload, and the stream of each listed stream upload is as [add_file]
    leaves it: with the content type guessed from its name if it had
    none. *)
Theorem create_from_dict_holds_listed_entities (m : Mapping)
    (b : CreateEtchPacket) (w w2 : World) :
  create_from_dict m w = Ok b w2 →
  m_other m = [] ∧
  (∃ w1, __init__ None None (m_fields m) w = Ok b w1) ∧
  name b = k_name (m_fields m) ∧ payload b = k_payload (m_fields m) ∧
  Forall2 (fun d s' => ∃ s, EtchSigner_new d = inr s ∧ same_party s s' ∧
                            s_signer_type s' ∈ ["embedded"; "email"])
          (default [] (m_signers m)) (signers_at (signers b) w2) ∧
  Forall2 (fun d f' => ∃ u, DocumentUpload_new d = inr u ∧ f' = Upload u)
          (default [] (m_files m)) (files_at (files b) w2) ∧
  (∀ r, r ∈ stream_refs (files_at (files b) w2) →
        stream_at r w2 = typed (stream_at r w)).
Proof.
  intros (w1 & wm & Ho & Ei & Es & Ef)%create_from_dict_ok_inv.
  pose proof (init_ok_guard _ _ _ _ _ _ Ei) as Hg.
  destruct (init_accepts None None (m_fields m) w Hg)
    as (b' & w1' & E2 & Hn & Hp & _ & _ & Cs & Cf & _ & _ & _ & _
        & Ho1 & Hst1 & _).
  rewrite Ei in E2. injection E2 as <- <-. simpl in Cs, Cf.
  destruct (import_signers_ok b _ _ _ Es) as (ss & Hss & Hs2 & Hstm & Hfl & _).
  destruct (import_files_ok b _ _ _ Ef)
    as (fs & Hfs & Hf2 & _ & Hty & Ho2 & Hsl2 & _).
  assert (Hfiles : files_at (files b) w2 = fs).
  { rewrite Hfs. unfold files_at in *. now rewrite Hfl, Cf. }
  split; [exact Ho|]. split; [eauto|]. split; [exact Hn|]. split; [exact Hp|].
  split; [|split].
  - assert (Hv : signers_at (signers b) w2 = signers_at (signers b) wm).
    { apply signers_at_agree; [|exact Ho2].
      unfold signer_refs_at. now rewrite Hsl2. }
    rewrite Hv, Hss. unfold signers_at at 1. rewrite Cs. exact Hs2.
  - rewrite Hfiles. exact Hf2.
  - rewrite Hfiles. intros r Hr. rewrite (Hty r Hr).
    unfold stream_at. now rewrite Hstm, Hst1.
Qed.

Lemma for_each_ok_transfer {A} (l : list A) (f g : A → M unit) :
  (∀ x w w', f x w = Ok tt w' → g x w = Ok tt w') →
  ∀ w w', for_each l f w = Ok tt w' → for_each l g w = Ok tt w'.
Proof.
  intros Hfg. induction l as [|x l IH]; intros w w' E; [exact E|].
  apply for_each_cons_ok in E as (w1 & E1 & E2).
  simpl. run. rewrite (Hfg _ _ _ E1). now apply IH.
Qed.

(** A listed signer that is imported is added as [add_signer] adds the
    mapping itself. *)
Lemma run_import_signer_ok self d w w' :
  run_import_step self (ImportSigner d) w = Ok tt w' →
  add_signer self (AsDict d) w = Ok tt w'.
Proof.
  rewrite run_import_signer, add_signer_run. simpl.
  destruct (EtchSigner_new d) as [e|s]; [discriminate|].
  now destruct (str_in (s_signer_type s) ["embedded"; "email"]).
Qed.

Lemma held_refs_dicts (l : list SignerKw) : held_refs (map AsDict l) = [].
Proof. induction l as [|d l IH]; [reflexivity|exact IH]. Qed.

(** X15. When [create_from_dict] returns and none of the listed signers is
    constructed with a routing order, the signers of the builder carry the
    routing orders 1, 2, ..., n in the order listed. *)
Theorem create_from_dict_numbers_signers (m : Mapping)
    (b : CreateEtchPacket) (w w2 : World) :
  create_from_dict m w = Ok b w2 →
  Forall (fun d => ∀ s, EtchSigner_new d = inr s → s_routing_order s = None)
         (default [] (m_signers m)) →
  map s_routing_order (signers_at (signers b) w2)
    = map Some (seqZ 1 (Z.of_nat (length (default [] (m_signers m))))).
Proof.
  intros (w1 & wm & Ho & Ei & Es & Ef)%create_from_dict_ok_inv Hnone.
  pose proof (init_ok_guard _ _ _ _ _ _ Ei) as Hg.
  destruct (init_accepts None None (m_fields m) w Hg)
    as (b' & w1' & E2 & _ & _ & _ & _ & Cs & _).
  rewrite Ei in E2. injection E2 as <- <-. simpl in Cs.
  destruct (import_files_ok b _ _ _ Ef) as (fs & _ & _ & _ & _ & Ho2 & Hsl2 & _).
  assert (Hv : signers_at (signers b) w2 = signers_at (signers b) wm).
  { apply signers_at_agree; [|exact Ho2].
    unfold signer_refs_at. now rewrite Hsl2. }
  assert (Hempty : signers_at (signers b) w1 = [])
    by (unfold signers_at; now rewrite Cs).
  apply (for_each_ok_transfer _ _ (fun d => add_signer b (AsDict d))) in Es;
    [|intros; now apply run_import_signer_ok].
  rewrite <- (for_each_map AsDict) in Es.
  destruct (add_signers_count_on b (map AsDict (default [] (m_signers m)))
              w1 wm) as (added & Hadd & Hord); [| | |exact Es|].
  - rewrite held_refs_dicts. constructor.
  - apply Forall_forall. intros a Ha r Hr.
    apply list_elem_of_fmap in Ha as (d & -> & _). discriminate.
  - apply Forall_fmap. eapply Forall_impl; [exact Hnone|].
    intros d Hd s Hs. simpl. now rewrite (Hd s Hs).
  - rewrite Hv, Hadd, Hempty. simpl. rewrite Hord, Hempty, length_map.
    reflexivity.
Qed.

(** A step of the import on a builder whose lists are new keeps what the
    store held before the import. *)
Lemma import_step_preserved self w st wk :
  signers self ∉ dom (signer_lists w) → files self ∉ dom (file_lists w) →
  preserved w wk →
  preserved w (world_of (run_import_step self st wk)).
Proof.
  intros Ns Nf Hp. pose proof Hp as (Ho & Hl & Hf & Hd). destruct st as [d|d].
  - rewrite run_import_signer.
    assert (Hfr : ∀ r, r ∈ signer_refs_in_use w →
                       r ≠ fresh (signer_refs_in_use wk)).
    { intros r Hr ->. apply (fresh_signer_not_in_use wk).
      now apply (preserved_in_use w wk). }
    destruct (EtchSigner_new d) as [e|s]; [exact Hp|].
    destruct (str_in (s_signer_type s) ["embedded"; "email"]); simpl.
    + split; [|split; [|split]]; simpl; try assumption.
      * intros r Hr. rewrite lookup_insert_ne by (symmetry; now apply Hfr).
        now apply Ho.
      * intros l Hin. rewrite lookup_insert_ne by (now intros <-).
        now apply Hl.
    + split; [|split; [|split]]; simpl; try assumption.
      intros r Hr. rewrite lookup_insert_ne by (symmetry; now apply Hfr).
      now apply Ho.
  - simpl. run. destruct (DocumentUpload_new d) as [e|u]; [exact Hp|]. simpl.
    rewrite add_file_world. destruct (nameless (Upload u) wk); [exact Hp|].
    split; [|split; [|split]]; simpl; try assumption.
    intros l Hin. rewrite lookup_insert_ne by (now intros <-). now apply Hf.
Qed.

Lemma import_steps_preserved self w (l : list import_step) :
  signers self ∉ dom (signer_lists w) → files self ∉ dom (file_lists w) →
  ∀ wk, preserved w wk →
        preserved w (world_of (for_each l (run_import_step self) wk)).
Proof.
  intros Ns Nf. induction l as [|st l IH]; intros wk Hp; simpl; [exact Hp|].
  run. pose proof (import_step_preserved self w st wk Ns Nf Hp) as Hstep.
  destruct (run_import_step self st wk) as [[] w1|e w1]; simpl in *.
  - now apply IH.
  - exact Hstep.
Qed.

(** X16. [create_from_dict] works on collections of its own: whether it
    returns or raises, every signer list, file list and dict that existed
    before the call reads afterwards as it did, wherever in the import the
    call stopped, and no signer object that the store knew is written
    to. *)
Theorem create_from_dict_spares_existing_collections (m : Mapping) (w : World) :
  let w' := world_of (create_from_dict m w) in
  (∀ r, r ∈ dom (signer_lists w) → signers_at r w' = signers_at r w) ∧
  (∀ r, r ∈ dom (file_lists w) → files_at r w' = files_at r w) ∧
  (∀ r, r ∈ dom (dicts w) → dict_at r w' = dict_at r w) ∧
  (∀ r, r ∈ dom (signer_objs w) → signer_at r w' = signer_at r w).
Proof.
  assert (Hfrom : ∀ w', preserved w w' →
    (∀ r, r ∈ dom (signer_lists w) → signers_at r w' = signers_at r w) ∧
    (∀ r, r ∈ dom (file_lists w) → files_at r w' = files_at r w) ∧
    (∀ r, r ∈ dom (dicts w) → dict_at r w' = dict_at r w) ∧
    (∀ r, r ∈ dom (signer_objs w) → signer_at r w' = signer_at r w)).
  { intros w' Hp.
    split; [intros r Hr; now apply preserved_signers_at|].
    split; [intros r Hr; now apply preserved_files_at|].
    split; [intros r Hr; now apply preserved_dict_at|].
    intros r Hr. unfold signer_at. destruct Hp as (Ho & _).
    rewrite Ho; [reflexivity|]. now apply signer_obj_in_use. }
  intros w'. apply Hfrom. subst w'.
  destruct (call_with_filtered_keys m w) as [b w1|e w1] eqn:Ec.
  - rewrite (create_from_dict_run _ _ _ _ Ec).
    assert (Ei : __init__ None None (m_fields m) w = Ok b w1).
    { unfold call_with_filtered_keys in Ec.
      destruct (m_other m); [exact Ec|discriminate]. }
    pose proof (init_ok_guard _ _ _ _ _ _ Ei) as Hg.
    destruct (init_sharing None None (m_fields m) w Hg)
      as (b1 & w1' & E1 & _ & _ & _ & Ks & Kf & Kd).
    destruct (init_refs None None (m_fields m) w Hg)
      as (b2 & w2' & E2 & Rs & Rf & _).
    destruct (init_accepts None None (m_fields m) w Hg)
      as (b3 & w3' & E3 & _ & _ & _ & _ & _ & _ & _ & _ & _ & _ & Ho & _).
    rewrite Ei in E1, E2, E3.
    injection E1 as <- <-. injection E2 as <- <-. injection E3 as <- <-.
    assert (Hp1 : preserved w w1).
    { split; [intros r _; now rewrite Ho|]. auto. }
    destruct Rs as [[=]|Rs]. destruct Rf as [[=]|Rf].
    pose proof (import_steps_preserved b w (import_steps m) Rs Rf w1 Hp1) as Hp.
    now destruct (for_each (import_steps m) (run_import_step b) w1).
  - destruct (call_with_filtered_keys_raise _ _ _ _ Ec) as [Hc ->].
    assert (Er : create_from_dict m w = Raise (import_error e) w).
    { unfold create_from_dict, try_except. run. rewrite Ec.
      destruct e as [c msg cause]. simpl in Hc. subst c. reflexivity. }
    rewrite Er. apply preserved_refl.
Qed.

End BulkImportFurther.

(** ** Default routing orders after any list *)

Section RoutingOrderFurther.
Context `{Imports}.

(** X17. After any list of signers, whatever their routing orders, a
    series of successful [add_signer] calls, each handed a dict or a signer
    object of the store that is not yet in the builder's list, none of them
    carrying a routing order (or carrying 0) and no object being handed in
    twice, leaves the earlier entries as they are and appends signers whose
    routing orders are consecutive: d, d+1, ..., where d is one more than
    the greatest order in the list before, a missing order counting as 0,
    and 1 for an empty list. *)
Theorem default_routing_orders_continue (self : CreateEtchPacket)
    (args : list signer_arg) (w w' : World) :
  NoDup (held_refs args) →
  Forall (new_to self w) args →
  Forall (passes (fun s => int_truthy (s_routing_order s) = false) w) args →
  for_each args (add_signer self) w = Ok tt w' →
  ∃ added,
    signers_at (signers self) w' = signers_at (signers self) w ++ added ∧
    map s_routing_order added
      = map Some (seqZ (default_routing_order (signers_at (signers self) w))
                       (Z.of_nat (length args))) ∧
    (∀ s, s ∈ signers_at (signers self) w →
          or_zero (s_routing_order s)
          < default_routing_order (signers_at (signers self) w)).
Proof.
  intros Hnd Hnew Hargs Hrun.
  destruct (add_signers_count_on self args w w' Hnd Hnew Hargs Hrun)
    as (added & Hadd & Hord).
  exists added. split; [exact Hadd|]. split; [exact Hord|].
  intros s Hs. now apply default_routing_order_above.
Qed.

End RoutingOrderFurther.

(** ** The further properties on the example builders *)

Lemma add_signer_failure_changes_nothing_witness :
  world0 = world0 ∧
  kind_error = kind_error ∧
  s_signer_type (signer_at 12%positive world0) ∉ ["embedded"; "email"].
Proof.
  apply (@add_signer_failure_changes_nothing sample_imports packet0
           (AsSigner 12%positive) world0 world0 kind_error).
  vm_compute. reflexivity.
Defined.

Lemma add_signer_appends_one_witness :
  ∃ s s', signer_of late_signer world12 = Some s ∧
    signer_refs_at (signers open_packet) world12_signed
      = signer_refs_at (signers open_packet) world12 ++ [11%positive] ∧
    signer_at 11%positive world12_signed = s' ∧
    signers_at (signers open_packet) world12_signed
      = signers_at (signers open_packet) world12 ++ [s'] ∧
    same_party s s' ∧
    s_signer_type s' ∈ ["embedded"; "email"] ∧
    stream_objs world12_signed = stream_objs world12 ∧
    file_lists world12_signed = file_lists world12 ∧
    dicts world12_signed = dicts world12.
Proof.
  destruct (@add_signer_appends_one sample_imports open_packet late_signer
              world12 world12_signed)
    as (s & s' & Hs & Hr & Ho & _ & _ & Hnew & Hn & He & Hf & Ht & Hk
        & Hst & Hfl & Hd); [vm_compute; reflexivity|].
  exists s, s'. split; [exact Hs|]. split; [exact Hr|]. split; [exact Ho|].
  split; [|repeat split; assumption].
  apply Hnew. intros r E. injection E as <-. by_decide.
Defined.

Lemma add_signer_assigns_missing_id_witness :
  ∃ s', last (signers_at (signers open_packet) world12_signed) = Some s' ∧
    signer_at 11%positive world12_signed = s' ∧
    (str_truthy (s_id (jackie "embedded" None)) = true →
       s_id s' = s_id (jackie "embedded" None) ∧
       entropy world12_signed = entropy world12) ∧
    (str_truthy (s_id (jackie "embedded" None)) = false →
       ∃ i w1, @create_unique_id sample_imports "signer" world12 = Ok i w1 ∧
               s_id s' = Some i ∧ entropy world12_signed = entropy w1).
Proof.
  apply (@add_signer_assigns_missing_id sample_imports open_packet late_signer
           (jackie "embedded" None) world12 world12_signed).
  - vm_compute. reflexivity.
  - vm_compute. reflexivity.
Defined.

Lemma add_signer_default_exceeds_existing_witness :
  ∃ s' z, last (signers_at (signers open_packet) world12_signed) = Some s' ∧
    s_routing_order s' = Some z ∧
    (signers_at (signers open_packet) world12 = [] → z = 1) ∧
    (∀ s0, s0 ∈ signers_at (signers open_packet) world12 →
           or_zero (s_routing_order s0) < z).
Proof.
  apply (@add_signer_default_exceeds_existing sample_imports open_packet
           late_signer (jackie "embedded" None) world12 world12_signed).
  - vm_compute. reflexivity.
  - reflexivity.
  - vm_compute. reflexivity.
Defined.

Lemma init_adopts_only_nonempty_collections_witness :
  (∀ r, Some 1%positive = Some r →
     (signers_at r world12 ≠ [] → signers shared_packet = r) ∧
     (signers_at r world12 = [] →
        (signers shared_packet ∉ dom (signer_lists world12)) ∧
        signers_at (signers shared_packet) shared_world = [])) ∧
  (∀ r, Some 1%positive = Some r →
     (files_at r world12 ≠ [] → files shared_packet = r) ∧
     (files_at r world12 = [] →
        (files shared_packet ∉ dom (file_lists world12)) ∧
        files_at (files shared_packet) shared_world = [])) ∧
  (∀ r, k_file_payloads sharing_fields = Some r →
     (dict_at r world12 ≠ [] → file_payloads shared_packet = r) ∧
     (dict_at r world12 = [] →
        (file_payloads shared_packet ∉ dom (dicts world12)) ∧
        dict_at (file_payloads shared_packet) shared_world = [])).
Proof.
  apply (init_adopts_only_nonempty_collections (Some 1%positive)
           (Some 1%positive) sharing_fields shared_packet world12
           shared_world).
  vm_compute. reflexivity.
Defined.

Lemma init_preserves_store_witness :
  (∀ r, r ∈ dom (signer_lists world12) →
        signers_at r shared_world = signers_at r world12) ∧
  (∀ r, r ∈ dom (file_lists world12) →
        files_at r shared_world = files_at r world12) ∧
  (∀ r, r ∈ dom (dicts world12) →
        dict_at r shared_world = dict_at r world12) ∧
  signer_objs shared_world = signer_objs world12 ∧
  stream_objs shared_world = stream_objs world12 ∧
  entropy shared_world = entropy world12 ∧
  debug_log shared_world = debug_log world12 ∧
  signers_at (signers shared_packet) shared_world
    = from_option (fun r => signers_at r world12) [] (Some 1%positive) ∧
  files_at (files shared_packet) shared_world
    = from_option (fun r => files_at r world12) [] (Some 1%positive) ∧
  dict_at (file_payloads shared_packet) shared_world
    = from_option (fun r => dict_at r world12) []
        (k_file_payloads sharing_fields) ∧
  is_draft shared_packet = default false (k_is_draft sharing_fields) ∧
  is_test shared_packet = default true (k_is_test sharing_fields).
Proof.
  apply (init_preserves_store (Some 1%positive) (Some 1%positive)
           sharing_fields shared_packet world12 shared_world).
  vm_compute. reflexivity.
Defined.

Lemma add_file_then_fill_payload_witness :
  ∃ w2, add_file_payloads packet0 (file_id (Upload encoded_pdf))
          (JStr "prefill") world0_filed = Ok tt w2 ∧
        dict_get (file_id (Upload encoded_pdf))
          (dict_at (file_payloads packet0) w2) = Some (JStr "prefill").
Proof.
  apply (@add_file_then_fill_payload sample_imports packet0
           (Upload encoded_pdf) (JStr "prefill") world0 world0_filed).
  vm_compute. reflexivity.
Defined.

Lemma fill_payload_check_cannot_fail_through_mutators_witness :
  keys_known packet0 (mutate_all packet0 calls_that_return world_a) ∧
  get_file_payloads packet0 (mutate_all packet0 calls_that_return world_a)
    = Ok (file_payloads packet0)
         (mutate_all packet0 calls_that_return world_a) ∧
  (∀ e w',
     create_payload packet0 (mutate_all packet0 calls_that_return world_a)
       = Raise e w' →
     e = name_error).
Proof.
  apply (@fill_payload_check_cannot_fail_through_mutators sample_imports
           packet0 calls_that_return world_a).
  unfold keys_known. vm_compute. constructor.
Defined.

Lemma create_payload_carries_builder_state_witness :
  p_name payload_a = name packet0 ∧ ¬ unset (p_name payload_a) ∧
  p_is_draft payload_a = is_draft packet0 ∧
  p_is_test payload_a = is_test packet0 ∧
  p_signature_email_subject payload_a = signature_email_subject packet0 ∧
  p_signature_email_body payload_a = signature_email_body packet0 ∧
  p_webhook_url payload_a = webhook_url packet0 ∧
  p_reply_to_email payload_a = reply_to_email packet0 ∧
  p_reply_to_name payload_a = reply_to_name packet0 ∧
  p_merge_pdfs payload_a = merge_pdfs packet0 ∧
  p_enable_emails payload_a = enable_emails packet0 ∧
  p_create_cast_templates_from_uploads payload_a
    = create_cast_templates_from_uploads packet0 ∧
  p_duplicate_casts payload_a = duplicate_casts packet0 ∧
  p_signature_page_options payload_a
    = default [] (signature_page_options packet0) ∧
  signers_at (p_signers payload_a) world_a1
    = signers_at (signers packet0) world_a ∧
  file_views_at (p_files payload_a) world_a1
    = file_views_at (files packet0) world_a ∧
  map file_id (files_at (p_files payload_a) world_a1)
    = map file_id (files_at (files packet0) world_a) ∧
  dict_at (p_data payload_a) world_a1
    = dict_at (file_payloads packet0) world_a.
Proof.
  apply (create_payload_carries_builder_state packet0 payload_a world_a
           world_a1).
  - reflexivity.
  - vm_compute. reflexivity.
Defined.

Lemma create_from_dict_holds_listed_entities_witness :
  m_other clean_mapping = [] ∧
  (∃ w1, __init__ None None (m_fields clean_mapping) desk
         = Ok imported_packet w1) ∧
  name imported_packet = k_name (m_fields clean_mapping) ∧
  payload imported_packet = k_payload (m_fields clean_mapping) ∧
  Forall2 (fun d s' => ∃ s, @EtchSigner_new sample_imports d = inr s ∧
                            same_party s s' ∧
                            s_signer_type s' ∈ ["embedded"; "email"])
          (default [] (m_signers clean_mapping))
          (signers_at (signers imported_packet) imported_world) ∧
  Forall2 (fun d f' => ∃ u, @DocumentUpload_new sample_imports d = inr u ∧
                            f' = Upload u)
          (default [] (m_files clean_mapping))
          (files_at (files imported_packet) imported_world) ∧
  (∀ r, r ∈ stream_refs (files_at (files imported_packet) imported_world) →
        stream_at r imported_world
          = @typed sample_imports (stream_at r desk)).
Proof.
  apply (@create_from_dict_holds_listed_entities sample_imports clean_mapping
           imported_packet desk imported_world).
  vm_compute. reflexivity.
Defined.

Lemma create_from_dict_numbers_signers_witness :
  map s_routing_order (signers_at (signers imported_packet) imported_world)
    = map Some
        (seqZ 1 (Z.of_nat (length (default [] (m_signers clean_mapping))))).
Proof.
  apply (@create_from_dict_numbers_signers sample_imports clean_mapping
           imported_packet desk imported_world).
  - vm_compute. reflexivity.
  - repeat constructor. intros s E. vm_compute in E.
    injection E as <-. reflexivity.
Defined.

Lemma default_routing_orders_continue_witness :
  ∃ added,
    signers_at (signers open_packet) world12_three
      = signers_at (signers open_packet) world12 ++ added ∧
    map s_routing_order added
      = map Some
          (seqZ (default_routing_order (signers_at (signers open_packet)
                                          world12))
                (Z.of_nat (length three_signers))) ∧
    (∀ s, s ∈ signers_at (signers open_packet) world12 →
          or_zero (s_routing_order s)
          < default_routing_order (signers_at (signers open_packet) world12)).
Proof.
  apply (@default_routing_orders_continue sample_imports open_packet
           three_signers world12 world12_three).
  - by_decide.
  - repeat (apply List.Forall_cons || apply List.Forall_nil);
      intros r E; try discriminate E; injection E as <-; by_decide.
  - repeat (apply List.Forall_cons || apply List.Forall_nil).
    + eexists. split; [vm_compute; reflexivity|reflexivity].
    + intros s E. vm_compute in E. injection E as <-. reflexivity.
    + eexists. split; [vm_compute; reflexivity|reflexivity].
  - vm_compute. reflexivity.
Defined.
